(** * olmocr research tooling: evaluation scorer and comparison viewer

    A shallow embedding of

    - [pdelfin/eval/runeval.py]: [NormalizedEntry], [normalize_json_entry],
      [process_jsonl_file], [do_eval];
    - [olmocr/bench/viewer2.py]: [parse_rules_file], [get_model_outputs],
      [generate_html].

    Conventions of the embedding.

    - A Python [str] is a Rocq [string]: a sequence of code points below 256.
    - A Python [int] is a [Z].  CPython's optional limit on the number of
      digits of an int/str conversion is not modelled.
    - A value produced by [json.loads] is a [json]; [None] is [JNull].  A JSON
      number is the rational it denotes (NaN and the infinities, which
      [json.loads] accepts as an extension, are outside the model).
    - An alignment score (a Python [float]) is an exact rational [Q] where
      only the order of scores and the integer totals matter.  The value of
      the score is stated in the module [PyNum], which has
      [process_jsonl_file] and [do_eval] with Python's arithmetic: exact
      [int]s, and [float]s whose operations are those of the interpreter.
    - A Python call either returns or raises: [outcome A].
    - Code of other packages ([json.loads], the [dolma_refine] comparer, the
      model runners, the PDF renderer) is a [Variable] of a [Section]. *)

From Stdlib Require Import ZArith NArith QArith Lia List Ascii String Bool Permutation Sorted.
From Stdlib Require Floats.
From stdpp Require Import base option list gmap strings.

#[local] Set Warnings "-register-all".

Open Scope string_scope.
Open Scope Z_scope.

(** ** Python outcomes *)

(** The exceptions the modelled code raises itself, and [BaseException] for
    one raised by foreign code that [except Exception] does not catch. *)
Inductive exn : Type :=
| KeyError
| IndexError
| TypeError
| ValueError
| AttributeError
| JSONDecodeError
| ZeroDivisionError
| BaseException (msg : string).

Inductive outcome (A : Type) : Type :=
| Ok (a : A)
| Raise (e : exn).

Arguments Ok {A} a.
Arguments Raise {A} e.

Definition bind {A B : Type} (m : outcome A) (k : A -> outcome B) : outcome B :=
  match m with
  | Ok a => k a
  | Raise e => Raise e
  end.

Notation "'let!' x ':=' m 'in' k" := (bind m (fun x => k))
  (at level 10, x name, m at level 100, k at level 200).

Definition returns {A : Type} (m : outcome A) : Prop := exists a, m = Ok a.

(** ** Strings *)

Definition dash : ascii := "-"%char.

(** [s.rindex("-")]: the highest index holding a dash; [None] stands for the
    [ValueError] Python raises when there is none. *)
Fixpoint rindex (c : ascii) (s : string) : option nat :=
  match s with
  | EmptyString => None
  | String a t =>
      match rindex c t with
      | Some i => Some (S i)
      | None => if Ascii.eqb a c then Some 0%nat else None
      end
  end.

(** [s[:i]] and [s[i:]] for [0 <= i]. *)
Fixpoint slice_to (i : nat) (s : string) : string :=
  match i, s with
  | S j, String a t => String a (slice_to j t)
  | _, _ => EmptyString
  end.

Fixpoint slice_from (i : nat) (s : string) : string :=
  match i, s with
  | S j, String _ t => slice_from j t
  | _, _ => s
  end.

(** [c in s] for a one-character needle. *)
Fixpoint has_char (c : ascii) (s : string) : bool :=
  match s with
  | EmptyString => false
  | String a t => Ascii.eqb a c || has_char c t
  end.

(** ** [int(str)] and [str(int)] *)

Definition is_digit (c : ascii) : bool :=
  let n := N_of_ascii c in ((48 <=? n) && (n <=? 57))%N.

Definition digit_val (c : ascii) : Z := Z.of_N (N_of_ascii c) - 48.

Definition digit_char (d : N) : ascii := ascii_of_N (48 + d).

(** The blanks [int] skips on either side: ASCII white space, and the two
    Latin-1 spaces NEL and NBSP. *)
Definition is_space (c : ascii) : bool :=
  let n := N_of_ascii c in
  (((9 <=? n) && (n <=? 13)) || (n =? 32) || (n =? 133) || (n =? 160))%N.

Fixpoint lstrip (s : string) : string :=
  match s with
  | String c t => if is_space c then lstrip t else s
  | EmptyString => EmptyString
  end.

Fixpoint all_space (s : string) : bool :=
  match s with
  | String c t => is_space c && all_space t
  | EmptyString => true
  end.

(** After the first digit: digits, each optionally preceded by one
    underscore.  Returns the value and what follows the numeral. *)
Fixpoint digits_loop (acc : Z) (s : string) : option (Z * string) :=
  match s with
  | EmptyString => Some (acc, EmptyString)
  | String c t =>
      if is_digit c then digits_loop (10 * acc + digit_val c) t
      else if Ascii.eqb c "_"%char then
        match t with
        | String d t' =>
            if is_digit d then digits_loop (10 * acc + digit_val d) t' else None
        | EmptyString => None
        end
      else Some (acc, s)
  end.

Definition parse_number (s : string) : option (Z * string) :=
  match s with
  | String c t => if is_digit c then digits_loop (digit_val c) t else None
  | EmptyString => None
  end.

(** [int(s)]; [None] stands for [ValueError]. *)
Definition py_int (s : string) : option Z :=
  let s1 := lstrip s in
  let '(neg, s2) :=
    match s1 with
    | String c t =>
        if Ascii.eqb c "+"%char then (false, t)
        else if Ascii.eqb c "-"%char then (true, t)
        else (false, s1)
    | EmptyString => (false, s1)
    end in
  match parse_number s2 with
  | Some (n, rest) => if all_space rest then Some (if neg then - n else n) else None
  | None => None
  end.

(** Decimal digits of a natural number, most significant first. *)
Fixpoint str_of_N_aux (fuel : nat) (n : N) (acc : string) : string :=
  match fuel with
  | O => acc
  | S f =>
      let acc' := String (digit_char (n mod 10)) acc in
      if (n <? 10)%N then acc' else str_of_N_aux f (n / 10) acc'
  end.

Definition str_of_N (n : N) : string :=
  str_of_N_aux (S (N.to_nat (N.log2 n))) n EmptyString.

(** [str(z)], which is also what an f-string field [{z}] renders. *)
Definition py_str (z : Z) : string :=
  if z <? 0 then String dash (str_of_N (Z.abs_N z)) else str_of_N (Z.to_N z).

(** ** Values produced by [json.loads] *)

Inductive json : Type :=
| JNull
| JBool (b : bool)
| JNum (q : Q)
| JStr (s : string)
| JArr (l : list json)
| JObj (o : list (string * json)).

(** A JSON object is a Python [dict] with [str] keys, listed in insertion
    order; a key stands for its first binding in the list. *)
Fixpoint dict_get (k : string) (o : list (string * json)) : option json :=
  match o with
  | [] => None
  | (k', v) :: o' => if String.eqb k' k then Some v else dict_get k o'
  end.

Definition has_key (k : string) (o : list (string * json)) : bool :=
  match dict_get k o with
  | Some _ => true
  | None => false
  end.

(** [needle in s] on strings. *)
Fixpoint is_prefix (p s : string) : bool :=
  match p, s with
  | EmptyString, _ => true
  | String a p', String b s' => Ascii.eqb a b && is_prefix p' s'
  | String _ _, EmptyString => false
  end.

Fixpoint has_substring (p s : string) : bool :=
  is_prefix p s ||
  match s with
  | EmptyString => false
  | String _ s' => has_substring p s'
  end.

(** The value of a number or a boolean, for [==] ([True == 1]). *)
Definition num_of (v : json) : option Q :=
  match v with
  | JBool b => Some (if b then 1%Q else 0%Q)
  | JNum q => Some q
  | _ => None
  end.

(** [a == b] when [a] is a string, a number, a boolean or [None]. *)
Definition scalar_eqb (a b : json) : bool :=
  match a, b with
  | JNull, JNull => true
  | JStr s, JStr t => String.eqb s t
  | _, _ =>
      match num_of a, num_of b with
      | Some p, Some q => Qeq_bool p q
      | _, _ => false
      end
  end.

(** [k in v] for a string [k]: key of a dict, substring of a string, element
    of a list; any other value is not iterable. *)
Definition py_in (k : string) (v : json) : outcome bool :=
  match v with
  | JObj o => Ok (has_key k o)
  | JStr s => Ok (has_substring k s)
  | JArr l => Ok (existsb (scalar_eqb (JStr k)) l)
  | _ => Raise TypeError
  end.

(** [v[k]] for a string [k]. *)
Definition py_getitem (v : json) (k : string) : outcome json :=
  match v with
  | JObj o => match dict_get k o with Some x => Ok x | None => Raise KeyError end
  | _ => Raise TypeError
  end.

(** [v[0]]. *)
Definition py_first (v : json) : outcome json :=
  match v with
  | JArr (x :: _) => Ok x
  | JArr [] => Raise IndexError
  | JStr (String c _) => Ok (JStr (String c EmptyString))
  | JStr EmptyString => Raise IndexError
  | JObj _ => Raise KeyError
  | _ => Raise TypeError
  end.

(** [v.get(k, None)]. *)
Definition py_get (v : json) (k : string) : outcome json :=
  match v with
  | JObj o => Ok (default JNull (dict_get k o))
  | _ => Raise AttributeError
  end.

(** Truth value of a JSON value, as [or] and [if] test it. *)
Definition truthy (v : json) : bool :=
  match v with
  | JNull => false
  | JBool b => b
  | JNum q => negb (Qeq_bool q 0)
  | JStr s => negb (String.eqb s EmptyString)
  | JArr l => match l with [] => false | _ :: _ => true end
  | JObj o => match o with [] => false | _ :: _ => true end
  end.

(** ** [NormalizedEntry] *)

Record NormalizedEntry : Type := mkNormalizedEntry {
  s3_path : string;
  pagenum : Z;
  text : json;
  finish_reason : json;
  error : json
}.

(** The [goldkey] property: the f-string [{s3_path}-{pagenum}]. *)
Definition goldkey (e : NormalizedEntry) : string :=
  s3_path e ++ String dash (py_str (pagenum e)).

(** [NormalizedEntry.from_goldkey(goldkey, text=, finish_reason=, error=)] on
    a [str] key. *)
Definition from_goldkey (k : string) (t fr err : json) : outcome NormalizedEntry :=
  match rindex dash k with
  | None => Raise ValueError
  | Some i =>
      match py_int (slice_from (S i) k) with
      | None => Raise ValueError
      | Some n => Ok (mkNormalizedEntry (slice_to i k) n t fr err)
      end
  end.

(** The same on whatever value the entry holds under [custom_id]: only a
    [str] has [rindex]. *)
Definition from_goldkey_value (k : json) (t fr err : json) : outcome NormalizedEntry :=
  match k with
  | JStr s => from_goldkey s t fr err
  | _ => Raise AttributeError
  end.

Section Normalize.

(** [json.loads] on a [str]; [None] stands for [json.JSONDecodeError]. *)
Variable json_loads : string -> option json.

(** [json.loads(v)] on any value: only a [str] can be decoded. *)
Definition loads_value (v : json) : outcome (option json) :=
  match v with
  | JStr s => Ok (json_loads s)
  | _ => Raise TypeError
  end.

(** [data["response"]["body"]["choices"][0]]. *)
Definition first_choice (data : json) : outcome json :=
  let! r := py_getitem data "response" in
  let! b := py_getitem r "body" in
  let! cs := py_getitem b "choices" in
  py_first cs.

Definition message_content (data : json) : outcome json :=
  let! c := first_choice data in
  let! m := py_getitem c "message" in
  py_getitem m "content".

Definition choice_finish_reason (data : json) : outcome json :=
  let! c := first_choice data in
  py_getitem c "finish_reason".

Definition normalize_json_entry (data : json) : outcome NormalizedEntry :=
  let! birr := py_in "outputs" data in
  if birr then
    let! outs := py_getitem data "outputs" in
    let! tf :=
      match outs with
      | JNull => Ok (JNull, JNull)
      | _ =>
          let! o := py_first outs in
          let! t := py_getitem o "text" in
          let! f := py_getitem o "finish_reason" in
          Ok (t, f)
      end in
    let! t :=
      match fst tf with
      | JNull => Ok JNull
      | t0 =>
          let! p := loads_value t0 in
          match p with
          | Some parsed_content => py_getitem parsed_content "natural_text"
          | None => Ok t0
          end
      end in
    let! k := py_getitem data "custom_id" in
    let! err := py_get data "completion_error" in
    from_goldkey_value k t (snd tf) err
  else
    let! c := message_content data in
    let! p := loads_value c in
    match p with
    | Some parsed_content =>
        let! k := py_getitem data "custom_id" in
        let! t := py_getitem parsed_content "natural_text" in
        let! f := choice_finish_reason data in
        from_goldkey_value k t f JNull
    | None =>
        let! k := py_getitem data "custom_id" in
        let! t := message_content data in
        let! f := choice_finish_reason data in
        from_goldkey_value k t f JNull
    end.

End Normalize.

(** ** Scoring: [process_jsonl_file] and [do_eval] *)

(** The comparer of [dolma_refine], as [do_eval] constructs it. *)
Inductive segmenter : Type :=
| SpacySegmenter (name : string).

Record aligner : Type := HirschbergAligner {
  match_score : Z;
  mismatch_score : Z;
  indel_score : Z
}.

Record comparer : Type := DocumentEditSimilarity {
  cmp_segmenter : segmenter;
  cmp_aligner : aligner
}.

(** One value of [page_data]. *)
Record page : Type := mkPage {
  pg_s3_path : string;
  pg_page : Z;
  pg_gold_text : json;
  pg_eval_text : json;
  pg_alignment : Q
}.

(** A [dict] with [str] keys that remembers insertion order: assigning to a
    key already present keeps its position. *)
Fixpoint od_set {V : Type} (k : string) (v : V) (d : list (string * V)) : list (string * V) :=
  match d with
  | [] => [(k, v)]
  | (k', v') :: d' =>
      if String.eqb k' k then (k', v) :: d' else (k', v') :: od_set k v d'
  end.

Fixpoint od_get {V : Type} (k : string) (d : list (string * V)) : option V :=
  match d with
  | [] => None
  | (k', v') :: d' => if String.eqb k' k then Some v' else od_get k d'
  end.

(** The five values [process_jsonl_file] returns. *)
Record file_result : Type := mkFileResult {
  total_alignment_score : Q;
  char_weighted_alignment_score : Q;
  total_chars : Z;
  total_pages : Z;
  page_data : list (string * page)
}.

Definition file_result0 : file_result := mkFileResult 0 0 0 0 [].

(** [pages.sort(key=lambda x: x["alignment"])]: a stable sort. *)
Fixpoint insert_page (x : page) (l : list page) : list page :=
  match l with
  | [] => [x]
  | y :: l' =>
      if Qle_bool (pg_alignment x) (pg_alignment y) then x :: l
      else y :: insert_page x l'
  end.

Fixpoint sort_pages (l : list page) : list page :=
  match l with
  | [] => []
  | x :: l' => insert_page x (sort_pages l')
  end.

(** [v or ''], the empty string standing in for a false value. *)
Definition or_empty (v : json) : json :=
  if truthy v then v else JStr EmptyString.

(** [len(v)]. *)
Definition py_len (v : json) : outcome Z :=
  match v with
  | JStr s => Ok (Z.of_nat (String.length s))
  | JArr l => Ok (Z.of_nat (List.length l))
  | JObj o => Ok (Z.of_nat (List.length (remove_dups (map fst o))))
  | _ => Raise TypeError
  end.

Section Eval.

Variable json_loads : string -> option json.

(** [comparer.compute(gold_text, eval_text)]. *)
Variable compute : comparer -> json -> json -> outcome Q.

(** [smart_open(path)]: the lines of a file. *)
Variable smart_open : string -> list string.

(** [list_jsonl_files(path)]: the listing of a directory or bucket. *)
Variable list_jsonl_files : string -> list string.

(** The order in which [as_completed] hands back the futures. *)
Variable as_completed : list (outcome file_result) -> list (outcome file_result).

(** [random.sample(population, k)] for [0 <= k <= len(population)]. *)
Variable random_sample : list page -> nat -> list page.

(** [json.loads(line)] followed by [normalize_json_entry]. *)
Definition load_line (line : string) : outcome NormalizedEntry :=
  match json_loads line with
  | None => Raise JSONDecodeError
  | Some data => normalize_json_entry json_loads data
  end.

(** The body of the loop of [process_jsonl_file]. *)
Definition process_line (gold_data : gmap string json) (c : comparer)
    (acc : file_result) (line : string) : outcome file_result :=
  let! data := load_line line in
  match gold_data !! goldkey data with
  | None => Ok acc
  | Some g =>
      let gold_text := or_empty g in
      let eval_text := or_empty (text data) in
      let! alignment := compute c gold_text eval_text in
      let! n := py_len gold_text in
      Ok (mkFileResult
            (total_alignment_score acc + alignment)
            (char_weighted_alignment_score acc + alignment * inject_Z n)
            (total_chars acc + n)
            (total_pages acc + 1)
            (od_set (goldkey data)
               (mkPage (s3_path data) (pagenum data) gold_text eval_text alignment)
               (page_data acc)))
  end.

Fixpoint run_lines (gold_data : gmap string json) (c : comparer)
    (acc : file_result) (lines : list string) : outcome file_result :=
  match lines with
  | [] => Ok acc
  | line :: rest =>
      let! acc' := process_line gold_data c acc line in
      run_lines gold_data c acc' rest
  end.

Definition process_jsonl_file (jsonl_file : string) (gold_data : gmap string json)
    (c : comparer) : outcome file_result :=
  run_lines gold_data c file_result0 (smart_open jsonl_file).

(** [load_gold_data]: every line of every gold file, later lines winning. *)
Fixpoint load_gold_lines (gold_data : gmap string json) (lines : list string)
    : outcome (gmap string json) :=
  match lines with
  | [] => Ok gold_data
  | line :: rest =>
      let! data := load_line line in
      load_gold_lines (<[goldkey data := text data]> gold_data) rest
  end.

Definition load_gold_data (gold_data_path : string) : outcome (gmap string json) :=
  load_gold_lines ∅ (concat (map smart_open (list_jsonl_files gold_data_path))).

(** The running totals of [do_eval]. *)
Record eval_totals : Type := mkEvalTotals {
  sum_score : Q;
  sum_weight : Z;
  page_eval_data : list page
}.

(** The loop over the completed futures; [future.result()] re-raises what
    the worker raised. *)
Fixpoint aggregate (acc : eval_totals) (done : list (outcome file_result))
    : outcome eval_totals :=
  match done with
  | [] => Ok acc
  | fut :: rest =>
      let! r := fut in
      aggregate
        (mkEvalTotals
           (sum_score acc + char_weighted_alignment_score r)
           (sum_weight acc + total_chars r)
           (page_eval_data acc ++ map snd (page_data r)))
        rest
  end.

Definition the_comparer : comparer :=
  DocumentEditSimilarity (SpacySegmenter "spacy") (HirschbergAligner 1 (-1) (-1)).

(** [do_eval] up to the end of the aggregation loop. *)
Definition eval_files (gold_data_path eval_data_path : string) : outcome eval_totals :=
  let! gold_data := load_gold_data gold_data_path in
  let jsonl_files := list_jsonl_files eval_data_path in
  match jsonl_files with
  | [] => Raise ValueError
  | _ =>
      let futures :=
        map (fun f => process_jsonl_file f gold_data the_comparer) jsonl_files in
      aggregate (mkEvalTotals 0 0 []) (as_completed futures)
  end.

(** [do_eval]: the mean is first formatted for printing (a zero weight
    raises there), the review pages are written ([create_review_html] only
    writes files), and the sample is drawn. *)
Definition do_eval (gold_data_path eval_data_path review_page_name : string)
    (review_page_size : Z) : outcome (Q * list page) :=
  let! t := eval_files gold_data_path eval_data_path in
  if sum_weight t =? 0 then Raise ZeroDivisionError
  else if (review_page_size <? 0) || (Z.of_nat (List.length (page_eval_data t)) <? review_page_size)
  then Raise ValueError
  else Ok ((sum_score t / inject_Z (sum_weight t))%Q,
           random_sample (sort_pages (page_eval_data t)) (Z.to_nat review_page_size)).

End Eval.

(** ** The comparison viewer *)

(** What a call into foreign code does: it returns, or raises an exception
    [e], of which the model keeps whether it is an instance of [Exception]
    and [str(e)]. *)
Inductive foreign (A : Type) : Type :=
| Returns (a : A)
| Throws (is_exception : bool) (msg : string).

Arguments Returns {A} a.
Arguments Throws {A} is_exception msg.

(** White space as [str.strip] sees it. *)
Definition py_isspace (c : ascii) : bool :=
  let n := N_of_ascii c in
  (((9 <=? n) && (n <=? 13)) || ((28 <=? n) && (n <=? 32)) || (n =? 133) || (n =? 160))%N.

Fixpoint py_lstrip (s : string) : string :=
  match s with
  | String c t => if py_isspace c then py_lstrip t else s
  | EmptyString => EmptyString
  end.

Fixpoint py_rstrip (s : string) : string :=
  match s with
  | String c t =>
      match py_rstrip t with
      | EmptyString => if py_isspace c then EmptyString else String c EmptyString
      | t' => String c t'
      end
  | EmptyString => EmptyString
  end.

Definition py_strip (s : string) : string := py_rstrip (py_lstrip s).

(** [s.replace('.', '-')]. *)
Fixpoint dom_id (s : string) : string :=
  match s with
  | String c t => String (if Ascii.eqb c "."%char then dash else c) (dom_id t)
  | EmptyString => EmptyString
  end.

(** [posixpath.dirname] and [posixpath.join]. *)
Definition slash : ascii := "/"%char.

Fixpoint all_slashes (s : string) : bool :=
  match s with
  | String c t => Ascii.eqb c slash && all_slashes t
  | EmptyString => true
  end.

Fixpoint rstrip_slashes (s : string) : string :=
  match s with
  | String c t =>
      match rstrip_slashes t with
      | EmptyString => if Ascii.eqb c slash then EmptyString else String c EmptyString
      | t' => String c t'
      end
  | EmptyString => EmptyString
  end.

Definition dirname (p : string) : string :=
  let head :=
    match rindex slash p with
    | Some i => slice_to (S i) p
    | None => EmptyString
    end in
  if all_slashes head then head else rstrip_slashes head.

Fixpoint ends_with_slash (s : string) : bool :=
  match s with
  | EmptyString => false
  | String c EmptyString => Ascii.eqb c slash
  | String _ t => ends_with_slash t
  end.

Definition path_join (a b : string) : string :=
  match b with
  | String c _ =>
      if Ascii.eqb c slash then b
      else if ends_with_slash a || String.eqb a EmptyString then a ++ b
      else a ++ String slash b
  | EmptyString =>
      if ends_with_slash a || String.eqb a EmptyString then a
      else a ++ String slash EmptyString
  end.

(** [os.path.join(a, v)] on a value: only a [str] is a path. *)
Definition path_join_value (a : string) (v : json) : outcome string :=
  match v with
  | JStr b => Ok (path_join a b)
  | _ => Raise TypeError
  end.

(** [pdf_rules]: a [defaultdict(list)]; keys stay in insertion order, and a
    key is found again by [==]. *)
Fixpoint rules_append (k rule : json) (d : list (json * list json))
    : list (json * list json) :=
  match d with
  | [] => [(k, [rule])]
  | (k', rs) :: d' =>
      if scalar_eqb k' k then (k', (rs ++ [rule])%list) :: d'
      else (k', rs) :: rules_append k rule d'
  end.

Definition hashable (v : json) : bool :=
  match v with
  | JArr _ | JObj _ => false
  | _ => true
  end.

(** The double quote, which the literals below are cut at. *)
Definition dq : string := String (ascii_of_nat 34) EmptyString.

Definition page_head : string :=
  "
    <!DOCTYPE html>
    <html lang=" ++ dq ++ "en" ++ dq ++ ">
    <head>
        <meta charset=" ++ dq ++ "UTF-8" ++ dq ++ ">
        <meta name=" ++ dq ++ "viewport" ++ dq ++ " content=" ++ dq ++ "width=device-width, initial-scale=1.0" ++ dq ++ ">
        <title>PDF Model Comparison</title>
        <style>
            body {
                font-family: Arial, sans-serif;
                margin: 0;
                padding: 20px;
                background-color: #f5f5f5;
            }
            
            .container {
                max-width: 1800px;
                margin: 0 auto;
            }
            
            h1 {
                color: #333;
                text-align: center;
                margin-bottom: 30px;
            }
            
            .pdf-container {
                background-color: white;
                border-radius: 8px;
                box-shadow: 0 2px 10px rgba(0, 0, 0, 0.1);
                margin-bottom: 30px;
                overflow: hidden;
            }
            
            .pdf-header {
                background-color: #4a6fa5;
                color: white;
                padding: 15px;
                font-size: 18px;
                font-weight: bold;
                display: flex;
                justify-content: space-between;
                align-items: center;
            }
            
            .pdf-content {
                display: flex;
                flex-direction: row;
                padding: 20px;
            }
            
            @media (max-width: 1200px) {
                .pdf-content {
                    flex-direction: column;
                }
            }
            
            .pdf-image {
                flex: 0 0 30%;
                max-width: 500px;
                text-align: center;
                padding-right: 20px;
            }
            
            .pdf-image img {
                max-width: 100%;
                height: auto;
                border: 1px solid #ddd;
            }
            
            .models-container {
                flex: 1;
                display: flex;
                flex-direction: column;
            }
            
            .model-outputs {
                display: flex;
                flex-direction: row;
                margin-bottom: 20px;
            }
            
            .model-output {
                flex: 1;
                margin: 0 10px;
                border: 1px solid #ddd;
                border-radius: 5px;
                overflow: hidden;
            }
            
            .model-header {
                background-color: #4a6fa5;
                color: white;
                padding: 10px;
                font-weight: bold;
                text-align: center;
            }
            
            .model-content {
                padding: 15px;
                height: 400px;
                overflow-y: auto;
                white-space: pre-wrap;
                font-family: monospace;
                font-size: 14px;
                background-color: #f8f9fa;
            }
            
            .difference-content {
                padding: 15px;
                height: 200px;
                overflow-y: auto;
                white-space: pre-wrap;
                font-family: monospace;
                font-size: 14px;
                background-color: #f8f9fa;
                display: none;
                margin-top: 20px;
                border: 1px solid #ddd;
                border-radius: 5px;
            }
            
            .controls {
                display: flex;
                justify-content: space-between;
                align-items: center;
                margin-bottom: 20px;
                padding: 10px;
                background-color: #e9ecef;
                border-radius: 5px;
            }
            
            .rating-controls {
                display: flex;
                flex-wrap: wrap;
                gap: 10px;
            }
            
            button {
                padding: 8px 15px;
                border: none;
                border-radius: 4px;
                cursor: pointer;
                font-weight: bold;
                transition: background-color 0.2s;
            }
            
            button:hover {
                opacity: 0.9;
            }
            
            .rating-btn {
                flex: 1;
                min-width: 120px;
            }
            
            .chatgpt-better {
                background-color: #28a745;
                color: white;
            }
            
            .gemini-better {
                background-color: #dc3545;
                color: white;
            }
            
            .both-good {
                background-color: #17a2b8;
                color: white;
            }
            
            .both-bad {
                background-color: #6c757d;
                color: white;
            }
            
            .invalid-pdf {
                background-color: #343a40;
                color: white;
            }
            
            .show-diff-btn {
                background-color: #fd7e14;
                color: white;
            }
            
            .highlight {
                background-color: #ffff99;
            }
            
            .rating-indicator {
                display: inline-block;
                padding: 5px 10px;
                border-radius: 4px;
                color: white;
                font-weight: bold;
                margin-left: 10px;
            }
            
            .error {
                color: #dc3545;
                padding: 20px;
                text-align: center;
                border: 1px solid #dc3545;
                border-radius: 5px;
                margin: 20px;
            }
        </style>
    </head>
    <body>
        <div class=" ++ dq ++ "container" ++ dq ++ ">
            <h1>PDF Model Comparison</h1>
    ".

Definition page_tail : string :=
  "
        </div>
        
        <script>
            // Store ratings
            const ratings = {};
            
            function rateModel(pdfId, rating) {
                // Save rating
                ratings[pdfId] = rating;
                
                // Update visual indicator
                const indicator = document.getElementById(`rating-${pdfId}`);
                indicator.textContent = rating.replace('-', ' ').toUpperCase();
                
                // Apply class matching the rating
                indicator.className = 'rating-indicator ' + rating;
                
                // Save ratings to localStorage
                localStorage.setItem('pdf-model-ratings', JSON.stringify(ratings));
            }
            
            function toggleDifference(pdfId) {
                const diffElement = document.getElementById(`diff-${pdfId}`);
                const chatgptContent = document.getElementById(`chatgpt-${pdfId}`).textContent;
                const geminiContent = document.getElementById(`gemini-${pdfId}`).textContent;
                
                if (diffElement.style.display === 'none' || !diffElement.style.display) {
                    diffElement.style.display = 'block';
                    
                    // If content is " ++ dq ++ "Loading differences..." ++ dq ++ ", calculate differences
                    if (diffElement.textContent.includes(" ++ dq ++ "Loading differences..." ++ dq ++ ")) {
                        // Simple difference highlighting
                        const diffResult = findDifferences(chatgptContent, geminiContent);
                        diffElement.innerHTML = diffResult;
                    }
                } else {
                    diffElement.style.display = 'none';
                }
            }
            
            function findDifferences(text1, text2) {
                // Split into sentences for comparison
                const sentences1 = text1.split(/(?<=[.!?])\s+/);
                const sentences2 = text2.split(/(?<=[.!?])\s+/);
                
                let result = " ++ dq ++ "<h4>ChatGPT unique content:</h4><ul>" ++ dq ++ ";
                
                // Find sentences in text1 that aren't in text2
                sentences1.forEach(sentence => {
                    if (sentence.trim().length > 10 && !text2.includes(sentence)) {
                        result += `<li><span class=" ++ dq ++ "highlight" ++ dq ++ ">${sentence}</span></li>`;
                    }
                });
                
                result += " ++ dq ++ "</ul><h4>Gemini unique content:</h4><ul>" ++ dq ++ ";
                
                // Find sentences in text2 that aren't in text1
                sentences2.forEach(sentence => {
                    if (sentence.trim().length > 10 && !text1.includes(sentence)) {
                        result += `<li><span class=" ++ dq ++ "highlight" ++ dq ++ ">${sentence}</span></li>`;
                    }
                });
                
                result += " ++ dq ++ "</ul>" ++ dq ++ ";
                return result;
            }
            
            // Load saved ratings on page load
            window.onload = function() {
                const savedRatings = localStorage.getItem('pdf-model-ratings');
                if (savedRatings) {
                    const parsedRatings = JSON.parse(savedRatings);
                    for (const pdfId in parsedRatings) {
                        rateModel(pdfId, parsedRatings[pdfId]);
                    }
                }
            };
        </script>
    </body>
    </html>
    ".

Definition pdf_section (pdf_name img_html chatgpt_output gemini_output : string) : string :=
  "
        <div class=" ++ dq ++ "pdf-container" ++ dq ++ " id=" ++ dq ++ "pdf-"
  ++ dom_id pdf_name
  ++ dq ++ ">
            <div class=" ++ dq ++ "pdf-header" ++ dq ++ ">
                <span>"
  ++ pdf_name
  ++ "</span>
                <span class=" ++ dq ++ "rating-indicator" ++ dq ++ " id=" ++ dq ++ "rating-"
  ++ dom_id pdf_name
  ++ dq ++ "></span>
            </div>
            <div class=" ++ dq ++ "pdf-content" ++ dq ++ ">
                <div class=" ++ dq ++ "pdf-image" ++ dq ++ ">
                    "
  ++ img_html
  ++ "
                </div>
                <div class=" ++ dq ++ "models-container" ++ dq ++ ">
                    <div class=" ++ dq ++ "controls" ++ dq ++ ">
                        <div class=" ++ dq ++ "rating-controls" ++ dq ++ ">
                            <button class=" ++ dq ++ "rating-btn chatgpt-better" ++ dq ++ " onclick=" ++ dq ++ "rateModel('"
  ++ dom_id pdf_name
  ++ "', 'chatgpt')" ++ dq ++ ">ChatGPT Better</button>
                            <button class=" ++ dq ++ "rating-btn gemini-better" ++ dq ++ " onclick=" ++ dq ++ "rateModel('"
  ++ dom_id pdf_name
  ++ "', 'gemini')" ++ dq ++ ">Gemini Better</button>
                            <button class=" ++ dq ++ "rating-btn both-good" ++ dq ++ " onclick=" ++ dq ++ "rateModel('"
  ++ dom_id pdf_name
  ++ "', 'both-good')" ++ dq ++ ">Both Good</button>
                            <button class=" ++ dq ++ "rating-btn both-bad" ++ dq ++ " onclick=" ++ dq ++ "rateModel('"
  ++ dom_id pdf_name
  ++ "', 'both-bad')" ++ dq ++ ">Both Bad</button>
                            <button class=" ++ dq ++ "rating-btn invalid-pdf" ++ dq ++ " onclick=" ++ dq ++ "rateModel('"
  ++ dom_id pdf_name
  ++ "', 'invalid')" ++ dq ++ ">Invalid PDF</button>
                        </div>
                        <button class=" ++ dq ++ "show-diff-btn" ++ dq ++ " onclick=" ++ dq ++ "toggleDifference('"
  ++ dom_id pdf_name
  ++ "')" ++ dq ++ ">Show Differences</button>
                    </div>
                    <div class=" ++ dq ++ "model-outputs" ++ dq ++ ">
                        <div class=" ++ dq ++ "model-output" ++ dq ++ ">
                            <div class=" ++ dq ++ "model-header" ++ dq ++ ">ChatGPT Output</div>
                            <div class=" ++ dq ++ "model-content" ++ dq ++ " id=" ++ dq ++ "chatgpt-"
  ++ dom_id pdf_name
  ++ dq ++ ">"
  ++ chatgpt_output
  ++ "</div>
                        </div>
                        <div class=" ++ dq ++ "model-output" ++ dq ++ ">
                            <div class=" ++ dq ++ "model-header" ++ dq ++ ">Gemini Output</div>
                            <div class=" ++ dq ++ "model-content" ++ dq ++ " id=" ++ dq ++ "gemini-"
  ++ dom_id pdf_name
  ++ dq ++ ">"
  ++ gemini_output
  ++ "</div>
                        </div>
                    </div>
                    <div class=" ++ dq ++ "difference-content" ++ dq ++ " id=" ++ dq ++ "diff-"
  ++ dom_id pdf_name
  ++ dq ++ ">
                        <h3>Differences</h3>
                        <p>Loading differences...</p>
                    </div>
                </div>
            </div>
        </div>
        ".

Definition img_ok (base64_img pdf_name : string) : string :=
  "<img src=" ++ dq ++ "data:image/png;base64," ++ base64_img ++ dq
  ++ " alt=" ++ dq ++ pdf_name ++ dq ++ ">".

Definition img_error (msg : string) : string :=
  "<div class=" ++ dq ++ "error" ++ dq ++ ">Error rendering PDF: " ++ msg ++ "</div>".

Definition error_text (msg : string) : string := "Error: " ++ msg.

Section Viewer.

Variable json_loads : string -> option json.
Variable render_pdf_to_base64png : string -> Z -> foreign string.
Variable run_chatgpt : string -> foreign string.
Variable run_gemini : string -> foreign string.

(** One line of the rules file. *)
Definition parse_rule_line (pdf_rules : list (json * list json)) (line : string)
    : outcome (list (json * list json)) :=
  let line := py_strip line in
  if String.eqb line EmptyString then Ok pdf_rules
  else
    match json_loads line with
    | None => Ok pdf_rules
    | Some rule =>
        let! has := py_in "pdf" rule in
        if has then
          let! k := py_getitem rule "pdf" in
          if hashable k then Ok (rules_append k rule pdf_rules)
          else Raise TypeError
        else Ok pdf_rules
    end.

Fixpoint parse_rule_lines (pdf_rules : list (json * list json)) (lines : list string)
    : outcome (list (json * list json)) :=
  match lines with
  | [] => Ok pdf_rules
  | line :: rest =>
      let! d := parse_rule_line pdf_rules line in
      parse_rule_lines d rest
  end.

(** [parse_rules_file], on the lines of the file. *)
Definition parse_rules_file (lines : list string) : outcome (list (json * list json)) :=
  parse_rule_lines [] lines.

Definition get_model_outputs (pdf_path : string) : outcome (string * string) :=
  match run_chatgpt pdf_path with
  | Returns chatgpt_output =>
      match run_gemini pdf_path with
      | Returns gemini_output => Ok (chatgpt_output, gemini_output)
      | Throws true msg => Ok (error_text msg, error_text msg)
      | Throws false msg => Raise (BaseException msg)
      end
  | Throws true msg => Ok (error_text msg, error_text msg)
  | Throws false msg => Raise (BaseException msg)
  end.

(** The PDFs [generate_html] goes through. *)
Definition pdf_names (pdf_rules : list (json * list json))
    (pdfs_to_process : option (list string)) : list json :=
  match pdfs_to_process with
  | Some (p :: ps) => map JStr (p :: ps)
  | _ => take 10 (map fst pdf_rules)
  end.

(** The body of the loop of [generate_html]. *)
Definition render_pdf (pdf_bases html : string) (name : json) : outcome string :=
  let! pdf_path := path_join_value pdf_bases name in
  match name with
  | JStr pdf_name =>
      let! img_html :=
        match render_pdf_to_base64png pdf_path 0 with
        | Returns base64_img => Ok (img_ok base64_img pdf_name)
        | Throws true msg => Ok (img_error msg)
        | Throws false msg => Raise (BaseException msg)
        end in
      let! outs := get_model_outputs pdf_path in
      Ok (html ++ pdf_section pdf_name img_html (fst outs) (snd outs))
  | _ => Raise TypeError
  end.

Fixpoint render_pdfs (pdf_bases html : string) (names : list json) : outcome string :=
  match names with
  | [] => Ok html
  | name :: rest =>
      let! html' := render_pdf pdf_bases html name in
      render_pdfs pdf_bases html' rest
  end.

Definition generate_html (pdf_rules : list (json * list json))
    (rules_file_path : string) (pdfs_to_process : option (list string)) : outcome string :=
  let names := pdf_names pdf_rules pdfs_to_process in
  let pdf_bases := path_join (dirname rules_file_path) "pdfs" in
  let! html := render_pdfs pdf_bases page_head names in
  Ok (html ++ page_tail).

End Viewer.

(** ** Notions the statements are written with *)

Fixpoint all_digits (s : string) : bool :=
  match s with
  | EmptyString => true
  | String c t => is_digit c && all_digits t
  end.

(** A canonical decimal numeral: [0], or digits that do not start with [0]. *)
Definition canonical_numeral (s : string) : bool :=
  match s with
  | String c t =>
      is_digit c && all_digits t && (negb (Ascii.eqb c "0"%char) || String.eqb t EmptyString)
  | EmptyString => false
  end.

(** A key [from_goldkey] accepts: it has a dash, and [int] reads what
    follows the last one. *)
Definition valid_goldkey (v : json) : bool :=
  match v with
  | JStr k =>
      match rindex dash k with
      | Some i =>
          match py_int (slice_from (S i) k) with
          | Some _ => true
          | None => false
          end
      | None => false
      end
  | _ => false
  end.

Section WellFormed.

Variable json_loads : string -> option json.

(** A text the structured-output step gets through: it does not decode, or
    it decodes to an object that has [natural_text]. *)
Definition decodes_or_raw (s : string) : bool :=
  match json_loads s with
  | None => true
  | Some (JObj o) => has_key "natural_text" o
  | Some _ => false
  end.

(** An entry of the inference engine that [normalize_json_entry] accepts. *)
Definition birr_well_formed (data : json) : bool :=
  match data with
  | JObj o =>
      match dict_get "outputs" o, dict_get "custom_id" o with
      | Some outs, Some k =>
          valid_goldkey k &&
          match outs with
          | JNull => true
          | JArr (JObj c :: _) =>
              match dict_get "text" c, dict_get "finish_reason" c with
              | Some JNull, Some _ => true
              | Some (JStr s), Some _ => decodes_or_raw s
              | _, _ => false
              end
          | _ => false
          end
      | _, _ => false
      end
  | _ => false
  end.

(** An entry of the batch API that [normalize_json_entry] accepts. *)
Definition openai_well_formed (data : json) : bool :=
  match data with
  | JObj o =>
      match dict_get "outputs" o, dict_get "custom_id" o, dict_get "response" o with
      | None, Some k, Some (JObj r) =>
          valid_goldkey k &&
          match dict_get "body" r with
          | Some (JObj b) =>
              match dict_get "choices" b with
              | Some (JArr (JObj c :: _)) =>
                  match dict_get "message" c, dict_get "finish_reason" c with
                  | Some (JObj m), Some _ =>
                      match dict_get "content" m with
                      | Some (JStr s) => decodes_or_raw s
                      | _ => false
                      end
                  | _, _ => false
                  end
              | _ => false
              end
          | _ => false
          end
      | _, _, _ => false
      end
  | _ => false
  end.

End WellFormed.

(** *** Sample data for the examples *)

Definition quoted (s : string) : string := dq ++ s ++ dq.

(** [{"natural_text": "Hello"}] *)
Definition natural_text_doc : string :=
  "{" ++ quoted "natural_text" ++ ": " ++ quoted "Hello" ++ "}".

(** A line of the inference engine's output:
    [{"custom_id": "doc.pdf-1", "outputs": [{"text": "Hello world", "finish_reason": "stop"}]}] *)
Definition gold_line : string :=
  "{" ++ quoted "custom_id" ++ ": " ++ quoted "doc.pdf-1" ++ ", " ++ quoted "outputs"
  ++ ": [{" ++ quoted "text" ++ ": " ++ quoted "Hello world" ++ ", "
  ++ quoted "finish_reason" ++ ": " ++ quoted "stop" ++ "}]}".

(** A line of the batch API's output:
    [{"custom_id": ID, "response": {"body": {"choices":
       [{"message": {"content": CONTENT}, "finish_reason": "stop"}]}}}] *)
Definition batch_line (custom_id content : string) : string :=
  "{" ++ quoted "custom_id" ++ ": " ++ quoted custom_id ++ ", " ++ quoted "response"
  ++ ": {" ++ quoted "body" ++ ": {" ++ quoted "choices" ++ ": [{" ++ quoted "message"
  ++ ": {" ++ quoted "content" ++ ": " ++ quoted content ++ "}, "
  ++ quoted "finish_reason" ++ ": " ++ quoted "stop" ++ "}]}}}".

Definition openai_entry (custom_id content : string) : json :=
  JObj [("custom_id", JStr custom_id);
        ("response",
         JObj [("body",
                JObj [("choices",
                       JArr [JObj [("message", JObj [("content", JStr content)]);
                                   ("finish_reason", JStr "stop")]])])])].

(** [{"pdf": NAME, "id": "rule"}], a line of a rules file. *)
Definition rule_line (name : string) : string :=
  "{" ++ quoted "pdf" ++ ": " ++ quoted name ++ ", " ++ quoted "id" ++ ": "
  ++ quoted "rule" ++ "}".

Definition rule_value (name : string) : json :=
  JObj [("pdf", JStr name); ("id", JStr "rule")].

Definition sample_pdfs : list string :=
  ["a.pdf"; "b.pdf"; "c.pdf"; "d.pdf"; "e.pdf"; "f.pdf"; "g.pdf"; "h.pdf"; "i.pdf";
   "j.pdf"; "k.pdf"; "l.pdf"].

(** A decoder for the texts the examples use; on each of them it answers as
    [json.loads] does. *)
Definition sample_loads (s : string) : option json :=
  if String.eqb s "{}" then Some (JObj [])
  else if String.eqb s natural_text_doc then Some (JObj [("natural_text", JStr "Hello")])
  else if String.eqb s "42" then Some (JNum 42)
  else if String.eqb s gold_line then
    Some (JObj [("custom_id", JStr "doc.pdf-1");
                ("outputs", JArr [JObj [("text", JStr "Hello world");
                                        ("finish_reason", JStr "stop")]])])
  else if String.eqb s (batch_line "doc.pdf-1" "Hello word") then
    Some (openai_entry "doc.pdf-1" "Hello word")
  else if String.eqb s (batch_line "doc.pdf-2" "Another page") then
    Some (openai_entry "doc.pdf-2" "Another page")
  else
    match find (fun name => String.eqb s (rule_line name)) sample_pdfs with
    | Some name => Some (rule_value name)
    | None => None
    end.

(** A comparer for the examples: equal strings align fully, others half. *)
Definition sample_compute (c : comparer) (gold_text eval_text : json) : outcome Q :=
  match gold_text, eval_text with
  | JStr a, JStr b => Ok (if String.eqb a b then 1%Q else (1 # 2)%Q)
  | _, _ => Raise TypeError
  end.

(** A file system for the examples: one gold file, one file to evaluate. *)
Definition sample_open (path : string) : list string :=
  if String.eqb path "gold/a.jsonl" then [gold_line]
  else if String.eqb path "eval/a.jsonl" then
    [batch_line "doc.pdf-1" "Hello word"; batch_line "doc.pdf-2" "Another page"]
  else [].

Definition sample_listing (path : string) : list string :=
  if String.eqb path "gold" then ["gold/a.jsonl"]
  else if String.eqb path "eval" then ["eval/a.jsonl"]
  else [].

Definition sample_gold : gmap string json := <["doc.pdf-1" := JStr "Hello world"]> ∅.

(** *** The char-weighted score, said directly *)

Section EvalSpec.

Variable json_loads : string -> option json.
Variable compute : comparer -> json -> json -> outcome Q.

(** The entries of a file: every line decoded and normalised. *)
Fixpoint load_lines (lines : list string) : outcome (list NormalizedEntry) :=
  match lines with
  | [] => Ok []
  | line :: rest =>
      let! e := load_line json_loads line in
      let! es := load_lines rest in
      Ok (e :: es)
  end.

(** What one entry adds to the char-weighted total and to the character
    total: [alignment * len(gold_text)] and [len(gold_text)] when its key is
    in the gold data, nothing otherwise. *)
Definition entry_score (gold_data : gmap string json) (c : comparer)
    (e : NormalizedEntry) : outcome (Q * Z) :=
  match gold_data !! goldkey e with
  | None => Ok (0%Q, 0)
  | Some g =>
      let! alignment := compute c (or_empty g) (or_empty (text e)) in
      let! n := py_len (or_empty g) in
      Ok ((alignment * inject_Z n)%Q, n)
  end.

Fixpoint entries_totals (gold_data : gmap string json) (c : comparer)
    (es : list NormalizedEntry) : outcome (Q * Z) :=
  match es with
  | [] => Ok (0%Q, 0)
  | e :: rest =>
      let! x := entry_score gold_data c e in
      let! y := entries_totals gold_data c rest in
      Ok ((fst x + fst y)%Q, snd x + snd y)
  end.

Definition file_totals (gold_data : gmap string json) (c : comparer)
    (lines : list string) : outcome (Q * Z) :=
  let! es := load_lines lines in
  entries_totals gold_data c es.

(** The two sums over all files. *)
Fixpoint corpus_totals (gold_data : gmap string json) (c : comparer)
    (files : list (list string)) : outcome (Q * Z) :=
  match files with
  | [] => Ok (0%Q, 0)
  | lines :: rest =>
      let! x := file_totals gold_data c lines in
      let! y := corpus_totals gold_data c rest in
      Ok ((fst x + fst y)%Q, snd x + snd y)
  end.

(** A page record whose alignment is the comparer's answer on the gold
    text and the text of an entry [e], each with the empty string in the
    place of a false value. *)
Definition delegated (gold_data : gmap string json) (c : comparer)
    (e : NormalizedEntry) (p : page) : Prop :=
  exists g,
    gold_data !! goldkey e = Some g
    /\ pg_s3_path p = s3_path e
    /\ pg_page p = pagenum e
    /\ pg_gold_text p = or_empty g
    /\ pg_eval_text p = or_empty (text e)
    /\ compute c (pg_gold_text p) (pg_eval_text p) = Ok (pg_alignment p).

End EvalSpec.

(** *** The report, said directly *)

(** [x] occurs in [s]. *)
Definition contains (x s : string) : Prop := exists pre post, s = pre ++ x ++ post.

(** A foreign call that returned, or raised something [except Exception]
    catches. *)
Definition caught {A : Type} (r : foreign A) : bool :=
  match r with
  | Throws false _ => false
  | _ => true
  end.

(** The two panels, side by side in their container. *)
Definition model_outputs (id chatgpt_output gemini_output : string) : string :=
  "<div class=" ++ dq ++ "model-outputs" ++ dq ++ ">
                        <div class=" ++ dq ++ "model-output" ++ dq ++ ">
                            <div class=" ++ dq ++ "model-header" ++ dq ++ ">ChatGPT Output</div>
                            <div class=" ++ dq ++ "model-content" ++ dq ++ " id=" ++ dq ++ "chatgpt-"
  ++ id
  ++ dq ++ ">"
  ++ chatgpt_output
  ++ "</div>
                        </div>
                        <div class=" ++ dq ++ "model-output" ++ dq ++ ">
                            <div class=" ++ dq ++ "model-header" ++ dq ++ ">Gemini Output</div>
                            <div class=" ++ dq ++ "model-content" ++ dq ++ " id=" ++ dq ++ "gemini-"
  ++ id
  ++ dq ++ ">"
  ++ gemini_output
  ++ "</div>
                        </div>
                    </div>".

(** The script that lists the sentences of one output that the other lacks. *)
Definition find_differences : string :=
  "function findDifferences(text1, text2) {
                // Split into sentences for comparison
                const sentences1 = text1.split(/(?<=[.!?])\s+/);
                const sentences2 = text2.split(/(?<=[.!?])\s+/);
                
                let result = " ++ dq ++ "<h4>ChatGPT unique content:</h4><ul>" ++ dq ++ ";
                
                // Find sentences in text1 that aren't in text2
                sentences1.forEach(sentence => {
                    if (sentence.trim().length > 10 && !text2.includes(sentence)) {
                        result += `<li><span class=" ++ dq ++ "highlight" ++ dq ++ ">${sentence}</span></li>`;
                    }
                });
                
                result += " ++ dq ++ "</ul><h4>Gemini unique content:</h4><ul>" ++ dq ++ ";
                
                // Find sentences in text2 that aren't in text1
                sentences2.forEach(sentence => {
                    if (sentence.trim().length > 10 && !text1.includes(sentence)) {
                        result += `<li><span class=" ++ dq ++ "highlight" ++ dq ++ ">${sentence}</span></li>`;
                    }
                });
                
                result += " ++ dq ++ "</ul>" ++ dq ++ ";
                return result;
            }".

(** What a section holds before the image, between the image and the panels,
    and after the panels. *)
Definition section_open (pdf_name : string) : string :=
  "
        <div class=" ++ dq ++ "pdf-container" ++ dq ++ " id=" ++ dq ++ "pdf-"
  ++ dom_id pdf_name
  ++ dq ++ ">
            <div class=" ++ dq ++ "pdf-header" ++ dq ++ ">
                <span>"
  ++ pdf_name
  ++ "</span>
                <span class=" ++ dq ++ "rating-indicator" ++ dq ++ " id=" ++ dq ++ "rating-"
  ++ dom_id pdf_name
  ++ dq ++ "></span>
            </div>
            <div class=" ++ dq ++ "pdf-content" ++ dq ++ ">
                <div class=" ++ dq ++ "pdf-image" ++ dq ++ ">
                    ".

Definition section_middle (pdf_name : string) : string :=
  "
                </div>
                <div class=" ++ dq ++ "models-container" ++ dq ++ ">
                    <div class=" ++ dq ++ "controls" ++ dq ++ ">
                        <div class=" ++ dq ++ "rating-controls" ++ dq ++ ">
                            <button class=" ++ dq ++ "rating-btn chatgpt-better" ++ dq ++ " onclick=" ++ dq ++ "rateModel('"
  ++ dom_id pdf_name
  ++ "', 'chatgpt')" ++ dq ++ ">ChatGPT Better</button>
                            <button class=" ++ dq ++ "rating-btn gemini-better" ++ dq ++ " onclick=" ++ dq ++ "rateModel('"
  ++ dom_id pdf_name
  ++ "', 'gemini')" ++ dq ++ ">Gemini Better</button>
                            <button class=" ++ dq ++ "rating-btn both-good" ++ dq ++ " onclick=" ++ dq ++ "rateModel('"
  ++ dom_id pdf_name
  ++ "', 'both-good')" ++ dq ++ ">Both Good</button>
                            <button class=" ++ dq ++ "rating-btn both-bad" ++ dq ++ " onclick=" ++ dq ++ "rateModel('"
  ++ dom_id pdf_name
  ++ "', 'both-bad')" ++ dq ++ ">Both Bad</button>
                            <button class=" ++ dq ++ "rating-btn invalid-pdf" ++ dq ++ " onclick=" ++ dq ++ "rateModel('"
  ++ dom_id pdf_name
  ++ "', 'invalid')" ++ dq ++ ">Invalid PDF</button>
                        </div>
                        <button class=" ++ dq ++ "show-diff-btn" ++ dq ++ " onclick=" ++ dq ++ "toggleDifference('"
  ++ dom_id pdf_name
  ++ "')" ++ dq ++ ">Show Differences</button>
                    </div>
                    ".

Definition section_close (pdf_name : string) : string :=
  "
                    <div class=" ++ dq ++ "difference-content" ++ dq ++ " id=" ++ dq ++ "diff-"
  ++ dom_id pdf_name
  ++ dq ++ ">
                        <h3>Differences</h3>
                        <p>Loading differences...</p>
                    </div>
                </div>
            </div>
        </div>
        ".

Section RulesSpec.

Variable json_loads : string -> option json.

(** The PDF a line of the rules file names, when it is a rule that names
    one. *)
Definition line_pdf (line : string) : option json :=
  let line := py_strip line in
  if String.eqb line EmptyString then None
  else
    match json_loads line with
    | Some (JObj o) => dict_get "pdf" o
    | _ => None
    end.

Fixpoint line_pdfs (lines : list string) : list json :=
  match lines with
  | [] => []
  | line :: rest =>
      match line_pdf line with
      | Some k => k :: line_pdfs rest
      | None => line_pdfs rest
      end
  end.

End RulesSpec.

(** The distinct values of a list in the order of their first appearance,
    after those already seen. *)
Fixpoint distinct_from (seen l : list json) : list json :=
  match l with
  | [] => seen
  | x :: rest =>
      distinct_from
        (if existsb (fun k => scalar_eqb k x) seen then seen else (seen ++ [x])%list) rest
  end.

Definition first_appearances (l : list json) : list json := distinct_from [] l.

(** No two values of the list are equal. *)
Fixpoint distinct_keys (l : list json) : bool :=
  match l with
  | [] => true
  | x :: rest => negb (existsb (fun y => scalar_eqb x y) rest) && distinct_keys rest
  end.

(** Runners and a renderer for the examples. *)
Definition sample_render (pdf_path : string) (page : Z) : foreign string :=
  Returns "iVBORw0KGgo=".

Definition sample_chatgpt (pdf_path : string) : foreign string :=
  Returns "CHATGPT-TRANSCRIPT".

Definition failing_gemini (pdf_path : string) : foreign string :=
  Throws true "quota exceeded".

Definition sample_gemini (pdf_path : string) : foreign string :=
  Returns "GEMINI-TRANSCRIPT".

(** A rules file for the examples: twelve PDFs, the first one named twice. *)
Definition sample_rule_lines : list string :=
  (map rule_line sample_pdfs ++ [EmptyString; "not a rule"; rule_line "a.pdf"])%list.

Definition sample_rules : list (json * list json) :=
  (JStr "a.pdf", [rule_value "a.pdf"; rule_value "a.pdf"])
  :: map (fun name => (JStr name, [rule_value name])) (tail sample_pdfs).

Section ViewerSpec.

Variable render_pdf_to_base64png : string -> Z -> foreign string.
Variable run_chatgpt : string -> foreign string.
Variable run_gemini : string -> foreign string.

(** The image of a PDF, or the error that stands in its place. *)
Definition image_html (pdf_path pdf_name : string) : string :=
  match render_pdf_to_base64png pdf_path 0 with
  | Returns base64_img => img_ok base64_img pdf_name
  | Throws _ msg => img_error msg
  end.

(** The section of one PDF. *)
Definition section_html (pdf_bases pdf_name : string) : outcome string :=
  let pdf_path := path_join pdf_bases pdf_name in
  match render_pdf_to_base64png pdf_path 0 with
  | Throws false msg => Raise (BaseException msg)
  | _ =>
      let! outs := get_model_outputs run_chatgpt run_gemini pdf_path in
      Ok (pdf_section pdf_name (image_html pdf_path pdf_name) (fst outs) (snd outs))
  end.

End ViewerSpec.

(** An entry of the inference engine whose list of outputs is empty. *)
Definition birr_no_output : json :=
  JObj [("custom_id", JStr "s3://bucket/doc.pdf-3"); ("outputs", JArr [])].

(** Sums of lists. *)
Fixpoint sumQ (l : list Q) : Q :=
  match l with
  | [] => 0%Q
  | x :: r => (x + sumQ r)%Q
  end.

Fixpoint sumZ (l : list Z) : Z :=
  match l with
  | [] => 0
  | x :: r => x + sumZ r
  end.

(** The page records of a list of file results, in order. *)
Definition pages_of (rs : list file_result) : list page :=
  concat (map (fun r => map snd (page_data r)) rs).

(** The page and the totals the sample files give. *)
Definition sample_page : page :=
  mkPage "doc.pdf" 1 (JStr "Hello world") (JStr "Hello word") (1 # 2).

Definition sample_totals : eval_totals := mkEvalTotals (11 # 2) 11 [sample_page].

(** ** The rest of [runeval.py] *)

(** [s.replace("s3://", "")]: every occurrence goes, scanning from the left. *)
Fixpoint remove_scheme (s : string) : string :=
  match s with
  | String "s"%char
      (String "3"%char (String ":"%char (String "/"%char (String "/"%char rest)))) =>
      remove_scheme rest
  | String c t => String c (remove_scheme t)
  | EmptyString => EmptyString
  end.

(** [s.split(c, 1)] when it gives two parts; [None] when [c] is not in [s]. *)
Fixpoint split_once (c : ascii) (s : string) : option (string * string) :=
  match s with
  | EmptyString => None
  | String a t =>
      if Ascii.eqb a c then Some (EmptyString, t)
      else
        match split_once c t with
        | Some (x, y) => Some (String a x, y)
        | None => None
        end
  end.

(** [bucket_name, key = s3_path.replace("s3://", "").split("/", 1)], as
    [download_from_s3] and [list_jsonl_files] take a path apart; unpacking a
    single part raises [ValueError]. *)
Definition bucket_and_key (s3_path : string) : outcome (string * string) :=
  match split_once slash (remove_scheme s3_path) with
  | Some parts => Ok parts
  | None => Raise ValueError
  end.

(** [s.endswith(suffix)]. *)
Fixpoint ends_with (suffix s : string) : bool :=
  String.eqb s suffix ||
  match s with
  | EmptyString => false
  | String _ t => ends_with suffix t
  end.


Definition valid_endings : list string :=
  [".json"; ".jsonl"; ".json.zstd"; ".jsonl.zstd"].

Definition has_valid_ending (name : string) : bool :=
  existsb (fun ending => ends_with ending name) valid_endings.


Section Listing.

(** The keys of each page the S3 paginator gives for a bucket and prefix
    (a page without [Contents] has none). *)
Variable s3_pages : string -> string -> list (list string).

(** [os.walk(path)]: each directory with the files in it. *)
Variable os_walk : string -> list (string * list string).

Definition list_jsonl_files (path : string) : outcome (list string) :=
  if is_prefix "s3://" path then
    let! parts := bucket_and_key path in
    let bucket_name := fst parts in
    let prefix := snd parts in
    Ok (map (fun key => "s3://" ++ bucket_name ++ "/" ++ key)
          (List.filter has_valid_ending (concat (s3_pages bucket_name prefix))))
  else
    Ok (concat
          (map (fun walked =>
                  map (path_join (fst walked))
                    (List.filter has_valid_ending (snd walked)))
             (os_walk path))).

End Listing.

(** [load_gold_data] with the listing that [list_jsonl_files] computes: a
    listing that raises is the error of the call, and no file is opened. *)
Module WithListing.

Section Gold.

Variable json_loads : string -> option json.
Variable smart_open : string -> list string.
Variable s3_pages : string -> string -> list (list string).
Variable os_walk : string -> list (string * list string).

Definition load_gold_data (gold_data_path : string) : outcome (gmap string json) :=
  let! gold_jsonl_files := list_jsonl_files s3_pages os_walk gold_data_path in
  load_gold_lines json_loads ∅ (concat (map smart_open gold_jsonl_files)).

End Gold.

End WithListing.

(** [l[:k]]: a negative [k] counts from the end. *)
Definition py_slice_to {A : Type} (k : Z) (l : list A) : list A :=
  if k <? 0 then take (List.length l - Z.to_nat (- k)) l else take (Z.to_nat k) l.

(** What [do_eval] hands to [create_review_html] for the page of the worst
    alignments: [page_eval_data[:review_page_size]] after the sort. *)
Definition worst_pages (page_eval_data : list page) (review_page_size : Z) : list page :=
  py_slice_to review_page_size (sort_pages page_eval_data).

(** The pages of a list in the order of their alignments. *)
Definition by_alignment (a b : page) : Prop := (pg_alignment a <= pg_alignment b)%Q.

Section FileHash.

(** [hashlib.md5]: a fresh hash, [update] and [hexdigest]. *)
Variable md5 : Type.
Variable md5_new : md5.
Variable md5_update : md5 -> string -> md5.
Variable md5_hexdigest : md5 -> string.

(** The loop over [iter(lambda: f.read(4096), b"")]: it stops at the first
    empty chunk.  [fuel] bounds the number of chunks. *)
Fixpoint hash_chunks (fuel : nat) (hash_md5 : md5) (rest : string) : md5 :=
  match fuel with
  | O => hash_md5
  | S fuel' =>
      match slice_to 4096 rest with
      | EmptyString => hash_md5
      | chunk => hash_chunks fuel' (md5_update hash_md5 chunk) (slice_from 4096 rest)
      end
  end.

(** [compute_file_hash], on the bytes of the file. *)
Definition compute_file_hash (content : string) : string :=
  md5_hexdigest (hash_chunks (S (String.length content)) md5_new content).

End FileHash.

(** The text of the last entry whose gold key is [k]. *)
Fixpoint last_text (k : string) (es : list NormalizedEntry) : option json :=
  match es with
  | [] => None
  | e :: rest =>
      match last_text k rest with
      | Some t => Some t
      | None => if String.eqb (goldkey e) k then Some (text e) else None
      end
  end.

(** Whether the key of an entry is in the gold data. *)
Definition in_gold (gold_data : gmap string json) (e : NormalizedEntry) : bool :=
  match gold_data !! goldkey e with
  | Some _ => true
  | None => false
  end.

Section Counting.

Variable json_loads : string -> option json.

(** The number of entries of a file, and of a list of files, whose key is
    in the gold data. *)
Definition count_scored (gold_data : gmap string json) (lines : list string) : nat :=
  match load_lines json_loads lines with
  | Ok es => List.length (List.filter (in_gold gold_data) es)
  | Raise _ => 0%nat
  end.

Fixpoint corpus_scored (gold_data : gmap string json) (files : list (list string)) : nat :=
  match files with
  | [] => 0%nat
  | lines :: rest => (count_scored gold_data lines + corpus_scored gold_data rest)%nat
  end.

End Counting.

(** More files for the examples: one whose only page is not in the gold
    data, and one with a line that is not JSON. *)
Definition more_open (path : string) : list string :=
  if String.eqb path "eval/b.jsonl" then [batch_line "doc.pdf-2" "Another page"]
  else if String.eqb path "eval/c.jsonl" then
    [batch_line "doc.pdf-1" "Hello word"; "not json"]
  else sample_open path.

Definition more_listing (path : string) : list string :=
  if String.eqb path "eval-b" then ["eval/b.jsonl"]
  else if String.eqb path "eval-c" then ["eval/c.jsonl"]
  else sample_listing path.

(** ** The rest of [viewer2.py] *)

Section RulesGroups.

Variable json_loads : string -> option json.

(** The rule of a line that names a PDF. *)
Definition line_rule (line : string) : option json :=
  let line := py_strip line in
  if String.eqb line EmptyString then None
  else
    match json_loads line with
    | Some (JObj o) => if has_key "pdf" o then Some (JObj o) else None
    | _ => None
    end.

Fixpoint line_rules (lines : list string) : list json :=
  match lines with
  | [] => []
  | line :: rest =>
      match line_rule line with
      | Some rule => rule :: line_rules rest
      | None => line_rules rest
      end
  end.

End RulesGroups.

(** [rule['pdf'] == k] for a rule that is an object. *)
Definition names_pdf (k rule : json) : bool :=
  match rule with
  | JObj o =>
      match dict_get "pdf" o with
      | Some k' => scalar_eqb k k'
      | None => false
      end
  | _ => false
  end.

(** What [parse_rules_file] keeps while it reads: the keys are pairwise
    different, each key holds the rules read so far that name it, and every
    rule read so far names a key. *)
Definition grouped (d : list (json * list json)) (R : list json) : Prop :=
  distinct_keys (map fst d) = true
  /\ (forall k rs, In (k, rs) d ->
        rs <> [] /\ hashable k = true /\ rs = List.filter (names_pdf k) R)
  /\ (forall r, In r R -> exists k, In k (map fst d) /\ names_pdf k r = true).

(** The strings of a list, one after the other. *)
Fixpoint join (l : list string) : string :=
  match l with
  | [] => EmptyString
  | s :: rest => s ++ join rest
  end.

Section Sections.

Variable render_pdf_to_base64png : string -> Z -> foreign string.
Variable run_chatgpt : string -> foreign string.
Variable run_gemini : string -> foreign string.

(** What the body of the loop of [generate_html] adds to the page for each
    name of a list, in order: the body run on the empty string. *)
Fixpoint sections (pdf_bases : string) (names : list json) : outcome (list string) :=
  match names with
  | [] => Ok []
  | name :: rest =>
      let! sec := render_pdf render_pdf_to_base64png run_chatgpt run_gemini
                    pdf_bases EmptyString name in
      let! secs := sections pdf_bases rest in
      Ok (sec :: secs)
  end.

End Sections.

(** The hash that keeps everything it is fed. *)
Definition keep_all (h : string) (chunk : string) : string := h ++ chunk.

(** ** The scores in Python's arithmetic *)

(** [process_jsonl_file] and [do_eval] once more, with the numbers as Python
    has them: an [int] is exact, a [float] is a value of a type the
    interpreter's operations work on, and an [int] operand of a mixed
    operation is converted first.  The operations on floats are [Variable]s:
    nothing is assumed of them, so what is proved holds of binary64 addition,
    which rounds and is not associative.  [float(n)] raising [OverflowError]
    for an [int] beyond the range of a float is outside the model. *)
Module PyNum.

Section Numbers.

Context {float : Type}.

(** [float(n)], the conversion of an [int] operand. *)
Variable float_of_int : Z -> float.

(** [x + y], [x * y] and [x / y] (for [y] not zero) on two floats. *)
Variable float_add : float -> float -> float.
Variable float_mul : float -> float -> float.
Variable float_div : float -> float -> float.

(** [m / n] on two ints, [n] not zero. *)
Variable int_truediv : Z -> Z -> float.

(** [x < y] on two floats. *)
Variable float_lt : float -> float -> bool.

Inductive number : Type :=
| Int (n : Z)
| Float (x : float).

Definition py_add (a b : number) : number :=
  match a, b with
  | Int m, Int n => Int (m + n)
  | Int m, Float y => Float (float_add (float_of_int m) y)
  | Float x, Int n => Float (float_add x (float_of_int n))
  | Float x, Float y => Float (float_add x y)
  end.

Definition py_mul (a b : number) : number :=
  match a, b with
  | Int m, Int n => Int (m * n)
  | Int m, Float y => Float (float_mul (float_of_int m) y)
  | Float x, Int n => Float (float_mul x (float_of_int n))
  | Float x, Float y => Float (float_mul x y)
  end.

(** [a / n] for an [int] [n]. *)
Definition py_truediv (a : number) (n : Z) : outcome float :=
  if n =? 0 then Raise ZeroDivisionError
  else
    Ok (match a with
        | Int m => int_truediv m n
        | Float x => float_div x (float_of_int n)
        end).

(** The additions of a loop [total = start; for x in l: total += x], from
    left to right. *)
Definition py_sum_from (start : number) (l : list number) : number :=
  fold_left py_add l start.

(** One value of [page_data]. *)
Record page : Type := mkPage {
  pg_s3_path : string;
  pg_page : Z;
  pg_gold_text : json;
  pg_eval_text : json;
  pg_alignment : float
}.

(** The five values [process_jsonl_file] returns. *)
Record file_result : Type := mkFileResult {
  total_alignment_score : number;
  char_weighted_alignment_score : number;
  total_chars : Z;
  total_pages : Z;
  page_data : list (string * page)
}.

Definition file_result0 : file_result := mkFileResult (Int 0) (Int 0) 0 0 [].

(** [pages.sort(key=lambda x: x["alignment"])]: a stable sort, which
    compares with [<] only. *)
Fixpoint insert_page (x : page) (l : list page) : list page :=
  match l with
  | [] => [x]
  | y :: l' =>
      if float_lt (pg_alignment y) (pg_alignment x) then y :: insert_page x l'
      else x :: l
  end.

Fixpoint sort_pages (l : list page) : list page :=
  match l with
  | [] => []
  | x :: l' => insert_page x (sort_pages l')
  end.

Variable json_loads : string -> option json.

(** [comparer.compute(gold_text, eval_text)], a float. *)
Variable compute : comparer -> json -> json -> outcome float.

Variable smart_open : string -> list string.
Variable list_jsonl_files : string -> list string.
Variable as_completed : list (outcome file_result) -> list (outcome file_result).
Variable random_sample : list page -> nat -> list page.

(** The body of the loop of [process_jsonl_file]. *)
Definition process_line (gold_data : gmap string json) (c : comparer)
    (acc : file_result) (line : string) : outcome file_result :=
  let! data := load_line json_loads line in
  match gold_data !! goldkey data with
  | None => Ok acc
  | Some g =>
      let gold_text := or_empty g in
      let eval_text := or_empty (text data) in
      let! alignment := compute c gold_text eval_text in
      let! n := py_len gold_text in
      Ok (mkFileResult
            (py_add (total_alignment_score acc) (Float alignment))
            (py_add (char_weighted_alignment_score acc) (py_mul (Float alignment) (Int n)))
            (total_chars acc + n)
            (total_pages acc + 1)
            (od_set (goldkey data)
               (mkPage (s3_path data) (pagenum data) gold_text eval_text alignment)
               (page_data acc)))
  end.

Fixpoint run_lines (gold_data : gmap string json) (c : comparer)
    (acc : file_result) (lines : list string) : outcome file_result :=
  match lines with
  | [] => Ok acc
  | line :: rest =>
      let! acc' := process_line gold_data c acc line in
      run_lines gold_data c acc' rest
  end.

Definition process_jsonl_file (jsonl_file : string) (gold_data : gmap string json)
    (c : comparer) : outcome file_result :=
  run_lines gold_data c file_result0 (smart_open jsonl_file).

(** The running totals of [do_eval]. *)
Record eval_totals : Type := mkEvalTotals {
  sum_score : number;
  sum_weight : Z;
  page_eval_data : list page
}.

(** The loop over the completed futures; [future.result()] re-raises what
    the worker raised. *)
Fixpoint aggregate (acc : eval_totals) (done : list (outcome file_result))
    : outcome eval_totals :=
  match done with
  | [] => Ok acc
  | fut :: rest =>
      let! r := fut in
      aggregate
        (mkEvalTotals
           (py_add (sum_score acc) (char_weighted_alignment_score r))
           (sum_weight acc + total_chars r)
           (page_eval_data acc ++ map snd (page_data r)))
        rest
  end.

(** [do_eval] up to the end of the aggregation loop. *)
Definition eval_files (gold_data_path eval_data_path : string) : outcome eval_totals :=
  let! gold_data := load_gold_data json_loads smart_open list_jsonl_files gold_data_path in
  let jsonl_files := list_jsonl_files eval_data_path in
  match jsonl_files with
  | [] => Raise ValueError
  | _ =>
      let futures :=
        map (fun f => process_jsonl_file f gold_data the_comparer) jsonl_files in
      aggregate (mkEvalTotals (Int 0) 0 []) (as_completed futures)
  end.

(** [do_eval]: the mean is first computed for printing (a zero weight
    raises there), the review pages are written, the sample is drawn, and
    the mean is computed again for the result. *)
Definition do_eval (gold_data_path eval_data_path review_page_name : string)
    (review_page_size : Z) : outcome (float * list page) :=
  let! t := eval_files gold_data_path eval_data_path in
  let! _ := py_truediv (sum_score t) (sum_weight t) in
  if (review_page_size <? 0) || (Z.of_nat (List.length (page_eval_data t)) <? review_page_size)
  then Raise ValueError
  else
    let! mean := py_truediv (sum_score t) (sum_weight t) in
    Ok (mean, random_sample (sort_pages (page_eval_data t)) (Z.to_nat review_page_size)).

(** *** The char-weighted score, said directly *)

(** What the entries of a file add, in the order of the file: for an entry
    whose key is in the gold data the product [alignment * len(gold_text)]
    and [len(gold_text)], nothing for the others. *)
Fixpoint entry_terms (gold_data : gmap string json) (c : comparer)
    (es : list NormalizedEntry) : outcome (list (number * Z)) :=
  match es with
  | [] => Ok []
  | e :: rest =>
      match gold_data !! goldkey e with
      | None => entry_terms gold_data c rest
      | Some g =>
          let! alignment := compute c (or_empty g) (or_empty (text e)) in
          let! n := py_len (or_empty g) in
          let! ts := entry_terms gold_data c rest in
          Ok ((py_mul (Float alignment) (Int n), n) :: ts)
      end
  end.

Definition file_terms (gold_data : gmap string json) (c : comparer)
    (lines : list string) : outcome (list (number * Z)) :=
  let! es := load_lines json_loads lines in
  entry_terms gold_data c es.

(** The terms of each file of a list. *)
Fixpoint corpus_terms (gold_data : gmap string json) (c : comparer)
    (files : list (list string)) : outcome (list (list (number * Z))) :=
  match files with
  | [] => Ok []
  | lines :: rest =>
      let! ts := file_terms gold_data c lines in
      let! tss := corpus_terms gold_data c rest in
      Ok (ts :: tss)
  end.

(** The char-weighted total of a file, and the sum of these totals over
    the files in the order given, each sum starting from the [int] 0. *)
Definition weighted_total (ts : list (number * Z)) : number :=
  py_sum_from (Int 0) (map fst ts).

Definition corpus_weighted_total (tss : list (list (number * Z))) : number :=
  py_sum_from (Int 0) (map weighted_total tss).

Definition chars_total (ts : list (number * Z)) : Z := sumZ (map snd ts).

Definition corpus_chars_total (tss : list (list (number * Z))) : Z :=
  sumZ (map chars_total tss).

End Numbers.

Arguments number : clear implicits.
Arguments page : clear implicits.
Arguments file_result : clear implicits.
Arguments eval_totals : clear implicits.

End PyNum.

(** Binary64, for the examples: [float(n)] rounded to the nearest float, and
    the operations of the processor.  [m / n] on two ints is exact division
    followed by one rounding, which is what dividing the converted operands
    gives when both are below 2^53. *)
Definition b64_of_int (n : Z) : PrimFloat.float :=
  FloatOps.SF2Prim (SpecFloat.binary_normalize 53 1024 n 0 false).

Definition b64_ratio (m n : Z) : PrimFloat.float :=
  PrimFloat.div (b64_of_int m) (b64_of_int n).

(** A comparer for the examples, in binary64. *)
Definition b64_compute (c : comparer) (gold_text eval_text : json)
    : outcome PrimFloat.float :=
  match gold_text, eval_text with
  | JStr a, JStr b => Ok (if String.eqb a b then b64_of_int 1 else b64_ratio 1 2)
  | _, _ => Raise TypeError
  end.

(** The terms of the sample file to evaluate: one page of eleven
    characters, aligned at one half. *)
Definition sample_terms : list (list (PyNum.number PrimFloat.float * Z)) :=
  [[(PyNum.Float (PrimFloat.mul (b64_ratio 1 2) (b64_of_int 11)), 11)]].

(** Three files of one character each, aligned at 0.1, 0.2 and 0.3. *)
Definition tenths (k : Z) : list (PyNum.number PrimFloat.float * Z) :=
  [(PyNum.Float (PrimFloat.mul (b64_ratio k 10) (b64_of_int 1)), 1)].

(** * Theorems *)

Lemma str_app_cons x (a b : string) : String x a ++ b = String x (a ++ b).
Proof. reflexivity. Qed.

Lemma str_app_nil_l (b : string) : EmptyString ++ b = b.
Proof. reflexivity. Qed.

Lemma str_app_assoc (a b c : string) : (a ++ b) ++ c = a ++ b ++ c.
Proof.
  induction a as [|x a IH]; [reflexivity|].
  rewrite !str_app_cons. now rewrite IH.
Qed.

Lemma str_app_nil_r (a : string) : a ++ EmptyString = a.
Proof.
  induction a as [|x a IH]; [reflexivity|].
  rewrite str_app_cons. now rewrite IH.
Qed.

Lemma string_snoc_ind (P : string -> Prop) :
  P EmptyString ->
  (forall s c, P s -> P (s ++ String c EmptyString)) ->
  forall s, P s.
Proof.
  intros H0 Hs s.
  rewrite <- (string_of_list_ascii_of_string s).
  induction (list_ascii_of_string s) as [|c l IH] using rev_ind; [exact H0|].
  replace (string_of_list_ascii (l ++ [c])%list)
    with (string_of_list_ascii l ++ String c EmptyString).
  - apply Hs, IH.
  - clear. induction l as [|x l IH]; [reflexivity|].
    simpl. rewrite str_app_cons. now rewrite IH.
Qed.

(** *** [rindex] and the slices *)

Lemma rindex_none_has_char c s : rindex c s = None <-> has_char c s = false.
Proof.
  induction s as [|a s IH]; simpl; [tauto|].
  destruct (rindex c s) as [i|].
  - split; [discriminate|]. intros H. apply orb_false_iff in H as [_ H].
    apply IH in H. discriminate.
  - destruct (Ascii.eqb a c); simpl.
    + split; discriminate.
    + split; intros _; [now apply IH | reflexivity].
Qed.

Lemma rindex_app_last c p d :
  has_char c d = false ->
  rindex c (p ++ String c d) = Some (String.length p).
Proof.
  intros Hd. apply rindex_none_has_char in Hd.
  induction p as [|a p IH].
  - rewrite str_app_nil_l. simpl. rewrite Hd, Ascii.eqb_refl. reflexivity.
  - rewrite str_app_cons. simpl. rewrite IH. reflexivity.
Qed.

Lemma slice_to_app p s : slice_to (String.length p) (p ++ s) = p.
Proof.
  induction p as [|a p IH]; [now destruct s|].
  rewrite str_app_cons. simpl. now rewrite IH.
Qed.

Lemma slice_from_app p c s : slice_from (S (String.length p)) (p ++ String c s) = s.
Proof. induction p as [|a p IH]; [reflexivity | exact IH]. Qed.

Lemma rindex_split c k i :
  rindex c k = Some i ->
  k = slice_to i k ++ String c (slice_from (S i) k)
  /\ has_char c (slice_from (S i) k) = false.
Proof.
  revert i. induction k as [|a k IH]; simpl; intros i H; [discriminate|].
  destruct (rindex c k) as [j|] eqn:E.
  - injection H as <-. destruct (IH j eq_refl) as [H1 H2]. simpl.
    split; [rewrite str_app_cons; f_equal; exact H1 | exact H2].
  - destruct (Ascii.eqb a c) eqn:Eac; [|discriminate].
    injection H as <-. apply Ascii.eqb_eq in Eac as ->. simpl.
    split; [reflexivity|]. apply rindex_none_has_char in E.
    now destruct k.
Qed.

Ltac each_ascii c :=
  destruct c as [[] [] [] [] [] [] [] []]; try discriminate; try reflexivity.

Lemma digit_facts c :
  is_digit c = true ->
  is_space c = false /\ Ascii.eqb c "+"%char = false /\ Ascii.eqb c "-"%char = false
  /\ Ascii.eqb c "_"%char = false /\ (0 <= digit_val c < 10)
  /\ digit_char (Z.to_N (digit_val c)) = c.
Proof. each_ascii c; intros _; repeat split; try reflexivity; try discriminate. Qed.

Lemma small_cases (d : N) :
  (d < 10)%N ->
  d = 0%N \/ d = 1%N \/ d = 2%N \/ d = 3%N \/ d = 4%N \/ d = 5%N \/ d = 6%N \/ d = 7%N
  \/ d = 8%N \/ d = 9%N.
Proof. lia. Qed.

Lemma digit_char_facts d :
  (d < 10)%N ->
  is_digit (digit_char d) = true /\ digit_val (digit_char d) = Z.of_N d
  /\ (Ascii.eqb (digit_char d) "0"%char = true -> d = 0%N).
Proof.
  intros H. apply small_cases in H.
  repeat (destruct H as [-> | H]); try subst d;
    (split; [reflexivity | split; [reflexivity | try discriminate; reflexivity]]).
Qed.

(** *** Printing a natural number *)

Lemma str_of_N_aux_acc fuel n acc :
  str_of_N_aux fuel n acc = str_of_N_aux fuel n EmptyString ++ acc.
Proof.
  revert n acc. induction fuel as [|f IH]; intros n acc; simpl; [reflexivity|].
  destruct (n <? 10)%N; [reflexivity|].
  rewrite IH. rewrite (IH _ (String _ EmptyString)).
  rewrite str_app_assoc. reflexivity.
Qed.

Lemma str_of_N_aux_fuel f f' n acc :
  (n < 10 ^ N.of_nat (S f))%N -> (f <= f')%nat ->
  str_of_N_aux (S f') n acc = str_of_N_aux (S f) n acc.
Proof.
  revert f' n acc. induction f as [|f IH]; intros f' n acc Hn Hf.
  - simpl. change (10 ^ N.of_nat 1)%N with 10%N in Hn.
    apply N.ltb_lt in Hn. now rewrite Hn.
  - destruct f' as [|f']; [lia|].
    cbn [str_of_N_aux]. destruct (n <? 10)%N eqn:E; [reflexivity|].
    apply IH; [|lia].
    replace (N.of_nat (S (S f))) with (N.succ (N.of_nat (S f))) in Hn by lia.
    rewrite N.pow_succ_r' in Hn.
    apply N.Div0.div_lt_upper_bound. lia.
Qed.

Lemma log2_fuel n : (n < 10 ^ N.of_nat (S (N.to_nat (N.log2 n))))%N.
Proof.
  replace (N.of_nat (S (N.to_nat (N.log2 n)))) with (N.succ (N.log2 n)) by lia.
  destruct (N.eq_dec n 0%N) as [->|Hn]; [reflexivity|].
  assert (H : (n < 2 ^ N.succ (N.log2 n))%N) by (apply N.log2_spec; lia).
  eapply N.lt_le_trans; [exact H|].
  apply N.pow_le_mono_l. lia.
Qed.

Lemma str_of_N_small n :
  (n < 10)%N -> str_of_N n = String (digit_char n) EmptyString.
Proof.
  intros H. unfold str_of_N. cbn [str_of_N_aux].
  rewrite N.mod_small by exact H.
  apply N.ltb_lt in H. now rewrite H.
Qed.

Lemma str_of_N_step n :
  (10 <= n)%N ->
  str_of_N n = str_of_N (n / 10) ++ String (digit_char (n mod 10)) EmptyString.
Proof.
  intros H. unfold str_of_N at 1. cbn [str_of_N_aux].
  assert (E : (n <? 10)%N = false) by (apply N.ltb_ge; exact H).
  rewrite E. rewrite str_of_N_aux_acc. f_equal.
  assert (Hl : (3 <= N.log2 n)%N).
  { apply N.log2_le_pow2; [lia|]. change (2 ^ 3)%N with 8%N. lia. }
  destruct (N.to_nat (N.log2 n)) as [|g] eqn:Eg; [lia|].
  unfold str_of_N.
  assert (Hq : (n / 10 < 10 ^ N.of_nat (S g))%N).
  { apply N.Div0.div_lt_upper_bound.
    pose proof (log2_fuel n) as Hf. rewrite Eg in Hf.
    replace (N.of_nat (S (S g))) with (N.succ (N.of_nat (S g))) in Hf by lia.
    rewrite N.pow_succ_r' in Hf. exact Hf. }
  destruct (Nat.le_ge_cases g (N.to_nat (N.log2 (n / 10)))) as [Hle|Hle].
  - symmetry. apply str_of_N_aux_fuel; [exact Hq | exact Hle].
  - apply str_of_N_aux_fuel; [apply log2_fuel | exact Hle].
Qed.

(** *** Reading a numeral back *)

Lemma all_digits_app s t : all_digits (s ++ t) = all_digits s && all_digits t.
Proof.
  induction s as [|c s IH]; [reflexivity|].
  rewrite str_app_cons. simpl. rewrite IH. now rewrite andb_assoc.
Qed.

Lemma all_digits_no_dash s : all_digits s = true -> has_char dash s = false.
Proof.
  induction s as [|c s IH]; [reflexivity|]. simpl.
  intros H. apply andb_true_iff in H as [Hc Hs].
  apply digit_facts in Hc as (_ & _ & Hd & _). unfold dash.
  rewrite Hd. now apply IH.
Qed.

Lemma digits_loop_snoc s acc v c :
  all_digits s = true -> is_digit c = true ->
  digits_loop acc s = Some (v, EmptyString) ->
  digits_loop acc (s ++ String c EmptyString) = Some (10 * v + digit_val c, EmptyString).
Proof.
  revert acc. induction s as [|d s IH]; intros acc Hs Hc H.
  - simpl in H. injection H as <-. rewrite str_app_nil_l. simpl. now rewrite Hc.
  - simpl in Hs. apply andb_true_iff in Hs as [Hd Hs].
    rewrite str_app_cons. simpl in *. rewrite Hd in *. now apply IH.
Qed.

Lemma str_of_N_parse n :
  all_digits (str_of_N n) = true
  /\ parse_number (str_of_N n) = Some (Z.of_N n, EmptyString)
  /\ exists c t, str_of_N n = String c t /\ is_digit c = true
                 /\ (Ascii.eqb c "0"%char = true -> n = 0%N).
Proof.
  induction n as [n IH] using (well_founded_induction N.lt_wf_0).
  destruct (N.lt_ge_cases n 10) as [Hlt|Hge].
  - rewrite (str_of_N_small n Hlt).
    destruct (digit_char_facts n Hlt) as (Hd & Hv & H0).
    simpl. rewrite Hd, Hv. repeat split; eauto 10.
  - rewrite (str_of_N_step n Hge).
    assert (Hq : (n / 10 < n)%N) by (apply N.div_lt; lia).
    assert (Hm : (n mod 10 < 10)%N) by (apply N.mod_lt; lia).
    destruct (IH _ Hq) as (Ha & Hp & c & t & E & Hc & H0).
    destruct (digit_char_facts _ Hm) as (Hd & Hv & _).
    rewrite all_digits_app, Ha. simpl all_digits. rewrite Hd.
    rewrite E in *. rewrite str_app_cons. simpl in Ha, Hp |- *.
    rewrite Hc in *. simpl in Ha. rename Ha into Ht.
    split; [reflexivity|]. split.
    + rewrite (digits_loop_snoc t _ _ _ Ht Hd Hp). rewrite Hv.
      do 2 f_equal. pose proof (N.div_mod n 10). lia.
    + exists c, (t ++ String (digit_char (n mod 10)) EmptyString).
      repeat split; [exact Hc|]. intros Hz. apply H0 in Hz.
      assert (n / 10 <> 0)%N; [|lia].
      intros Hq0. apply N.div_small_iff in Hq0; lia.
Qed.

Lemma py_int_digits c t n :
  is_digit c = true ->
  parse_number (String c t) = Some (n, EmptyString) ->
  py_int (String c t) = Some n.
Proof.
  intros Hc Hp. apply digit_facts in Hc as (Hs & Hplus & Hminus & _).
  unfold py_int. cbn [lstrip]. rewrite Hs, Hplus, Hminus, Hp. reflexivity.
Qed.

Lemma py_int_str_of_N n : py_int (str_of_N n) = Some (Z.of_N n).
Proof.
  destruct (str_of_N_parse n) as (_ & Hp & c & t & E & Hc & _).
  rewrite E in *. now apply py_int_digits.
Qed.

Lemma py_int_py_str z : 0 <= z -> py_int (py_str z) = Some z.
Proof.
  intros Hz. unfold py_str.
  destruct (z <? 0) eqn:E; [lia|].
  rewrite py_int_str_of_N. f_equal. lia.
Qed.

Lemma py_str_no_dash z : 0 <= z -> has_char dash (py_str z) = false.
Proof.
  intros Hz. unfold py_str. destruct (z <? 0) eqn:E; [lia|].
  apply all_digits_no_dash. apply str_of_N_parse.
Qed.

Lemma canonical_numeral_parse c t :
  is_digit c = true -> all_digits t = true ->
  (Ascii.eqb c "0"%char = false \/ t = EmptyString) ->
  exists n, parse_number (String c t) = Some (Z.of_N n, EmptyString)
            /\ str_of_N n = String c t
            /\ (Ascii.eqb c "0"%char = false -> (1 <= n)%N).
Proof.
  intros Hc. revert t. induction t as [|t d IH] using string_snoc_ind; intros Ht Hz.
  - destruct (digit_facts c Hc) as (_ & _ & _ & _ & Hv & Hch).
    exists (Z.to_N (digit_val c)). simpl. rewrite Hc.
    split; [do 2 f_equal; lia|]. split.
    + rewrite str_of_N_small by lia. now rewrite Hch.
    + intros H0. destruct (Z.to_N (digit_val c)) eqn:E; [|lia].
      rewrite <- Hch in H0. discriminate.
  - rewrite all_digits_app in Ht. apply andb_true_iff in Ht as [Ht Hd].
    simpl in Hd. rewrite andb_true_r in Hd.
    destruct Hz as [Hz|Hz]; [|destruct t; discriminate].
    destruct (IH Ht (or_introl Hz)) as (n & Hp & Hs & Hn).
    specialize (Hn Hz).
    destruct (digit_facts d Hd) as (_ & _ & _ & _ & Hv & Hch).
    exists (10 * n + Z.to_N (digit_val d))%N.
    simpl in Hp |- *. rewrite Hc in *.
    split; [|split; [|lia]].
    + rewrite (digits_loop_snoc t _ _ _ Ht Hd Hp). do 2 f_equal. lia.
    + rewrite str_of_N_step by lia.
      replace ((10 * n + Z.to_N (digit_val d)) / 10)%N with n.
      2:{ apply N.div_unique with (r := Z.to_N (digit_val d)); lia. }
      replace ((10 * n + Z.to_N (digit_val d)) mod 10)%N with (Z.to_N (digit_val d)).
      2:{ apply N.mod_unique with (q := n); lia. }
      rewrite Hs, Hch. now rewrite str_app_cons.
Qed.

Lemma canonical_numeral_roundtrip s :
  canonical_numeral s = true ->
  exists n, 0 <= n /\ py_int s = Some n /\ py_str n = s.
Proof.
  destruct s as [|c t]; [discriminate|]. simpl.
  intros H. apply andb_true_iff in H as [H Hz].
  apply andb_true_iff in H as [Hc Ht].
  assert (Hz' : Ascii.eqb c "0"%char = false \/ t = EmptyString).
  { apply orb_true_iff in Hz as [Hz|Hz].
    - left. now apply negb_true_iff.
    - right. now apply String.eqb_eq. }
  destruct (canonical_numeral_parse c t Hc Ht Hz') as (n & Hp & Hs & _).
  exists (Z.of_N n). split; [apply N2Z.is_nonneg|]. split.
  - now apply py_int_digits.
  - unfold py_str. destruct (Z.of_N n <? 0) eqn:E.
    + apply Z.ltb_lt in E. pose proof (N2Z.is_nonneg n). lia.
    + now rewrite N2Z.id.
Qed.

(** ** [NormalizedEntry]: the gold key *)

Example py_int_blanks : py_int " 12_3 " = Some 123.
Proof. reflexivity. Qed.

Example py_int_double_underscore : py_int "1__3" = None.
Proof. reflexivity. Qed.

Example py_str_positive : py_str 1204 = "1204".
Proof. reflexivity. Qed.

Example py_str_negative : py_str (-7) = "-7".
Proof. reflexivity. Qed.

Lemma from_goldkey_goldkey p n t fr err :
  0 <= n ->
  from_goldkey (goldkey (mkNormalizedEntry p n t fr err)) t fr err
  = Ok (mkNormalizedEntry p n t fr err).
Proof.
  intros Hn. unfold from_goldkey, goldkey. cbn [s3_path pagenum].
  rewrite rindex_app_last by (now apply py_str_no_dash).
  rewrite slice_from_app, slice_to_app, py_int_py_str by exact Hn.
  reflexivity.
Qed.

Lemma goldkey_from_goldkey k i t fr err :
  rindex dash k = Some i ->
  canonical_numeral (slice_from (S i) k) = true ->
  exists e, from_goldkey k t fr err = Ok e /\ goldkey e = k.
Proof.
  intros Hi Hc. unfold from_goldkey. rewrite Hi.
  destruct (canonical_numeral_roundtrip _ Hc) as (n & _ & Hp & Hs).
  rewrite Hp. eexists. split; [reflexivity|].
  unfold goldkey. cbn [s3_path pagenum]. rewrite Hs.
  symmetry. now apply rindex_split.
Qed.

(** C8.  The [goldkey] property renders
    [s3_path], a dash and the decimal [pagenum]; for a page number that is
    not negative, [from_goldkey] applied to that key gives back the same
    [s3_path] and [pagenum], whatever dashes the path holds; and for a key [k]
    whose text after the last dash is a canonical decimal numeral,
    [from_goldkey(k).goldkey] is [k] again. *)
Theorem goldkey_round_trip (p : string) (n : Z) (k : string) (i : nat) (t fr err : json) :
  0 <= n ->
  rindex dash k = Some i ->
  canonical_numeral (slice_from (S i) k) = true ->
  goldkey (mkNormalizedEntry p n t fr err) = p ++ "-" ++ py_str n
  /\ from_goldkey (goldkey (mkNormalizedEntry p n t fr err)) t fr err
     = Ok (mkNormalizedEntry p n t fr err)
  /\ exists e, from_goldkey k t fr err = Ok e /\ goldkey e = k.
Proof.
  intros Hn Hi Hc. split; [reflexivity|]. split.
  - now apply from_goldkey_goldkey.
  - now apply goldkey_from_goldkey with (i := i).
Qed.

Lemma goldkey_round_trip_witness :
  0 <= 4
  /\ rindex dash "s3://bucket/a-b.pdf-12" = Some 19%nat
  /\ canonical_numeral (slice_from 20 "s3://bucket/a-b.pdf-12") = true
  /\ goldkey (mkNormalizedEntry "s3://bucket/a-b.pdf" 4 JNull JNull JNull)
     = "s3://bucket/a-b.pdf" ++ "-" ++ py_str 4
  /\ from_goldkey (goldkey (mkNormalizedEntry "s3://bucket/a-b.pdf" 4 JNull JNull JNull))
       JNull JNull JNull
     = Ok (mkNormalizedEntry "s3://bucket/a-b.pdf" 4 JNull JNull JNull)
  /\ exists e, from_goldkey "s3://bucket/a-b.pdf-12" JNull JNull JNull = Ok e
               /\ goldkey e = "s3://bucket/a-b.pdf-12".
Proof.
  assert (H1 : 0 <= 4) by lia.
  assert (H2 : rindex dash "s3://bucket/a-b.pdf-12" = Some 19%nat) by reflexivity.
  assert (H3 : canonical_numeral (slice_from 20 "s3://bucket/a-b.pdf-12") = true)
    by reflexivity.
  split; [exact H1|]. split; [exact H2|]. split; [exact H3|].
  exact (goldkey_round_trip "s3://bucket/a-b.pdf" 4 "s3://bucket/a-b.pdf-12" 19
           JNull JNull JNull H1 H2 H3).
Defined.

(** A negative page number does not survive the trip: its sign is the last
    dash of the key, so the path gains a dash and the page loses its sign. *)
Lemma goldkey_negative_page :
  from_goldkey (goldkey (mkNormalizedEntry "doc.pdf" (-1) JNull JNull JNull)) JNull JNull JNull
  = Ok (mkNormalizedEntry "doc.pdf-" 1 JNull JNull JNull).
Proof. reflexivity. Qed.

(** ** [normalize_json_entry] *)

Lemma returns_ok {A : Type} (a : A) : returns (Ok a).
Proof. now exists a. Qed.

Lemma returns_raise {A : Type} (e : exn) : ~ returns (@Raise A e).
Proof. intros [a H]. discriminate. Qed.

Lemma bind_ok {A B : Type} (m : outcome A) (k : A -> outcome B) (b : B) :
  bind m k = Ok b -> exists a, m = Ok a /\ k a = Ok b.
Proof. destruct m as [a|e]; simpl; [eauto | discriminate]. Qed.

#[local] Hint Resolve returns_ok : core.

Ltac split_match :=
  match goal with
  | |- context [match ?x with _ => _ end] => destruct x eqn:?
  end.

Ltac settle :=
  first
    [ split; [intros H; exfalso; first [discriminate H | exact (returns_raise _ H)]
             | intros H; first [discriminate H | exfalso; exact (returns_raise _ H)]]
    | split; intros _; [reflexivity | apply returns_ok] ].

Section NormalizeFacts.

Variable json_loads : string -> option json.

Lemma from_goldkey_value_returns k t fr err :
  returns (from_goldkey_value k t fr err) <-> valid_goldkey k = true.
Proof.
  unfold from_goldkey_value, valid_goldkey, from_goldkey.
  destruct k; try settle.
  destruct (rindex dash s); [|settle].
  destruct (py_int _); settle.
Qed.

Lemma from_goldkey_value_fields k t fr err e :
  from_goldkey_value k t fr err = Ok e ->
  exists s i, k = JStr s /\ rindex dash s = Some i
              /\ s3_path e = slice_to i s
              /\ py_int (slice_from (S i) s) = Some (pagenum e)
              /\ text e = t /\ finish_reason e = fr /\ error e = err.
Proof.
  unfold from_goldkey_value, from_goldkey.
  destruct k; try discriminate.
  destruct (rindex dash s) as [i|] eqn:Ei; [|discriminate].
  destruct (py_int _) as [n|] eqn:En; [|discriminate].
  intros H. injection H as <-. exists s, i. simpl. auto 10.
Qed.

Lemma normalize_birr_returns o outs :
  dict_get "outputs" o = Some outs ->
  returns (normalize_json_entry json_loads (JObj o))
  <-> birr_well_formed json_loads (JObj o) = true.
Proof.
  intros Ho. unfold normalize_json_entry, birr_well_formed.
  cbn [py_in bind]. unfold has_key. rewrite Ho. cbn [bind py_getitem]. rewrite Ho.
  cbn [bind].
  assert (G : forall t f,
    returns (let! k := match dict_get "custom_id" o with
                       | Some x => Ok x | None => Raise KeyError end in
             let! err := py_get (JObj o) "completion_error" in
             from_goldkey_value k t f err)
    <-> match dict_get "custom_id" o with
        | Some k => valid_goldkey k
        | None => false
        end = true).
  { intros t f. destruct (dict_get "custom_id" o) as [k|]; [|settle].
    cbn [bind py_get]. apply from_goldkey_value_returns. }
  destruct outs as [| | | |l|]; cbn [py_first bind fst snd]; try (rewrite G).
  - destruct (dict_get "custom_id" o); [now rewrite andb_true_r | reflexivity].
  - destruct (dict_get "custom_id" o); [rewrite andb_false_r|]; settle.
  - destruct (dict_get "custom_id" o); [rewrite andb_false_r|]; settle.
  - destruct (dict_get "custom_id" o); [rewrite andb_false_r|];
      destruct s; cbn [bind py_getitem]; settle.
  - destruct l as [|x l].
    { destruct (dict_get "custom_id" o); [rewrite andb_false_r|]; settle. }
    assert (F : forall b : bool,
      match dict_get "custom_id" o with Some k => valid_goldkey k && b | None => false end
      = (match dict_get "custom_id" o with Some k => valid_goldkey k | None => false end
       && b)%bool).
    { intros b. now destruct (dict_get "custom_id" o). }
    destruct x as [| | | | |c]; cbn [bind py_getitem];
      try (rewrite F, andb_false_r; settle).
    destruct (dict_get "text" c) as [t|]; cbn [bind];
      [|rewrite F, andb_false_r; settle].
    destruct (dict_get "finish_reason" c) as [f|]; cbn [bind fst snd].
    2:{ rewrite F. destruct t; rewrite andb_false_r; settle. }
    destruct t as [| | |s| |]; cbn [loads_value bind];
      try (rewrite F, andb_false_r; settle).
    + rewrite G, F. now rewrite andb_true_r.
    + unfold decodes_or_raw. rewrite F.
      destruct (json_loads s) as [p|]; cbn [bind].
      * destruct p as [| | | | |po]; cbn [py_getitem bind];
          try (rewrite andb_false_r; settle).
        unfold has_key. destruct (dict_get "natural_text" po); cbn [bind].
        -- rewrite G. now rewrite andb_true_r.
        -- rewrite andb_false_r. settle.
      * rewrite G. now rewrite andb_true_r.
  - destruct (dict_get "custom_id" o); [rewrite andb_false_r|]; settle.
Qed.

End NormalizeFacts.

Section NormalizeFacts2.

Variable json_loads : string -> option json.

Lemma normalize_openai_returns o :
  dict_get "outputs" o = None ->
  returns (normalize_json_entry json_loads (JObj o))
  <-> openai_well_formed json_loads (JObj o) = true.
Proof.
  intros Ho. unfold normalize_json_entry, openai_well_formed.
  cbn [py_in bind]. unfold has_key. rewrite Ho.
  unfold message_content, choice_finish_reason, first_choice.
  cbn [bind py_getitem].
  destruct (dict_get "response" o) as [r|]; cbn [bind].
  2:{ destruct (dict_get "custom_id" o); settle. }
  assert (F : forall b : bool,
    match dict_get "custom_id" o with Some k => valid_goldkey k && b | None => false end
    = (match dict_get "custom_id" o with Some k => valid_goldkey k | None => false end
       && b)%bool).
  { intros b. now destruct (dict_get "custom_id" o). }
  destruct r as [| | | | |r]; cbn [bind py_getitem];
    try (destruct (dict_get "custom_id" o); settle).
  rewrite F.
  destruct (dict_get "body" r) as [b|]; cbn [bind];
    [|rewrite andb_false_r; settle].
  destruct b as [| | | | |b]; cbn [bind py_getitem];
    try (rewrite andb_false_r; settle).
  destruct (dict_get "choices" b) as [cs|]; cbn [bind];
    [|rewrite andb_false_r; settle].
  destruct cs as [| | |s|l|]; cbn [bind py_first];
    try (rewrite andb_false_r; settle).
  { destruct s; cbn [bind py_getitem]; rewrite andb_false_r; settle. }
  destruct l as [|c l]; cbn [bind]; [rewrite andb_false_r; settle|].
  destruct c as [| | | | |c]; cbn [bind py_getitem];
    try (rewrite andb_false_r; settle).
  destruct (dict_get "message" c) as [m|]; cbn [bind];
    [|rewrite andb_false_r; settle].
  destruct m as [| | | | |m]; cbn [bind py_getitem];
    try (rewrite andb_false_r; settle).
  destruct (dict_get "content" m) as [ct|]; cbn [bind].
  2:{ destruct (dict_get "finish_reason" c); rewrite andb_false_r; settle. }
  destruct ct as [| | |s| |]; cbn [bind loads_value];
    try (destruct (dict_get "finish_reason" c); rewrite andb_false_r; settle).
  assert (G : forall t,
    returns (let! k := match dict_get "custom_id" o with
                       | Some x => Ok x | None => Raise KeyError end in
             let! t' := Ok t in
             let! f := match dict_get "finish_reason" c with
                       | Some x => Ok x | None => Raise KeyError end in
             from_goldkey_value k t' f JNull)
    <-> (match dict_get "custom_id" o with
         | Some k => valid_goldkey k
         | None => false
         end && match dict_get "finish_reason" c with Some _ => true | None => false end
        )%bool = true).
  { intros t. destruct (dict_get "custom_id" o) as [k|]; [|settle].
    cbn [bind]. destruct (dict_get "finish_reason" c) as [f|]; cbn [bind].
    - rewrite andb_true_r. apply from_goldkey_value_returns.
    - rewrite andb_false_r. settle. }
  unfold decodes_or_raw.
  destruct (json_loads s) as [p|].
  - destruct p as [| | | | |po];
      try (destruct (dict_get "custom_id" o); cbn [bind py_getitem];
           destruct (dict_get "finish_reason" c); rewrite ?andb_false_r; settle).
    cbn [py_getitem]. unfold has_key.
    destruct (dict_get "natural_text" po) as [v|].
    + rewrite (G v). destruct (dict_get "finish_reason" c); reflexivity.
    + destruct (dict_get "custom_id" o); cbn [bind];
        destruct (dict_get "finish_reason" c); rewrite ?andb_false_r; settle.
  - rewrite (G (JStr s)). destruct (dict_get "finish_reason" c); reflexivity.
Qed.

Lemma normalize_not_object data :
  (forall o, data <> JObj o) -> ~ returns (normalize_json_entry json_loads data).
Proof.
  intros Hd. unfold normalize_json_entry.
  destruct data as [| | |s|l|o]; cbn [py_in bind]; try apply returns_raise.
  - destruct (has_substring "outputs" s); cbn [py_getitem bind]; [apply returns_raise|].
    unfold message_content, first_choice. cbn [py_getitem bind]. apply returns_raise.
  - destruct (existsb _ l); cbn [py_getitem bind]; [apply returns_raise|].
    unfold message_content, first_choice. cbn [py_getitem bind]. apply returns_raise.
  - now destruct (Hd o).
Qed.

Lemma normalize_fields data e :
  normalize_json_entry json_loads data = Ok e ->
  exists k i, py_getitem data "custom_id" = Ok (JStr k)
              /\ rindex dash k = Some i
              /\ s3_path e = slice_to i k
              /\ py_int (slice_from (S i) k) = Some (pagenum e).
Proof.
  unfold normalize_json_entry. intros H.
  apply bind_ok in H as (birr & _ & H).
  destruct birr.
  - apply bind_ok in H as (outs & _ & H).
    apply bind_ok in H as (tf & _ & H).
    apply bind_ok in H as (t & _ & H).
    apply bind_ok in H as (k & Hk & H).
    apply bind_ok in H as (err & _ & H).
    apply from_goldkey_value_fields in H as (s & i & -> & Hi & Hp & Hn & _).
    exists s, i. auto.
  - apply bind_ok in H as (c & _ & H).
    apply bind_ok in H as (p & _ & H).
    destruct p as [parsed|].
    + apply bind_ok in H as (k & Hk & H).
      apply bind_ok in H as (t & _ & H).
      apply bind_ok in H as (f & _ & H).
      apply from_goldkey_value_fields in H as (s & i & -> & Hi & Hp & Hn & _).
      exists s, i. auto.
    + apply bind_ok in H as (k & Hk & H).
      apply bind_ok in H as (t & _ & H).
      apply bind_ok in H as (f & _ & H).
      apply from_goldkey_value_fields in H as (s & i & -> & Hi & Hp & Hn & _).
      exists s, i. auto.
Qed.

End NormalizeFacts2.

(** C2.  [normalize_json_entry] returns, without raising,
    exactly on the entries of the two formats that are well formed: an object
    whose [custom_id] is a string with a dash that [int] reads the rest of,
    and which either has an [outputs] key holding [None] or a list whose first
    element is an object with [text] and [finish_reason], or has no [outputs]
    key and holds [response.body.choices[0]] with a string [message.content]
    and a [finish_reason]; in both formats a text that decodes as JSON must
    decode to an object that has [natural_text].  Whenever it returns, the
    entry's [s3_path] is the [custom_id] up to its last dash and its [pagenum]
    is the integer after that dash. *)
Theorem normalize_json_entry_common_schema
    (json_loads : string -> option json) (data : json) :
  (returns (normalize_json_entry json_loads data)
   <-> birr_well_formed json_loads data || openai_well_formed json_loads data = true)
  /\ (forall e, normalize_json_entry json_loads data = Ok e ->
        exists k i, py_getitem data "custom_id" = Ok (JStr k)
                    /\ rindex dash k = Some i
                    /\ s3_path e = slice_to i k
                    /\ py_int (slice_from (S i) k) = Some (pagenum e)).
Proof.
  split; [|apply normalize_fields].
  destruct data as [| | | | |o];
    try (split; [intros H; exfalso; revert H; apply normalize_not_object; discriminate
                | discriminate]).
  destruct (dict_get "outputs" o) as [outs|] eqn:Ho.
  - rewrite (normalize_birr_returns json_loads o outs Ho).
    replace (openai_well_formed json_loads (JObj o)) with false
      by (unfold openai_well_formed; now rewrite Ho).
    now rewrite orb_false_r.
  - rewrite (normalize_openai_returns json_loads o Ho).
    replace (birr_well_formed json_loads (JObj o)) with false
      by (unfold birr_well_formed; now rewrite Ho).
    reflexivity.
Qed.

Lemma normalize_json_entry_common_schema_witness :
  returns (normalize_json_entry sample_loads
             (openai_entry "s3://bucket/doc.pdf-3" natural_text_doc))
  /\ exists k i,
       py_getitem (openai_entry "s3://bucket/doc.pdf-3" natural_text_doc) "custom_id"
       = Ok (JStr k)
       /\ rindex dash k = Some i
       /\ "s3://bucket/doc.pdf" = slice_to i k
       /\ py_int (slice_from (S i) k) = Some 3.
Proof.
  split.
  - apply (proj1 (normalize_json_entry_common_schema sample_loads
                    (openai_entry "s3://bucket/doc.pdf-3" natural_text_doc))).
    reflexivity.
  - exact (proj2 (normalize_json_entry_common_schema sample_loads
                    (openai_entry "s3://bucket/doc.pdf-3" natural_text_doc))
             (mkNormalizedEntry "s3://bucket/doc.pdf" 3 (JStr "Hello") (JStr "stop") JNull)
             eq_refl).
Defined.

(** An entry of the inference engine, with an [outputs] key, on which
    [normalize_json_entry] raises: the list of outputs is empty. *)
Lemma normalize_raises_on_empty_outputs :
  normalize_json_entry sample_loads birr_no_output = Raise IndexError.
Proof. reflexivity. Qed.

(** The decoder plays no part in it. *)
Lemma empty_outputs_raise_under_every_decoder (json_loads : string -> option json) :
  normalize_json_entry json_loads birr_no_output = Raise IndexError.
Proof. reflexivity. Qed.

Example normalize_openai_structured :
  normalize_json_entry sample_loads (openai_entry "s3://bucket/doc.pdf-3" natural_text_doc)
  = Ok (mkNormalizedEntry "s3://bucket/doc.pdf" 3 (JStr "Hello") (JStr "stop") JNull).
Proof. reflexivity. Qed.

Example normalize_openai_raw :
  normalize_json_entry sample_loads (openai_entry "s3://bucket/doc.pdf-3" "plain words")
  = Ok (mkNormalizedEntry "s3://bucket/doc.pdf" 3 (JStr "plain words") (JStr "stop") JNull).
Proof. reflexivity. Qed.

Example normalize_birr_none :
  normalize_json_entry sample_loads
    (JObj [("custom_id", JStr "a-b.pdf-10"); ("outputs", JNull);
           ("completion_error", JStr "timeout")])
  = Ok (mkNormalizedEntry "a-b.pdf" 10 JNull JNull (JStr "timeout")).
Proof. reflexivity. Qed.

(** C6.  For an entry with no [outputs] key whose
    [custom_id] is a key [from_goldkey] accepts and whose first choice holds a
    string [message.content] and a [finish_reason]: when the content is not
    valid JSON, [normalize_json_entry] returns the raw content as the text,
    with the [finish_reason] kept; when the content decodes to a value whose
    [natural_text] can be taken, the text is that field, with the same
    [finish_reason]. *)
Theorem normalize_json_entry_fallback
    (json_loads : string -> option json) (data : json)
    (content k : string) (i : nat) (n : Z) (f : json) :
  py_in "outputs" data = Ok false ->
  message_content data = Ok (JStr content) ->
  choice_finish_reason data = Ok f ->
  py_getitem data "custom_id" = Ok (JStr k) ->
  rindex dash k = Some i ->
  py_int (slice_from (S i) k) = Some n ->
  (json_loads content = None ->
   normalize_json_entry json_loads data
   = Ok (mkNormalizedEntry (slice_to i k) n (JStr content) f JNull))
  /\ (forall parsed_content v,
        json_loads content = Some parsed_content ->
        py_getitem parsed_content "natural_text" = Ok v ->
        normalize_json_entry json_loads data
        = Ok (mkNormalizedEntry (slice_to i k) n v f JNull)).
Proof.
  intros Hin Hc Hf Hk Hi Hn. unfold normalize_json_entry.
  rewrite Hin. cbn [bind]. rewrite Hc. cbn [bind loads_value].
  split.
  - intros ->. rewrite Hk. cbn [bind]. rewrite Hf. cbn [bind].
    unfold from_goldkey_value, from_goldkey. now rewrite Hi, Hn.
  - intros p v -> Hv. rewrite Hk. cbn [bind]. rewrite Hv. cbn [bind]. rewrite Hf.
    cbn [bind]. unfold from_goldkey_value, from_goldkey. now rewrite Hi, Hn.
Qed.

Lemma normalize_json_entry_fallback_witness :
  (sample_loads "plain words" = None ->
   normalize_json_entry sample_loads (openai_entry "s3://bucket/doc.pdf-3" "plain words")
   = Ok (mkNormalizedEntry (slice_to 19 "s3://bucket/doc.pdf-3") 3
           (JStr "plain words") (JStr "stop") JNull))
  /\ (forall parsed_content v,
        sample_loads "plain words" = Some parsed_content ->
        py_getitem parsed_content "natural_text" = Ok v ->
        normalize_json_entry sample_loads (openai_entry "s3://bucket/doc.pdf-3" "plain words")
        = Ok (mkNormalizedEntry (slice_to 19 "s3://bucket/doc.pdf-3") 3 v (JStr "stop") JNull)).
Proof.
  apply (normalize_json_entry_fallback sample_loads
           (openai_entry "s3://bucket/doc.pdf-3" "plain words")
           "plain words" "s3://bucket/doc.pdf-3" 19 3 (JStr "stop"));
    reflexivity.
Defined.

(** A batch entry whose content is valid JSON, the empty object: there is no
    [natural_text] to take, the [KeyError] is not the error the fallback
    catches, and no entry is returned. *)
Lemma normalize_raises_without_natural_text :
  normalize_json_entry sample_loads (openai_entry "s3://bucket/doc.pdf-3" "{}")
  = Raise KeyError.
Proof. reflexivity. Qed.

(** ** Scoring *)

Lemma sumQ_perm l l' : Permutation l l' -> (sumQ l == sumQ l')%Q.
Proof.
  induction 1 as [|x l l' _ IH|x y l|l l' l'' _ IH1 _ IH2]; simpl.
  - reflexivity.
  - now rewrite IH.
  - ring.
  - now rewrite IH1.
Qed.

Lemma sumZ_perm l l' : Permutation l l' -> sumZ l = sumZ l'.
Proof.
  induction 1 as [|x l l' _ IH|x y l|l l' l'' _ IH1 _ IH2]; simpl; lia.
Qed.

Section EvalFacts.

Variable json_loads : string -> option json.
Variable compute : comparer -> json -> json -> outcome Q.
Variable smart_open : string -> list string.
Variable list_jsonl_files : string -> list string.
Variable as_completed : list (outcome file_result) -> list (outcome file_result).
Variable random_sample : list page -> nat -> list page.

Variable gold_data : gmap string json.
Variable c : comparer.

Abbreviation process_line' := (process_line json_loads compute gold_data c).
Abbreviation run_lines' := (run_lines json_loads compute gold_data c).
Abbreviation entry_score' := (entry_score compute gold_data c).
Abbreviation file_totals' := (file_totals json_loads compute gold_data c).
Abbreviation load_line' := (load_line json_loads).

Lemma process_line_ok acc line acc' :
  process_line' acc line = Ok acc' ->
  exists e x, load_line' line = Ok e /\ entry_score' e = Ok x
    /\ (char_weighted_alignment_score acc'
        == char_weighted_alignment_score acc + fst x)%Q
    /\ total_chars acc' = total_chars acc + snd x.
Proof.
  unfold process_line, entry_score. intros H.
  apply bind_ok in H as (e & He & H). exists e.
  destruct (gold_data !! goldkey e) as [g|].
  - apply bind_ok in H as (a & Ha & H).
    apply bind_ok in H as (n & Hn & H).
    injection H as <-. rewrite Ha, Hn. cbn [bind].
    eexists. split; [exact He|]. split; [reflexivity|]. simpl. split; [reflexivity|lia].
  - injection H as <-. eexists. split; [exact He|]. split; [reflexivity|].
    simpl. split; [ring | lia].
Qed.

Lemma process_line_returns acc line e x :
  load_line' line = Ok e -> entry_score' e = Ok x ->
  returns (process_line' acc line).
Proof.
  unfold process_line, entry_score. intros -> H. cbn [bind].
  destruct (gold_data !! goldkey e) as [g|]; [|apply returns_ok].
  destruct (compute c _ _) as [a|]; [|discriminate]. cbn [bind] in *.
  destruct (py_len _) as [n|]; [|discriminate]. cbn [bind]. apply returns_ok.
Qed.

Lemma file_totals_cons line rest t :
  file_totals' (line :: rest) = Ok t <->
  exists e x y, load_line' line = Ok e /\ entry_score' e = Ok x
    /\ file_totals' rest = Ok y /\ t = ((fst x + fst y)%Q, snd x + snd y).
Proof.
  unfold file_totals. cbn [load_lines]. split.
  - intros H. apply bind_ok in H as (es & H1 & H).
    apply bind_ok in H1 as (e & He & H1).
    apply bind_ok in H1 as (es' & Hes & H1). injection H1 as <-.
    cbn [entries_totals] in H.
    apply bind_ok in H as (x & Hx & H).
    apply bind_ok in H as (y & Hy & H). injection H as <-.
    exists e, x, y. rewrite Hes. cbn [bind]. auto.
  - intros (e & x & y & He & Hx & Hy & ->).
    rewrite He. cbn [bind].
    destruct (load_lines json_loads rest) as [es|]; [|discriminate].
    cbn [bind entries_totals] in *. rewrite Hx, Hy. reflexivity.
Qed.

Lemma run_lines_totals lines acc r :
  run_lines' acc lines = Ok r ->
  exists w n, file_totals' lines = Ok (w, n)
    /\ (char_weighted_alignment_score r == char_weighted_alignment_score acc + w)%Q
    /\ total_chars r = total_chars acc + n.
Proof.
  revert acc. induction lines as [|line rest IH]; intros acc H.
  - injection H as <-. exists 0%Q, 0. split; [reflexivity|]. split; [ring | lia].
  - cbn [run_lines] in H. apply bind_ok in H as (acc' & Hl & H).
    apply process_line_ok in Hl as (e & x & He & Hx & Hw & Hn).
    apply IH in H as (w & n & Ht & Hw' & Hn').
    exists (fst x + w)%Q, (snd x + n). split.
    + apply file_totals_cons. exists e, x, (w, n). auto.
    + split; [rewrite Hw', Hw; ring | lia].
Qed.

Lemma run_lines_returns lines acc t :
  file_totals' lines = Ok t -> returns (run_lines' acc lines).
Proof.
  revert acc t. induction lines as [|line rest IH]; intros acc t H.
  - apply returns_ok.
  - apply file_totals_cons in H as (e & x & y & He & Hx & Hy & _).
    cbn [run_lines].
    destruct (process_line_returns acc line e x He Hx) as [acc' ->].
    cbn [bind]. eapply IH, Hy.
Qed.

(** The page records of a file all come from the comparer. *)
Lemma od_set_in {V : Type} k (v : V) d kv :
  In kv (od_set k v d) -> snd kv = v \/ In kv d.
Proof.
  induction d as [|[k' v'] d IH]; simpl.
  - intros [<-|[]]. now left.
  - destruct (String.eqb k' k); simpl; intros [<-|H]; auto.
    destruct (IH H); auto.
Qed.

Lemma process_line_pages acc line acc' kp :
  process_line' acc line = Ok acc' ->
  In kp (page_data acc') ->
  In kp (page_data acc)
  \/ exists e, load_line' line = Ok e /\ delegated compute gold_data c e (snd kp).
Proof.
  unfold process_line. intros H Hin.
  apply bind_ok in H as (e & He & H).
  destruct (gold_data !! goldkey e) as [g|] eqn:Eg.
  - apply bind_ok in H as (a & Ha & H).
    apply bind_ok in H as (n & Hn & H).
    injection H as <-. simpl in Hin.
    apply od_set_in in Hin as [Hp|Hin]; [|now left].
    right. exists e. split; [exact He|]. exists g. rewrite Hp. simpl. auto 10.
  - injection H as <-. now left.
Qed.

Lemma run_lines_pages lines acc r kp :
  run_lines' acc lines = Ok r ->
  In kp (page_data r) ->
  In kp (page_data acc)
  \/ exists line e, In line lines /\ load_line' line = Ok e
                    /\ delegated compute gold_data c e (snd kp).
Proof.
  revert acc. induction lines as [|line rest IH]; intros acc H Hin.
  - injection H as <-. now left.
  - cbn [run_lines] in H. apply bind_ok in H as (acc' & Hl & H).
    destruct (IH _ H Hin) as [Hacc|(l & e & Hl' & He & Hd)].
    + destruct (process_line_pages _ _ _ _ Hl Hacc) as [?|(e & He & Hd)]; [now left|].
      right. exists line, e. simpl. auto.
    + right. exists l, e. simpl. auto.
Qed.

End EvalFacts.

Section DoEvalFacts.

Variable json_loads : string -> option json.
Variable compute : comparer -> json -> json -> outcome Q.
Variable smart_open : string -> list string.
Variable list_jsonl_files : string -> list string.
Variable as_completed : list (outcome file_result) -> list (outcome file_result).
Variable random_sample : list page -> nat -> list page.

Abbreviation process_file' gold_data :=
  (fun f => process_jsonl_file json_loads compute smart_open f gold_data the_comparer).
Abbreviation corpus_totals' gold_data files :=
  (corpus_totals json_loads compute gold_data the_comparer (map smart_open files)).
Abbreviation eval_files' :=
  (eval_files json_loads compute smart_open list_jsonl_files as_completed).
Abbreviation do_eval' :=
  (do_eval json_loads compute smart_open list_jsonl_files as_completed random_sample).
Abbreviation load_gold_data' := (load_gold_data json_loads smart_open list_jsonl_files).

Lemma aggregate_ok acc done t :
  aggregate acc done = Ok t ->
  exists rs, done = map Ok rs
    /\ (sum_score t == sum_score acc + sumQ (map char_weighted_alignment_score rs))%Q
    /\ sum_weight t = sum_weight acc + sumZ (map total_chars rs)
    /\ page_eval_data t = (page_eval_data acc ++ pages_of rs)%list.
Proof.
  revert acc. induction done as [|fut rest IH]; intros acc H.
  - injection H as <-. exists []. simpl. rewrite app_nil_r.
    split; [reflexivity|]. split; [ring|]. split; [lia | reflexivity].
  - cbn [aggregate] in H. apply bind_ok in H as (r & -> & H).
    apply IH in H as (rs & -> & Hs & Hw & Hp). exists (r :: rs).
    cbn [sum_score sum_weight page_eval_data] in *.
    split; [reflexivity|]. split; [|split].
    + rewrite Hs. simpl. ring.
    + simpl. lia.
    + rewrite Hp. unfold pages_of. simpl. now rewrite app_assoc.
Qed.

Lemma aggregate_returns acc rs : returns (aggregate acc (map Ok rs)).
Proof.
  revert acc. induction rs as [|r rs IH]; intros acc; [apply returns_ok|].
  simpl. apply IH.
Qed.

Lemma files_totals gold_data files rs :
  map (process_file' gold_data) files = map Ok rs ->
  exists W N, corpus_totals' gold_data files = Ok (W, N)
    /\ (W == sumQ (map char_weighted_alignment_score rs))%Q
    /\ N = sumZ (map total_chars rs).
Proof.
  revert rs. induction files as [|f files IH]; intros rs H.
  - destruct rs; [|discriminate]. exists 0%Q, 0. simpl. split; [reflexivity|].
    split; reflexivity.
  - destruct rs as [|r rs]; [discriminate|]. simpl in H. injection H as Hr H.
    apply IH in H as (W & N & Hc & HW & HN).
    apply run_lines_totals in Hr as (w & n & Ht & Hw & Hn).
    exists (w + W)%Q, (n + N). cbn [corpus_totals map]. rewrite Ht, Hc. cbn [bind fst snd].
    split; [reflexivity|]. simpl in *. split; [rewrite Hw, HW; ring | lia].
Qed.

Lemma files_return gold_data files T :
  corpus_totals' gold_data files = Ok T ->
  exists rs, map (process_file' gold_data) files = map Ok rs.
Proof.
  revert T. induction files as [|f files IH]; intros T H.
  - now exists [].
  - cbn [corpus_totals map] in H. apply bind_ok in H as (x & Hx & H).
    apply bind_ok in H as (y & Hy & _).
    apply IH in Hy as (rs & Hrs).
    destruct (run_lines_returns json_loads compute _ _ _ file_result0 _ Hx) as [r Hr].
    exists (r :: rs). simpl. f_equal; [exact Hr | exact Hrs].
Qed.

Hypothesis as_completed_perm : forall l, Permutation (as_completed l) l.

Lemma eval_files_ok gold_path eval_path t :
  eval_files' gold_path eval_path = Ok t ->
  exists gold_data rs,
    load_gold_data' gold_path = Ok gold_data
    /\ list_jsonl_files eval_path <> []
    /\ Permutation (map Ok rs) (map (process_file' gold_data) (list_jsonl_files eval_path))
    /\ (sum_score t == sumQ (map char_weighted_alignment_score rs))%Q
    /\ sum_weight t = sumZ (map total_chars rs)
    /\ page_eval_data t = pages_of rs.
Proof.
  unfold eval_files. intros H. apply bind_ok in H as (gold_data & Hg & H).
  destruct (list_jsonl_files eval_path) as [|f fs] eqn:Ef; [discriminate|].
  apply aggregate_ok in H as (rs & Hrs & Hs & Hw & Hp).
  exists gold_data, rs. split; [exact Hg|]. split; [discriminate|].
  split; [rewrite <- Hrs; apply as_completed_perm|].
  cbn [sum_score sum_weight page_eval_data] in *.
  split; [rewrite Hs; ring|]. split; [lia | exact Hp].
Qed.

Lemma eval_files_returns gold_path eval_path gold_data W N :
  load_gold_data' gold_path = Ok gold_data ->
  list_jsonl_files eval_path <> [] ->
  corpus_totals' gold_data (list_jsonl_files eval_path) = Ok (W, N) ->
  exists t, eval_files' gold_path eval_path = Ok t
    /\ (sum_score t == W)%Q /\ sum_weight t = N.
Proof.
  intros Hg Hne Hc.
  destruct (files_return _ _ _ Hc) as (rs & Hrs).
  pose proof (as_completed_perm (map (process_file' gold_data) (list_jsonl_files eval_path)))
    as Hperm.
  rewrite Hrs in Hperm. apply Permutation_map_inv in Hperm as (rs' & Hrs' & Hperm).
  unfold eval_files. rewrite Hg. cbn [bind].
  destruct (list_jsonl_files eval_path) as [|f fs] eqn:Ef; [congruence|].
  rewrite Hrs, Hrs'.
  destruct (aggregate_returns (mkEvalTotals 0 0 []) rs') as [t Ht].
  exists t. split; [exact Ht|].
  apply aggregate_ok in Ht as (rs'' & Heq & Hs & Hw & _).
  assert (rs'' = rs') as ->.
  { clear -Heq. revert rs'' Heq. induction rs' as [|a l IH]; intros [|b l'] H;
      try discriminate; [reflexivity|]. injection H as -> H. f_equal. now apply IH. }
  destruct (files_totals _ _ _ Hrs) as (W' & N' & Hc' & HW & HN).
  rewrite Hc in Hc'. injection Hc' as <- <-.
  cbn [sum_score sum_weight] in *. split.
  - rewrite Hs, HW. rewrite (sumQ_perm _ _ (Permutation_map char_weighted_alignment_score Hperm)).
    ring.
  - rewrite Hw, HN. rewrite (sumZ_perm _ _ (Permutation_map total_chars Hperm)). lia.
Qed.

End DoEvalFacts.

Section DoEval.

Variable json_loads : string -> option json.
Variable compute : comparer -> json -> json -> outcome Q.
Variable smart_open : string -> list string.
Variable list_jsonl_files : string -> list string.
Variable as_completed : list (outcome file_result) -> list (outcome file_result).
Variable random_sample : list page -> nat -> list page.

Abbreviation corpus_totals'' gold_data files :=
  (corpus_totals json_loads compute gold_data the_comparer (map smart_open files)).
Abbreviation eval_files'' :=
  (eval_files json_loads compute smart_open list_jsonl_files as_completed).
Abbreviation do_eval'' :=
  (do_eval json_loads compute smart_open list_jsonl_files as_completed random_sample).
Abbreviation load_gold_data'' := (load_gold_data json_loads smart_open list_jsonl_files).

(** The value [do_eval] returns is never anything but the quotient of the
    two sums. *)
Lemma do_eval_value gold_path eval_path name size v pages :
  (forall l, Permutation (as_completed l) l) ->
  do_eval'' gold_path eval_path name size = Ok (v, pages) ->
  exists gold_data W N,
    load_gold_data'' gold_path = Ok gold_data
    /\ corpus_totals'' gold_data (list_jsonl_files eval_path) = Ok (W, N)
    /\ N <> 0 /\ (v == W / inject_Z N)%Q.
Proof.
  intros Hperm H. unfold do_eval in H. apply bind_ok in H as (t & Ht & H).
  destruct (sum_weight t =? 0) eqn:E0; [discriminate|].
  destruct (_ || _); [discriminate|]. injection H as <- _.
  apply (eval_files_ok _ _ _ _ _ Hperm) in Ht as (gold_data & rs & Hg & _ & Hp & Hs & Hw & _).
  apply Permutation_sym, Permutation_map_inv in Hp as (fs' & Hfs & Hp).
  rename fs' into rs', Hfs into Hrs'. apply Permutation_sym in Hp. rename Hp into Hperm'.
  destruct (files_totals _ _ _ _ _ _ Hrs') as (W & N & Hc & HW & HN).
  exists gold_data, W, N. split; [exact Hg|]. split; [exact Hc|].
  assert (HN' : sum_weight t = N).
  { rewrite Hw, HN. apply sumZ_perm. now apply Permutation_map. }
  split; [rewrite <- HN'; now apply Z.eqb_neq|].
  rewrite HN'. apply Qdiv_comp; [|reflexivity].
  rewrite Hs, HW. apply sumQ_perm. now apply Permutation_map.
Qed.

(** C3.  Every page record [do_eval] collects holds, as its alignment,
    what [DocumentEditSimilarity.compute] -- built from
    [SpacySegmenter("spacy")] and [HirschbergAligner(1, -1, -1)] -- answers
    on the gold text of the entry's key and the text of an entry of one of
    the evaluated files, the empty string standing in for a [None] text;
    the pages [do_eval] returns are drawn from these. *)
Theorem do_eval_delegates_alignment
    (gold_path eval_path name : string) (size : Z) (t : eval_totals) (p : page) :
  (forall l, Permutation (as_completed l) l) ->
  (forall l k x, In x (random_sample l k) -> In x l) ->
  eval_files json_loads compute smart_open list_jsonl_files as_completed
    gold_path eval_path = Ok t ->
  In p (page_eval_data t) ->
  the_comparer
  = DocumentEditSimilarity (SpacySegmenter "spacy") (HirschbergAligner 1 (-1) (-1))
  /\ or_empty JNull = JStr EmptyString
  /\ (exists gold_data f line e,
        load_gold_data json_loads smart_open list_jsonl_files gold_path = Ok gold_data
        /\ In f (list_jsonl_files eval_path)
        /\ In line (smart_open f)
        /\ load_line json_loads line = Ok e
        /\ delegated compute gold_data the_comparer e p)
  /\ (forall v pages,
        do_eval json_loads compute smart_open list_jsonl_files as_completed
          random_sample gold_path eval_path name size = Ok (v, pages) ->
        forall p', In p' pages -> In p' (sort_pages (page_eval_data t))).
Proof.
  intros Hperm Hsample Ht Hin. split; [reflexivity|]. split; [reflexivity|]. split.
  - apply (eval_files_ok _ _ _ _ _ Hperm) in Ht
      as (gold_data & rs & Hg & _ & Hp & _ & _ & Hpages).
    rewrite Hpages in Hin. unfold pages_of in Hin.
    apply in_concat in Hin as (ps & Hps & Hin).
    apply in_map_iff in Hps as (r & <- & Hr).
    apply in_map_iff in Hin as (kp & <- & Hkp).
    assert (Hfut : In (Ok r) (map Ok rs)) by (now apply in_map).
    apply (Permutation_in _ Hp) in Hfut.
    apply in_map_iff in Hfut as (f & Hf & Hfin).
    destruct (run_lines_pages _ _ _ _ _ _ _ _ Hf Hkp) as [[]|(line & e & Hl & He & Hd)].
    exists gold_data, f, line, e. auto.
  - intros v pages H p' Hp'. unfold do_eval in H. rewrite Ht in H. cbn [bind] in H.
    destruct (sum_weight t =? 0); [discriminate|].
    destruct (_ || _); [discriminate|]. injection H as _ <-.
    eapply Hsample, Hp'.
Qed.

End DoEval.

Lemma do_eval_delegates_alignment_witness :
  the_comparer
  = DocumentEditSimilarity (SpacySegmenter "spacy") (HirschbergAligner 1 (-1) (-1))
  /\ or_empty JNull = JStr EmptyString
  /\ (exists gold_data f line e,
        load_gold_data sample_loads sample_open sample_listing "gold" = Ok gold_data
        /\ In f (sample_listing "eval")
        /\ In line (sample_open f)
        /\ load_line sample_loads line = Ok e
        /\ delegated sample_compute gold_data the_comparer e sample_page)
  /\ (forall v pages,
        do_eval sample_loads sample_compute sample_open sample_listing (fun l => l)
          (fun l k => take k l) "gold" "eval" "review" 1 = Ok (v, pages) ->
        forall p', In p' pages -> In p' (sort_pages (page_eval_data sample_totals))).
Proof.
  apply (do_eval_delegates_alignment sample_loads sample_compute sample_open sample_listing
           (fun l => l) (fun l k => take k l) "gold" "eval" "review" 1 sample_totals
           sample_page).
  - intros l. apply Permutation_refl.
  - intros l k x Hx. apply list_elem_of_In. apply list_elem_of_In in Hx.
    eapply subseteq_take, Hx.
  - reflexivity.
  - left. reflexivity.
Defined.

(** ** The comparison viewer *)

Lemma contains_here x pre post : contains x (pre ++ x ++ post).
Proof. now exists pre, post. Qed.

Lemma contains_app_l x a b : contains x a -> contains x (a ++ b).
Proof.
  intros (pre & post & ->). exists pre, (post ++ b).
  now rewrite !str_app_assoc.
Qed.

Lemma contains_app_r x a b : contains x b -> contains x (a ++ b).
Proof.
  intros (pre & post & ->). exists (a ++ pre), post.
  now rewrite !str_app_assoc.
Qed.

Lemma is_prefix_app p s : is_prefix p s = true -> exists post, s = p ++ post.
Proof.
  revert s. induction p as [|a p IH]; intros s H.
  - now exists s.
  - destruct s as [|b s]; [discriminate|]. simpl in H.
    apply andb_true_iff in H as [Hab H]. apply Ascii.eqb_eq in Hab as ->.
    destruct (IH _ H) as (post & ->). now exists post.
Qed.

Lemma has_substring_contains x s : has_substring x s = true -> contains x s.
Proof.
  induction s as [|a s IH]; simpl; intros H.
  - rewrite orb_false_r in H. apply is_prefix_app in H as (post & ->).
    exists EmptyString, post. reflexivity.
  - apply orb_true_iff in H as [H|H].
    + apply is_prefix_app in H as (post & ->). exists EmptyString, post. reflexivity.
    + destruct (IH H) as (pre & post & ->). exists (String a pre), post. reflexivity.
Qed.

Lemma pdf_section_split pdf_name img_html chatgpt_output gemini_output :
  pdf_section pdf_name img_html chatgpt_output gemini_output
  = section_open pdf_name ++ img_html ++ section_middle pdf_name
    ++ model_outputs (dom_id pdf_name) chatgpt_output gemini_output
    ++ section_close pdf_name.
Proof.
  unfold pdf_section, section_open, section_middle, model_outputs, section_close.
  rewrite !str_app_assoc. reflexivity.
Qed.

Lemma page_tail_script : contains find_differences page_tail.
Proof. apply has_substring_contains. vm_compute. reflexivity. Qed.

Lemma contains_trans x y z : contains x y -> contains y z -> contains x z.
Proof.
  intros (p1 & q1 & ->) (p2 & q2 & ->). exists (p2 ++ p1), (q1 ++ q2).
  now rewrite !str_app_assoc.
Qed.

Lemma section_contains_image pdf_name img_html c g :
  contains img_html (pdf_section pdf_name img_html c g).
Proof. rewrite pdf_section_split. apply contains_here. Qed.

Lemma section_contains_outputs pdf_name img_html c g :
  contains (model_outputs (dom_id pdf_name) c g) (pdf_section pdf_name img_html c g).
Proof.
  rewrite pdf_section_split. do 3 apply contains_app_r.
  exists EmptyString, (section_close pdf_name). reflexivity.
Qed.

Section ViewerFacts.

Variable render_pdf_to_base64png : string -> Z -> foreign string.
Variable run_chatgpt : string -> foreign string.
Variable run_gemini : string -> foreign string.

Abbreviation get_model_outputs' := (get_model_outputs run_chatgpt run_gemini).
Abbreviation section_html' :=
  (section_html render_pdf_to_base64png run_chatgpt run_gemini).
Abbreviation render_pdfs' :=
  (render_pdfs render_pdf_to_base64png run_chatgpt run_gemini).
Abbreviation generate_html' :=
  (generate_html render_pdf_to_base64png run_chatgpt run_gemini).

Lemma render_pdf_section pdf_bases html s :
  render_pdf render_pdf_to_base64png run_chatgpt run_gemini pdf_bases html (JStr s)
  = (let! sec := section_html' pdf_bases s in Ok (html ++ sec)).
Proof.
  unfold render_pdf, section_html, image_html. cbn [path_join_value bind].
  destruct (render_pdf_to_base64png _ 0) as [b|[] m]; cbn [bind];
    try reflexivity; now destruct (get_model_outputs' _).
Qed.

Lemma render_pdfs_sections pdf_bases names html0 :
  (forall name, In name names ->
     exists s, name = JStr s /\ returns (section_html' pdf_bases s)) ->
  exists body,
    render_pdfs' pdf_bases html0 names = Ok (html0 ++ body)
    /\ forall s sec, In (JStr s) names -> section_html' pdf_bases s = Ok sec ->
                     contains sec body.
Proof.
  revert html0. induction names as [|name names IH]; intros html0 H.
  - exists EmptyString. rewrite str_app_nil_r. split; [reflexivity|]. intros s sec [].
  - destruct (H name (or_introl eq_refl)) as (s & -> & [sec Hsec]).
    destruct (IH (html0 ++ sec) (fun n Hn => H n (or_intror Hn))) as (body & Hb & Hc).
    exists (sec ++ body). cbn [render_pdfs]. rewrite render_pdf_section, Hsec.
    cbn [bind]. rewrite Hb, str_app_assoc. split; [reflexivity|].
    intros s' sec' [Heq|Hin] Hs'.
    + injection Heq as <-. rewrite Hsec in Hs'. injection Hs' as <-.
      exists EmptyString, body. reflexivity.
    + apply contains_app_r. now apply (Hc s').
Qed.

(** C4.  When every PDF to go through is named by a
    string, its rendering raises nothing that [except Exception] lets
    through and [get_model_outputs] returns for it, [generate_html] returns a
    page that holds the [findDifferences] script and, for every such PDF,
    the image of its rendering (the error block when the rendering raised)
    and the two panels side by side, holding the two outputs that
    [get_model_outputs] returned: those of [run_chatgpt] and [run_gemini]
    when neither raised. *)
Theorem generate_html_page
    (pdf_rules : list (json * list json)) (rules_file_path : string)
    (pdfs_to_process : option (list string)) :
  let pdf_path := path_join (path_join (dirname rules_file_path) "pdfs") in
  (forall name, In name (pdf_names pdf_rules pdfs_to_process) ->
     exists s, name = JStr s
               /\ caught (render_pdf_to_base64png (pdf_path s) 0) = true
               /\ returns (get_model_outputs run_chatgpt run_gemini (pdf_path s))) ->
  exists html,
    generate_html render_pdf_to_base64png run_chatgpt run_gemini
      pdf_rules rules_file_path pdfs_to_process = Ok html
    /\ contains find_differences html
    /\ forall s, In (JStr s) (pdf_names pdf_rules pdfs_to_process) ->
         exists outs,
           get_model_outputs run_chatgpt run_gemini (pdf_path s) = Ok outs
           /\ contains (image_html render_pdf_to_base64png (pdf_path s) s) html
           /\ contains (model_outputs (dom_id s) (fst outs) (snd outs)) html
           /\ (forall c g, run_chatgpt (pdf_path s) = Returns c ->
                           run_gemini (pdf_path s) = Returns g -> outs = (c, g)).
Proof.
  intros pdf_path H. unfold generate_html.
  set (bases := path_join (dirname rules_file_path) "pdfs") in *.
  assert (Hsec : forall s,
    caught (render_pdf_to_base64png (pdf_path s) 0) = true ->
    forall outs, get_model_outputs' (pdf_path s) = Ok outs ->
    section_html' bases s
    = Ok (pdf_section s (image_html render_pdf_to_base64png (pdf_path s) s)
            (fst outs) (snd outs))).
  { intros s Hc outs Ho. unfold section_html. fold bases. fold (pdf_path s).
    rewrite Ho. now destruct (render_pdf_to_base64png (pdf_path s) 0) as [b|[] m]. }
  destruct (render_pdfs_sections bases (pdf_names pdf_rules pdfs_to_process) page_head)
    as (body & Hb & Hin).
  { intros name Hn. destruct (H name Hn) as (s & -> & Hc & [outs Ho]).
    exists s. split; [reflexivity|]. rewrite (Hsec s Hc outs Ho). apply returns_ok. }
  rewrite Hb. cbn [bind]. eexists. split; [reflexivity|]. split.
  - apply contains_app_r, page_tail_script.
  - intros s Hs. destruct (H _ Hs) as (s' & Heq & Hc & [outs Ho]).
    injection Heq as <-. exists outs. split; [exact Ho|].
    pose proof (Hin s _ Hs (Hsec s Hc outs Ho)) as Hbody.
    split; [|split].
    + apply contains_app_l, contains_app_r.
      eapply contains_trans; [apply section_contains_image | exact Hbody].
    + apply contains_app_l, contains_app_r.
      eapply contains_trans; [apply section_contains_outputs | exact Hbody].
    + intros c g Hcg Hg. unfold get_model_outputs in Ho. rewrite Hcg, Hg in Ho.
      now injection Ho as <-.
Qed.

(** C10.  When [run_chatgpt] raises an exception, and when it returns and
    [run_gemini] raises one, [get_model_outputs] returns the same text,
    [Error: ] followed by the message, for both models; when neither raises
    it returns the two outputs as they are. *)
Theorem get_model_outputs_cases (pdf_path : string) :
  (forall msg, run_chatgpt pdf_path = Throws true msg ->
     get_model_outputs run_chatgpt run_gemini pdf_path = Ok ("Error: " ++ msg, "Error: " ++ msg))
  /\ (forall chatgpt_output msg,
        run_chatgpt pdf_path = Returns chatgpt_output ->
        run_gemini pdf_path = Throws true msg ->
        get_model_outputs run_chatgpt run_gemini pdf_path
        = Ok ("Error: " ++ msg, "Error: " ++ msg))
  /\ (forall chatgpt_output gemini_output,
        run_chatgpt pdf_path = Returns chatgpt_output ->
        run_gemini pdf_path = Returns gemini_output ->
        get_model_outputs run_chatgpt run_gemini pdf_path = Ok (chatgpt_output, gemini_output)).
Proof.
  unfold get_model_outputs, error_text. repeat split.
  - now intros msg ->.
  - now intros c msg -> ->.
  - now intros c g -> ->.
Qed.

End ViewerFacts.

Lemma get_model_outputs_cases_witness :
  get_model_outputs sample_chatgpt failing_gemini "bench/pdfs/a.pdf"
  = Ok ("Error: " ++ "quota exceeded", "Error: " ++ "quota exceeded")
  /\ get_model_outputs sample_chatgpt sample_gemini "bench/pdfs/a.pdf"
     = Ok ("CHATGPT-TRANSCRIPT", "GEMINI-TRANSCRIPT").
Proof.
  split.
  - exact (proj1 (proj2 (get_model_outputs_cases sample_chatgpt failing_gemini
                           "bench/pdfs/a.pdf"))
             "CHATGPT-TRANSCRIPT" "quota exceeded" eq_refl eq_refl).
  - exact (proj2 (proj2 (get_model_outputs_cases sample_chatgpt sample_gemini
                           "bench/pdfs/a.pdf"))
             "CHATGPT-TRANSCRIPT" "GEMINI-TRANSCRIPT" eq_refl eq_refl).
Defined.

Lemma generate_html_page_witness :
  exists html,
    generate_html sample_render sample_chatgpt sample_gemini sample_rules
      "bench/rules.jsonl" (Some ["a.pdf"; "b.pdf"]) = Ok html
    /\ contains find_differences html
    /\ forall s, In (JStr s) (pdf_names sample_rules (Some ["a.pdf"; "b.pdf"])) ->
         exists outs,
           get_model_outputs sample_chatgpt sample_gemini
             (path_join (path_join (dirname "bench/rules.jsonl") "pdfs") s) = Ok outs
           /\ contains
                (image_html sample_render
                   (path_join (path_join (dirname "bench/rules.jsonl") "pdfs") s) s) html
           /\ contains (model_outputs (dom_id s) (fst outs) (snd outs)) html
           /\ (forall c g,
                 sample_chatgpt (path_join (path_join (dirname "bench/rules.jsonl") "pdfs") s)
                 = Returns c ->
                 sample_gemini (path_join (path_join (dirname "bench/rules.jsonl") "pdfs") s)
                 = Returns g -> outs = (c, g)).
Proof.
  apply (generate_html_page sample_render sample_chatgpt sample_gemini sample_rules
           "bench/rules.jsonl" (Some ["a.pdf"; "b.pdf"])).
  intros name [<-|[<-|[]]]; eexists; (split; [reflexivity|]);
    (split; [reflexivity | eexists; reflexivity]).
Defined.

(** When [run_gemini] raises, the page holds the error text in both panels
    and what [run_chatgpt] returned nowhere. *)
Lemma generate_html_drops_chatgpt_output :
  exists html,
    generate_html sample_render sample_chatgpt failing_gemini
      [(JStr "a.pdf", [rule_value "a.pdf"])] "bench/rules.jsonl" None = Ok html
    /\ sample_chatgpt "bench/pdfs/a.pdf" = Returns "CHATGPT-TRANSCRIPT"
    /\ has_substring "CHATGPT-TRANSCRIPT" html = false
    /\ has_substring
         (model_outputs (dom_id "a.pdf") "Error: quota exceeded" "Error: quota exceeded")
         html = true.
Proof.
  eexists. split; [vm_compute; reflexivity|].
  split; [reflexivity|]. split; vm_compute; reflexivity.
Qed.

(** *** The page, section by section *)

Section PageSections.

Variable render_pdf_to_base64png : string -> Z -> foreign string.
Variable run_chatgpt : string -> foreign string.
Variable run_gemini : string -> foreign string.

Lemma render_pdf_adds pdf_bases html name :
  render_pdf render_pdf_to_base64png run_chatgpt run_gemini pdf_bases html name
  = (let! sec := render_pdf render_pdf_to_base64png run_chatgpt run_gemini
                   pdf_bases EmptyString name in
     Ok (html ++ sec)).
Proof.
  unfold render_pdf.
  destruct name as [| | |s| |]; cbn [path_join_value bind]; try reflexivity.
  destruct (render_pdf_to_base64png _ 0) as [b|[] m]; cbn [bind]; try reflexivity;
    destruct (get_model_outputs run_chatgpt run_gemini _); reflexivity.
Qed.

Lemma render_pdfs_join pdf_bases names html :
  render_pdfs render_pdf_to_base64png run_chatgpt run_gemini pdf_bases html names
  = (let! secs := sections render_pdf_to_base64png run_chatgpt run_gemini
                    pdf_bases names in
     Ok (html ++ join secs)).
Proof.
  revert html. induction names as [|name names IH]; intros html.
  - simpl. now rewrite str_app_nil_r.
  - cbn [render_pdfs sections]. rewrite render_pdf_adds.
    destruct (render_pdf _ _ _ pdf_bases EmptyString name) as [sec|x];
      cbn [bind]; [|reflexivity].
    rewrite IH.
    destruct (sections _ _ _ pdf_bases names) as [secs|x]; cbn [bind join];
      [|reflexivity].
    now rewrite str_app_assoc.
Qed.

Lemma sections_length pdf_bases names secs :
  sections render_pdf_to_base64png run_chatgpt run_gemini pdf_bases names = Ok secs ->
  length secs = length names.
Proof.
  revert secs. induction names as [|name names IH]; intros secs H.
  - now injection H as <-.
  - cbn [sections] in H. apply bind_ok in H as (sec & _ & H).
    apply bind_ok in H as (secs' & H' & H). injection H as <-.
    simpl. now rewrite (IH secs' H').
Qed.

Lemma sections_app pdf_bases l1 l2 :
  sections render_pdf_to_base64png run_chatgpt run_gemini pdf_bases (l1 ++ l2)
  = (let! s1 := sections render_pdf_to_base64png run_chatgpt run_gemini pdf_bases l1 in
     let! s2 := sections render_pdf_to_base64png run_chatgpt run_gemini pdf_bases l2 in
     Ok (s1 ++ s2)%list).
Proof.
  induction l1 as [|name l1 IH].
  - simpl. now destruct (sections _ _ _ pdf_bases l2).
  - cbn [app sections].
    destruct (render_pdf _ _ _ pdf_bases EmptyString name) as [sec|x];
      cbn [bind]; [|reflexivity].
    rewrite IH.
    destruct (sections _ _ _ pdf_bases l1) as [s1|x]; cbn [bind]; [|reflexivity].
    now destruct (sections _ _ _ pdf_bases l2).
Qed.

(** Each section is the section of the PDF in its place. *)
Lemma sections_each pdf_bases names secs :
  sections render_pdf_to_base64png run_chatgpt run_gemini pdf_bases names = Ok secs ->
  Forall2 (fun name sec =>
             exists s, name = JStr s
               /\ section_html render_pdf_to_base64png run_chatgpt run_gemini
                    pdf_bases s = Ok sec)
    names secs.
Proof.
  revert secs. induction names as [|name names IH]; intros secs H.
  - injection H as <-. constructor.
  - cbn [sections] in H. apply bind_ok in H as (sec & Hsec & H).
    apply bind_ok in H as (secs' & Hsecs & H). injection H as <-.
    constructor; [|now apply IH].
    destruct name as [| | |s| |]; try discriminate Hsec.
    exists s. split; [reflexivity|].
    rewrite render_pdf_section in Hsec.
    destruct (section_html _ _ _ pdf_bases s) as [sec'|x]; [|discriminate].
    cbn [bind] in Hsec. rewrite str_app_nil_l in Hsec. exact Hsec.
Qed.

Lemma sections_return pdf_bases names :
  (forall name, In name names ->
     exists s, name = JStr s
       /\ returns (section_html render_pdf_to_base64png run_chatgpt run_gemini
                     pdf_bases s)) ->
  returns (sections render_pdf_to_base64png run_chatgpt run_gemini pdf_bases names).
Proof.
  induction names as [|name names IH]; intros H; [apply returns_ok|].
  destruct (H name (or_introl eq_refl)) as (s & -> & [sec Hsec]).
  destruct IH as [secs Hsecs]; [intros; apply H; now right|].
  cbn [sections]. rewrite render_pdf_section, Hsec. cbn [bind]. rewrite Hsecs.
  apply returns_ok.
Qed.

End PageSections.

(** *** The rules file and the ten PDFs *)

Lemma rules_append_keys k rule d :
  map fst (rules_append k rule d)
  = if existsb (fun k' => scalar_eqb k' k) (map fst d) then map fst d
    else (map fst d ++ [k])%list.
Proof.
  induction d as [|[k' rs] d IH]; [reflexivity|]. simpl.
  destruct (scalar_eqb k' k); [reflexivity|]. simpl. rewrite IH.
  now destruct (existsb _ _).
Qed.

Lemma distinct_keys_snoc l x :
  distinct_keys (l ++ [x])
  = distinct_keys l && negb (existsb (fun k => scalar_eqb k x) l).
Proof.
  induction l as [|y l IH]; [reflexivity|]. simpl.
  rewrite IH, existsb_app. simpl. rewrite orb_false_r.
  destruct (existsb (fun z => scalar_eqb y z) l), (scalar_eqb y x),
    (distinct_keys l), (existsb _ l); reflexivity.
Qed.

Lemma distinct_from_distinct seen l :
  distinct_keys seen = true -> distinct_keys (distinct_from seen l) = true.
Proof.
  revert seen. induction l as [|x l IH]; intros seen H; [exact H|].
  simpl. apply IH. destruct (existsb _ seen) eqn:E; [exact H|].
  rewrite distinct_keys_snoc, H, E. reflexivity.
Qed.

Lemma distinct_keys_take n l : distinct_keys l = true -> distinct_keys (take n l) = true.
Proof.
  revert n. induction l as [|x l IH]; intros [|n] H; try reflexivity.
  simpl in *. apply andb_true_iff in H as [Hx Hl].
  rewrite (IH n Hl), andb_true_r.
  apply negb_true_iff. apply negb_true_iff in Hx.
  destruct (existsb _ (take n l)) eqn:E; [|reflexivity].
  apply existsb_exists in E as (y & Hy & Hxy).
  assert (Hy' : In y l).
  { apply list_elem_of_In. apply list_elem_of_In in Hy. eapply subseteq_take, Hy. }
  rewrite <- Hx. symmetry. apply existsb_exists. eauto.
Qed.

Section RulesFacts.

Variable json_loads : string -> option json.

Lemma parse_rule_line_keys d line d' :
  parse_rule_line json_loads d line = Ok d' ->
  map fst d'
  = match line_pdf json_loads line with
    | Some k => distinct_from (map fst d) [k]
    | None => map fst d
    end.
Proof.
  unfold parse_rule_line, line_pdf.
  destruct (String.eqb (py_strip line) EmptyString); [now intros [= <-]|].
  destruct (json_loads (py_strip line)) as [rule|]; [|now intros [= <-]].
  destruct rule as [| | |s|l|o]; cbn [py_in bind]; try discriminate.
  - destruct (has_substring "pdf" s); cbn [py_getitem bind];
      [discriminate | now intros [= <-]].
  - destruct (existsb _ l); cbn [py_getitem bind];
      [discriminate | now intros [= <-]].
  - unfold has_key, py_getitem.
    destruct (dict_get "pdf" o) as [k|]; cbn [bind]; [|now intros [= <-]].
    destruct (hashable k); [|discriminate].
    intros [= <-]. simpl. apply rules_append_keys.
Qed.

Lemma parse_rule_lines_keys lines d d' :
  parse_rule_lines json_loads d lines = Ok d' ->
  map fst d' = distinct_from (map fst d) (line_pdfs json_loads lines).
Proof.
  revert d. induction lines as [|line lines IH]; intros d H.
  - now injection H as <-.
  - cbn [parse_rule_lines] in H. apply bind_ok in H as (d1 & H1 & H).
    apply IH in H. apply parse_rule_line_keys in H1.
    cbn [line_pdfs].
    destruct (line_pdf json_loads line) as [k|].
    + rewrite H, H1. reflexivity.
    + rewrite H, H1. reflexivity.
Qed.

End RulesFacts.

Section TenPdfs.

Variable json_loads : string -> option json.
Variable render_pdf_to_base64png : string -> Z -> foreign string.
Variable run_chatgpt : string -> foreign string.
Variable run_gemini : string -> foreign string.

(** C9.  When no list of PDFs is given ([None], or an empty list),
    [generate_html] goes through the first ten of the distinct PDFs that the
    lines of the rules file name, in the order in which they first appear,
    and through no more than ten.  The page it returns is the head, then
    one section for each of these PDFs, in that order, each the section of
    its PDF (its image and its two panels), then the tail; it returns a
    page whenever each of these PDFs is named by a string and has a
    section.  The PDFs after the tenth leave no trace: the page is the one
    the first ten alone give. *)
Theorem generate_html_first_ten
    (lines : list string) (pdf_rules : list (json * list json))
    (rules_file_path : string) (pdfs_to_process : option (list string)) :
  pdfs_to_process = None \/ pdfs_to_process = Some [] ->
  parse_rules_file json_loads lines = Ok pdf_rules ->
  pdf_names pdf_rules pdfs_to_process
  = take 10 (first_appearances (line_pdfs json_loads lines))
  /\ distinct_keys (pdf_names pdf_rules pdfs_to_process) = true
  /\ (List.length (pdf_names pdf_rules pdfs_to_process) <= 10)%nat
  /\ generate_html render_pdf_to_base64png run_chatgpt run_gemini
       pdf_rules rules_file_path pdfs_to_process
     = generate_html render_pdf_to_base64png run_chatgpt run_gemini
         (take 10 pdf_rules) rules_file_path pdfs_to_process
  /\ generate_html render_pdf_to_base64png run_chatgpt run_gemini
       pdf_rules rules_file_path pdfs_to_process
     = (let! secs := sections render_pdf_to_base64png run_chatgpt run_gemini
                       (path_join (dirname rules_file_path) "pdfs")
                       (take 10 (first_appearances (line_pdfs json_loads lines))) in
        Ok (page_head ++ join secs ++ page_tail))
  /\ (forall html,
        generate_html render_pdf_to_base64png run_chatgpt run_gemini
          pdf_rules rules_file_path pdfs_to_process = Ok html ->
        exists secs,
          html = page_head ++ join secs ++ page_tail
          /\ Forall2 (fun name sec =>
                        exists s, name = JStr s
                          /\ section_html render_pdf_to_base64png run_chatgpt run_gemini
                               (path_join (dirname rules_file_path) "pdfs") s = Ok sec)
               (take 10 (first_appearances (line_pdfs json_loads lines))) secs)
  /\ ((forall name,
         In name (take 10 (first_appearances (line_pdfs json_loads lines))) ->
         exists s, name = JStr s
           /\ returns (section_html render_pdf_to_base64png run_chatgpt run_gemini
                         (path_join (dirname rules_file_path) "pdfs") s)) ->
      returns (generate_html render_pdf_to_base64png run_chatgpt run_gemini
                 pdf_rules rules_file_path pdfs_to_process)).
Proof.
  intros Hp Hr. apply parse_rule_lines_keys in Hr. simpl in Hr.
  assert (Hn : forall d, pdf_names d pdfs_to_process = take 10 (map fst d)).
  { intros d. destruct Hp as [-> | ->]; reflexivity. }
  assert (Hnames : pdf_names pdf_rules pdfs_to_process
                   = take 10 (first_appearances (line_pdfs json_loads lines))).
  { rewrite Hn, Hr. reflexivity. }
  assert (Hpage : generate_html render_pdf_to_base64png run_chatgpt run_gemini
                    pdf_rules rules_file_path pdfs_to_process
                  = (let! secs := sections render_pdf_to_base64png run_chatgpt run_gemini
                                    (path_join (dirname rules_file_path) "pdfs")
                                    (take 10 (first_appearances
                                                (line_pdfs json_loads lines))) in
                     Ok (page_head ++ join secs ++ page_tail))).
  { unfold generate_html. rewrite Hnames, render_pdfs_join.
    destruct (sections _ _ _ _ _) as [secs|x]; cbn [bind]; [|reflexivity].
    now rewrite str_app_assoc. }
  split; [exact Hnames|]. split; [|split; [|split; [|split; [exact Hpage|split]]]].
  - rewrite Hn, Hr. apply distinct_keys_take. now apply distinct_from_distinct.
  - rewrite Hn, length_take. lia.
  - unfold generate_html. rewrite !Hn.
    rewrite <- (firstn_map fst 10 pdf_rules), firstn_firstn. reflexivity.
  - intros html H. rewrite Hpage in H. apply bind_ok in H as (secs & Hsecs & H).
    injection H as <-. exists secs. split; [reflexivity|].
    now apply sections_each.
  - intros Hall. rewrite Hpage.
    destruct (sections_return _ _ _ _ _ Hall) as [secs ->]. apply returns_ok.
Qed.

End TenPdfs.

Lemma generate_html_first_ten_witness :
  pdf_names sample_rules None
  = take 10 (first_appearances (line_pdfs sample_loads sample_rule_lines))
  /\ distinct_keys (pdf_names sample_rules None) = true
  /\ (List.length (pdf_names sample_rules None) <= 10)%nat
  /\ generate_html sample_render sample_chatgpt sample_gemini
       sample_rules "bench/rules.jsonl" None
     = generate_html sample_render sample_chatgpt sample_gemini
         (take 10 sample_rules) "bench/rules.jsonl" None
  /\ generate_html sample_render sample_chatgpt sample_gemini
       sample_rules "bench/rules.jsonl" None
     = (let! secs := sections sample_render sample_chatgpt sample_gemini
                       (path_join (dirname "bench/rules.jsonl") "pdfs")
                       (take 10 (first_appearances
                                   (line_pdfs sample_loads sample_rule_lines))) in
        Ok (page_head ++ join secs ++ page_tail))
  /\ (forall html,
        generate_html sample_render sample_chatgpt sample_gemini
          sample_rules "bench/rules.jsonl" None = Ok html ->
        exists secs,
          html = page_head ++ join secs ++ page_tail
          /\ Forall2 (fun name sec =>
                        exists s, name = JStr s
                          /\ section_html sample_render sample_chatgpt sample_gemini
                               (path_join (dirname "bench/rules.jsonl") "pdfs") s = Ok sec)
               (take 10 (first_appearances (line_pdfs sample_loads sample_rule_lines)))
               secs)
  /\ ((forall name,
         In name (take 10 (first_appearances (line_pdfs sample_loads sample_rule_lines))) ->
         exists s, name = JStr s
           /\ returns (section_html sample_render sample_chatgpt sample_gemini
                         (path_join (dirname "bench/rules.jsonl") "pdfs") s)) ->
      returns (generate_html sample_render sample_chatgpt sample_gemini
                 sample_rules "bench/rules.jsonl" None)).
Proof.
  apply (generate_html_first_ten sample_loads sample_render sample_chatgpt sample_gemini
           sample_rule_lines sample_rules "bench/rules.jsonl" None).
  - left. reflexivity.
  - vm_compute. reflexivity.
Defined.

(** The page of the sample rules: ten sections, and none for the two last
    PDFs. *)
Example sample_rules_page :
  exists secs,
    generate_html sample_render sample_chatgpt sample_gemini
      sample_rules "bench/rules.jsonl" None
    = Ok (page_head ++ join secs ++ page_tail)
    /\ List.length secs = 10%nat
    /\ List.length sample_rules = 12%nat.
Proof.
  destruct (sections sample_render sample_chatgpt sample_gemini
              (path_join (dirname "bench/rules.jsonl") "pdfs")
              (pdf_names sample_rules None)) as [secs|x] eqn:E; [|discriminate E].
  exists secs. split; [|split; [|reflexivity]].
  - unfold generate_html. rewrite render_pdfs_join, E. cbn [bind].
    now rewrite str_app_assoc.
  - apply sections_length in E. exact E.
Qed.

Example sample_rules_names :
  pdf_names sample_rules None
  = map JStr ["a.pdf"; "b.pdf"; "c.pdf"; "d.pdf"; "e.pdf"; "f.pdf"; "g.pdf"; "h.pdf";
              "i.pdf"; "j.pdf"].
Proof. reflexivity. Qed.

(** ** The char-weighted score in Python's arithmetic *)

Section ScoreFacts.

Context {float : Type}.
Variable float_of_int : Z -> float.
Variable float_add : float -> float -> float.
Variable float_mul : float -> float -> float.
Variable float_div : float -> float -> float.
Variable int_truediv : Z -> Z -> float.
Variable float_lt : float -> float -> bool.
Variable json_loads : string -> option json.
Variable compute : comparer -> json -> json -> outcome float.
Variable smart_open : string -> list string.
Variable list_jsonl_files : string -> list string.
Variable as_completed :
  list (outcome (PyNum.file_result float)) -> list (outcome (PyNum.file_result float)).
Variable random_sample : list (PyNum.page float) -> nat -> list (PyNum.page float).

Abbreviation add' := (PyNum.py_add float_of_int float_add).
Abbreviation sum_from' := (PyNum.py_sum_from float_of_int float_add).
Abbreviation run_lines_f gold_data c :=
  (PyNum.run_lines float_of_int float_add float_mul json_loads compute gold_data c).
Abbreviation process_file_f gold_data c f :=
  (PyNum.process_jsonl_file float_of_int float_add float_mul json_loads compute smart_open
     f gold_data c).
Abbreviation entry_terms_f gold_data c :=
  (PyNum.entry_terms float_of_int float_mul compute gold_data c).
Abbreviation file_terms_f gold_data c :=
  (PyNum.file_terms float_of_int float_mul json_loads compute gold_data c).
Abbreviation corpus_terms_f gold_data c :=
  (PyNum.corpus_terms float_of_int float_mul json_loads compute gold_data c).
Abbreviation weighted_total_f := (PyNum.weighted_total float_of_int float_add).
Abbreviation aggregate_f := (PyNum.aggregate float_of_int float_add).

Lemma scored_lines_terms gold_data c lines acc r :
  run_lines_f gold_data c acc lines = Ok r ->
  exists es ts,
    load_lines json_loads lines = Ok es
    /\ entry_terms_f gold_data c es = Ok ts
    /\ PyNum.char_weighted_alignment_score r
       = sum_from' (PyNum.char_weighted_alignment_score acc) (map fst ts)
    /\ PyNum.total_chars r = PyNum.total_chars acc + PyNum.chars_total ts.
Proof.
  revert acc. induction lines as [|line lines IH]; intros acc H.
  - injection H as <-. exists [], []. repeat split. unfold PyNum.chars_total. simpl. lia.
  - cbn [PyNum.run_lines] in H. apply bind_ok in H as (acc' & Hacc & H).
    apply IH in H as (es & ts & Hes & Hts & Hw & Hn).
    unfold PyNum.process_line in Hacc. apply bind_ok in Hacc as (e & He & Hacc).
    exists (e :: es). cbn [load_lines]. rewrite He, Hes. cbn [bind PyNum.entry_terms].
    destruct (gold_data !! goldkey e) as [g|].
    + apply bind_ok in Hacc as (a & Ha & Hacc). apply bind_ok in Hacc as (n & Hlen & Hacc).
      injection Hacc as <-. rewrite Ha, Hlen, Hts. cbn [bind].
      eexists. split; [reflexivity|]. split; [reflexivity|].
      cbn [PyNum.char_weighted_alignment_score PyNum.total_chars] in *.
      split; [exact Hw|]. rewrite Hn. unfold PyNum.chars_total. simpl. lia.
    + injection Hacc as <-. exists ts. auto.
Qed.

Lemma scored_lines_return gold_data c lines es ts acc :
  load_lines json_loads lines = Ok es ->
  entry_terms_f gold_data c es = Ok ts ->
  returns (run_lines_f gold_data c acc lines).
Proof.
  revert es ts acc. induction lines as [|line lines IH]; intros es ts acc Hes Hts.
  - apply returns_ok.
  - cbn [load_lines] in Hes. apply bind_ok in Hes as (e & He & Hes).
    apply bind_ok in Hes as (es' & Hes' & Hes). injection Hes as <-.
    cbn [PyNum.run_lines]. unfold PyNum.process_line. rewrite He. cbn [bind].
    cbn [PyNum.entry_terms] in Hts.
    destruct (gold_data !! goldkey e) as [g|].
    + apply bind_ok in Hts as (a & Ha & Hts). apply bind_ok in Hts as (n & Hn & Hts).
      apply bind_ok in Hts as (ts' & Hts' & _). rewrite Ha, Hn. cbn [bind].
      eapply IH; eauto.
    + cbn [bind]. eapply IH; eauto.
Qed.

Lemma scored_file_terms gold_data c f r :
  process_file_f gold_data c f = Ok r ->
  exists ts,
    file_terms_f gold_data c (smart_open f) = Ok ts
    /\ PyNum.char_weighted_alignment_score r = weighted_total_f ts
    /\ PyNum.total_chars r = PyNum.chars_total ts.
Proof.
  intros H. apply scored_lines_terms in H as (es & ts & Hes & Hts & Hw & Hn).
  exists ts. unfold PyNum.file_terms. rewrite Hes. cbn [bind].
  split; [exact Hts|]. split; [exact Hw|]. simpl in Hn. lia.
Qed.

Lemma scored_file_returns gold_data c f ts :
  file_terms_f gold_data c (smart_open f) = Ok ts ->
  returns (process_file_f gold_data c f).
Proof.
  intros H. unfold PyNum.file_terms in H. apply bind_ok in H as (es & Hes & Hts).
  eapply scored_lines_return; eauto.
Qed.

Lemma aggregate_in_order acc done t :
  aggregate_f acc done = Ok t ->
  exists rs, done = map Ok rs
    /\ PyNum.sum_score t
       = sum_from' (PyNum.sum_score acc) (map PyNum.char_weighted_alignment_score rs)
    /\ PyNum.sum_weight t = PyNum.sum_weight acc + sumZ (map PyNum.total_chars rs).
Proof.
  revert acc. induction done as [|fut rest IH]; intros acc H.
  - injection H as <-. exists []. simpl. repeat split. lia.
  - cbn [PyNum.aggregate] in H. apply bind_ok in H as (r & -> & H).
    apply IH in H as (rs & -> & Hs & Hw). exists (r :: rs).
    cbn [PyNum.sum_score PyNum.sum_weight] in *.
    split; [reflexivity|]. split; [exact Hs|]. simpl. lia.
Qed.

Lemma aggregate_all_returned acc rs : returns (aggregate_f acc (map Ok rs)).
Proof.
  revert acc. induction rs as [|r rs IH]; intros acc; [apply returns_ok|].
  simpl. apply IH.
Qed.

Lemma corpus_terms_each gold_data c files tss f :
  corpus_terms_f gold_data c (map smart_open files) = Ok tss ->
  In f files -> returns (file_terms_f gold_data c (smart_open f)).
Proof.
  revert tss. induction files as [|f' files IH]; intros tss H []; subst;
    cbn [map PyNum.corpus_terms] in H; apply bind_ok in H as (ts & Hts & H);
    apply bind_ok in H as (tss' & Htss & _).
  - now exists ts.
  - eauto.
Qed.

(** The files that all have terms: what their workers return. *)
Lemma scored_files gold_data c files :
  (forall f, In f files -> returns (file_terms_f gold_data c (smart_open f))) ->
  exists rs tss,
    map (fun f => process_file_f gold_data c f) files = map Ok rs
    /\ corpus_terms_f gold_data c (map smart_open files) = Ok tss
    /\ map PyNum.char_weighted_alignment_score rs = map weighted_total_f tss
    /\ map PyNum.total_chars rs = map PyNum.chars_total tss.
Proof.
  induction files as [|f files IH]; intros H.
  - exists [], []. repeat split.
  - destruct IH as (rs & tss & Hrs & Htss & Hw & Hn); [intros; apply H; now right|].
    destruct (H f (or_introl eq_refl)) as [ts Hts].
    destruct (scored_file_returns _ _ _ _ Hts) as [r Hr].
    destruct (scored_file_terms _ _ _ _ Hr) as (ts' & Hts' & Hrw & Hrn).
    rewrite Hts in Hts'. injection Hts' as <-.
    exists (r :: rs), (ts :: tss). cbn [map PyNum.corpus_terms].
    rewrite Hr, Hrs, Hts, Htss, Hrw, Hrn, Hw, Hn. repeat split.
Qed.

(** The characters are counted in integers: the order of the files does
    not change their total. *)
Lemma corpus_chars_perm gold_data c files files' tss tss' :
  Permutation files files' ->
  corpus_terms_f gold_data c (map smart_open files) = Ok tss ->
  corpus_terms_f gold_data c (map smart_open files') = Ok tss' ->
  PyNum.corpus_chars_total tss = PyNum.corpus_chars_total tss'.
Proof.
  set (chars := fun f => match file_terms_f gold_data c (smart_open f) with
                         | Ok ts => PyNum.chars_total ts
                         | Raise _ => 0
                         end).
  assert (E : forall fs ts, corpus_terms_f gold_data c (map smart_open fs) = Ok ts ->
                PyNum.corpus_chars_total ts = sumZ (map chars fs)).
  { induction fs as [|f fs IH]; intros ts H.
    - now injection H as <-.
    - cbn [map PyNum.corpus_terms] in H. apply bind_ok in H as (t & Ht & H).
      apply bind_ok in H as (ts' & Hts' & H). injection H as <-.
      unfold PyNum.corpus_chars_total in *. cbn [map sumZ]. rewrite (IH _ Hts').
      unfold chars at 2. now rewrite Ht. }
  intros Hp H1 H2. rewrite (E _ _ H1), (E _ _ H2).
  apply sumZ_perm. now apply Permutation_map.
Qed.

(** C1.  [process_jsonl_file] adds, for every entry of the file whose
    gold key is in the gold data, [alignment * len(gold_text)] to the
    char-weighted total and [len(gold_text)] to the character total, and
    nothing for the other entries: the two totals it returns are the sums
    of the terms of [file_terms], added in the order of the file.  When
    the gold data load, there are files to evaluate, every file is scored
    without an error and the characters do not sum to zero, [do_eval] gets
    through the aggregation with the sum of the files' char-weighted
    totals, added in the order in which the files complete, and the sum of
    their character totals, and, for a review size within the number of
    pages, returns the first sum divided by the second.  The sums and the
    quotient are Python's: every operation on floats is the
    interpreter's. *)
Theorem do_eval_char_weighted
    (gold_path eval_path name : string) (size : Z)
    (gold_data : gmap string json) (listed : list (list (PyNum.number float * Z))) :
  (forall l, Permutation (as_completed l) l) ->
  load_gold_data json_loads smart_open list_jsonl_files gold_path = Ok gold_data ->
  list_jsonl_files eval_path <> [] ->
  PyNum.corpus_terms float_of_int float_mul json_loads compute gold_data the_comparer
    (map smart_open (list_jsonl_files eval_path)) = Ok listed ->
  PyNum.corpus_chars_total listed <> 0 ->
  (forall f c r,
     PyNum.process_jsonl_file float_of_int float_add float_mul json_loads compute
       smart_open f gold_data c = Ok r ->
     exists ts,
       PyNum.file_terms float_of_int float_mul json_loads compute gold_data c
         (smart_open f) = Ok ts
       /\ PyNum.char_weighted_alignment_score r
          = PyNum.weighted_total float_of_int float_add ts
       /\ PyNum.total_chars r = PyNum.chars_total ts)
  /\ exists t completed tss,
       PyNum.eval_files float_of_int float_add float_mul json_loads compute smart_open
         list_jsonl_files as_completed gold_path eval_path = Ok t
       /\ Permutation completed (list_jsonl_files eval_path)
       /\ as_completed
            (map (fun f =>
                    PyNum.process_jsonl_file float_of_int float_add float_mul json_loads
                      compute smart_open f gold_data the_comparer)
               (list_jsonl_files eval_path))
          = map (fun f =>
                   PyNum.process_jsonl_file float_of_int float_add float_mul json_loads
                     compute smart_open f gold_data the_comparer)
              completed
       /\ PyNum.corpus_terms float_of_int float_mul json_loads compute gold_data
            the_comparer (map smart_open completed) = Ok tss
       /\ PyNum.sum_score t = PyNum.corpus_weighted_total float_of_int float_add tss
       /\ PyNum.sum_weight t = PyNum.corpus_chars_total tss
       /\ PyNum.corpus_chars_total tss = PyNum.corpus_chars_total listed
       /\ (0 <= size <= Z.of_nat (List.length (PyNum.page_eval_data t)) ->
           exists v pages,
             PyNum.do_eval float_of_int float_add float_mul float_div int_truediv float_lt
               json_loads compute smart_open list_jsonl_files as_completed random_sample
               gold_path eval_path name size = Ok (v, pages)
             /\ PyNum.py_truediv float_of_int float_div int_truediv
                  (PyNum.corpus_weighted_total float_of_int float_add tss)
                  (PyNum.corpus_chars_total tss) = Ok v).
Proof.
  intros Hperm Hg Hne Hlisted HN. split; [intros f c r; apply scored_file_terms|].
  pose proof (Hperm (map (fun f => process_file_f gold_data the_comparer f)
                       (list_jsonl_files eval_path))) as Hp.
  apply Permutation_map_inv in Hp as (completed & Hdone & Hp).
  assert (Hall : forall f, In f completed ->
            returns (file_terms_f gold_data the_comparer (smart_open f))).
  { intros f Hf. eapply corpus_terms_each; [exact Hlisted|].
    eapply Permutation_in; [apply Permutation_sym, Hp | exact Hf]. }
  destruct (scored_files gold_data the_comparer completed Hall)
    as (rs & tss & Hrs & Htss & Hw & Hn).
  destruct (aggregate_all_returned (PyNum.mkEvalTotals (PyNum.Int 0) 0 []) rs) as [t Ht].
  assert (Hfiles : PyNum.eval_files float_of_int float_add float_mul json_loads compute
                     smart_open list_jsonl_files as_completed gold_path eval_path = Ok t).
  { unfold PyNum.eval_files. rewrite Hg. cbn [bind].
    destruct (list_jsonl_files eval_path) as [|f0 fs] eqn:Ef; [congruence|].
    rewrite Hdone, Hrs. exact Ht. }
  apply aggregate_in_order in Ht as (rs' & Heq & Hs & Hwt).
  assert (rs' = rs) as ->.
  { clear -Heq. revert rs' Heq. induction rs as [|a l IH]; intros [|b l'] H;
      try discriminate; [reflexivity|]. injection H as -> H. f_equal. now apply IH. }
  cbn [PyNum.sum_score PyNum.sum_weight] in Hs, Hwt.
  assert (Hscore : PyNum.sum_score t
                   = PyNum.corpus_weighted_total float_of_int float_add tss).
  { rewrite Hs, Hw. reflexivity. }
  assert (Hweight : PyNum.sum_weight t = PyNum.corpus_chars_total tss).
  { rewrite Hwt, Hn. unfold PyNum.corpus_chars_total. lia. }
  assert (Hsame : PyNum.corpus_chars_total tss = PyNum.corpus_chars_total listed).
  { eapply corpus_chars_perm; [apply Permutation_sym, Hp | exact Htss | exact Hlisted]. }
  exists t, completed, tss.
  split; [exact Hfiles|]. split; [apply Permutation_sym, Hp|]. split; [exact Hdone|].
  split; [exact Htss|]. split; [exact Hscore|]. split; [exact Hweight|].
  split; [exact Hsame|].
  intros Hsize. unfold PyNum.do_eval. rewrite Hfiles. cbn [bind].
  rewrite Hscore, Hweight. unfold PyNum.py_truediv at 1 2.
  assert (E0 : (PyNum.corpus_chars_total tss =? 0) = false)
    by (apply Z.eqb_neq; congruence).
  rewrite E0. cbn [bind].
  assert (E1 : (size <? 0) || (Z.of_nat (List.length (PyNum.page_eval_data t)) <? size)
               = false).
  { apply orb_false_iff. split; apply Z.ltb_ge; lia. }
  rewrite E1. eexists _, _. split; [reflexivity|].
  unfold PyNum.py_truediv. now rewrite E0.
Qed.

End ScoreFacts.

Lemma do_eval_char_weighted_witness :
  (forall f c r,
     PyNum.process_jsonl_file b64_of_int PrimFloat.add PrimFloat.mul sample_loads b64_compute
       sample_open f sample_gold c = Ok r ->
     exists ts,
       PyNum.file_terms b64_of_int PrimFloat.mul sample_loads b64_compute sample_gold c
         (sample_open f) = Ok ts
       /\ PyNum.char_weighted_alignment_score r
          = PyNum.weighted_total b64_of_int PrimFloat.add ts
       /\ PyNum.total_chars r = PyNum.chars_total ts)
  /\ exists t completed tss,
       PyNum.eval_files b64_of_int PrimFloat.add PrimFloat.mul sample_loads b64_compute
         sample_open sample_listing (fun l => l) "gold" "eval" = Ok t
       /\ Permutation completed (sample_listing "eval")
       /\ (fun l => l)
            (map (fun f =>
                    PyNum.process_jsonl_file b64_of_int PrimFloat.add PrimFloat.mul
                      sample_loads b64_compute sample_open f sample_gold the_comparer)
               (sample_listing "eval"))
          = map (fun f =>
                   PyNum.process_jsonl_file b64_of_int PrimFloat.add PrimFloat.mul
                     sample_loads b64_compute sample_open f sample_gold the_comparer)
              completed
       /\ PyNum.corpus_terms b64_of_int PrimFloat.mul sample_loads b64_compute sample_gold
            the_comparer (map sample_open completed) = Ok tss
       /\ PyNum.sum_score t = PyNum.corpus_weighted_total b64_of_int PrimFloat.add tss
       /\ PyNum.sum_weight t = PyNum.corpus_chars_total tss
       /\ PyNum.corpus_chars_total tss = PyNum.corpus_chars_total sample_terms
       /\ (0 <= 1 <= Z.of_nat (List.length (PyNum.page_eval_data t)) ->
           exists v pages,
             PyNum.do_eval b64_of_int PrimFloat.add PrimFloat.mul PrimFloat.div b64_ratio
               PrimFloat.ltb sample_loads b64_compute sample_open sample_listing
               (fun l => l) (fun l k => take k l) "gold" "eval" "review" 1 = Ok (v, pages)
             /\ PyNum.py_truediv b64_of_int PrimFloat.div b64_ratio
                  (PyNum.corpus_weighted_total b64_of_int PrimFloat.add tss)
                  (PyNum.corpus_chars_total tss) = Ok v).
Proof.
  apply (do_eval_char_weighted b64_of_int PrimFloat.add PrimFloat.mul PrimFloat.div
           b64_ratio PrimFloat.ltb sample_loads b64_compute sample_open sample_listing
           (fun l => l) (fun l k => take k l) "gold" "eval" "review" 1 sample_gold
           sample_terms).
  - intros l. apply Permutation_refl.
  - reflexivity.
  - discriminate.
  - reflexivity.
  - discriminate.
Defined.

(** The sample files in binary64: half of eleven characters over eleven. *)
Example do_eval_sample_mean :
  exists pages,
    PyNum.do_eval b64_of_int PrimFloat.add PrimFloat.mul PrimFloat.div b64_ratio
      PrimFloat.ltb sample_loads b64_compute sample_open sample_listing
      (fun l => l) (fun l k => take k l) "gold" "eval" "review" 1
    = Ok (b64_ratio 1 2, pages).
Proof. eexists. vm_compute. reflexivity. Qed.

(** In binary64 the sum of the files' totals depends on the order in which
    the files complete: 0.1, 0.2 and 0.3 added from the left, and from the
    right. *)
Example completion_order_changes_sum :
  PyNum.corpus_weighted_total b64_of_int PrimFloat.add [tenths 1; tenths 2; tenths 3]
  <> PyNum.corpus_weighted_total b64_of_int PrimFloat.add [tenths 3; tenths 2; tenths 1]
  /\ PyNum.corpus_chars_total [tenths 1; tenths 2; tenths 3]
     = PyNum.corpus_chars_total [tenths 3; tenths 2; tenths 1].
Proof.
  split; [|reflexivity]. vm_compute. intros H. discriminate H.
Qed.

(** * Further properties of the code *)

(** * More of the code *)

(** ** Gold keys *)

Lemma lstrip_no_char c s : has_char c s = false -> has_char c (lstrip s) = false.
Proof.
  induction s as [|a s IH]; simpl; [reflexivity|].
  intros H. apply orb_false_iff in H as [Ha Hs].
  destruct (is_space a); [now apply IH|]. simpl. now rewrite Ha, Hs.
Qed.

Lemma digits_loop_nonneg m s acc n rest :
  (String.length s <= m)%nat -> 0 <= acc ->
  digits_loop acc s = Some (n, rest) -> 0 <= n.
Proof.
  revert s acc. induction m as [|m IH]; intros s acc Hm Hacc H.
  - destruct s; [|simpl in Hm; lia]. simpl in H. now injection H as <- _.
  - destruct s as [|c s]; simpl in H; [now injection H as <- _|].
    simpl in Hm. destruct (is_digit c) eqn:Hc.
    + apply digit_facts in Hc as (_ & _ & _ & _ & Hv & _).
      apply (IH s (10 * acc + digit_val c)); [lia | lia | exact H].
    + destruct (Ascii.eqb c "_"%char); [|now injection H as <- _].
      destruct s as [|d s']; [discriminate|].
      destruct (is_digit d) eqn:Hd; [|discriminate].
      apply digit_facts in Hd as (_ & _ & _ & _ & Hv & _).
      simpl in Hm.
      apply (IH s' (10 * acc + digit_val d)); [lia | lia | exact H].
Qed.

Lemma py_int_no_dash_nonneg s n :
  has_char dash s = false -> py_int s = Some n -> 0 <= n.
Proof.
  intros Hs. apply lstrip_no_char in Hs. unfold py_int.
  destruct (lstrip s) as [|c t] eqn:E; [discriminate|].
  simpl in Hs. apply orb_false_iff in Hs as [Hc Ht]. unfold dash in Hc.
  assert (G : forall s2, match parse_number s2 with
                         | Some (n0, rest) => if all_space rest then Some n0 else None
                         | None => None
                         end = Some n -> 0 <= n).
  { intros s2 H. destruct (parse_number s2) as [[n0 rest]|] eqn:Ep; [|discriminate].
    destruct (all_space rest); [|discriminate]. injection H as <-.
    unfold parse_number in Ep. destruct s2 as [|d s2]; [discriminate|].
    destruct (is_digit d) eqn:Hd; [|discriminate].
    apply digit_facts in Hd as (_ & _ & _ & _ & Hv & _).
    eapply digits_loop_nonneg; [reflexivity | | exact Ep]. lia. }
  destruct (Ascii.eqb c "+"%char); [apply G|].
  rewrite Hc. apply G.
Qed.

Lemma from_goldkey_fields k t fr err e :
  from_goldkey k t fr err = Ok e ->
  exists i n, rindex dash k = Some i /\ py_int (slice_from (S i) k) = Some n
              /\ e = mkNormalizedEntry (slice_to i k) n t fr err.
Proof.
  unfold from_goldkey. destruct (rindex dash k) as [i|]; [|discriminate].
  destruct (py_int _) as [n|] eqn:En; [|discriminate].
  intros [= <-]. exists i, n. auto.
Qed.

Lemma from_goldkey_nonneg k t fr err e :
  from_goldkey k t fr err = Ok e -> 0 <= pagenum e.
Proof.
  intros H. apply from_goldkey_fields in H as (i & n & Hi & Hn & ->). simpl.
  apply rindex_split in Hi as [_ Hd].
  eapply py_int_no_dash_nonneg; eauto.
Qed.

(** X1.  An entry that [from_goldkey] returns never has a negative page
    number; its key is its path, a dash and a rest without a dash that [int]
    reads as the page number, and the keyword values are stored as given.  On
    a key with no dash, and on one whose rest [int] refuses, [from_goldkey]
    raises [ValueError]. *)
Theorem from_goldkey_page_not_negative (k : string) (t fr err : json) :
  match from_goldkey k t fr err with
  | Ok e =>
      0 <= pagenum e
      /\ (exists rest, k = s3_path e ++ "-" ++ rest
                       /\ has_char dash rest = false
                       /\ py_int rest = Some (pagenum e))
      /\ text e = t /\ finish_reason e = fr /\ error e = err
  | Raise x =>
      x = ValueError
      /\ (has_char dash k = false
          \/ exists i, rindex dash k = Some i /\ py_int (slice_from (S i) k) = None)
  end.
Proof.
  destruct (from_goldkey k t fr err) as [e|x] eqn:H.
  - split; [eapply from_goldkey_nonneg, H|].
    apply from_goldkey_fields in H as (i & n & Hi & Hn & ->). simpl.
    apply rindex_split in Hi as [Hk Hd]. split; [|auto].
    exists (slice_from (S i) k). auto.
  - unfold from_goldkey in H. destruct (rindex dash k) as [i|] eqn:Hi.
    + destruct (py_int _) eqn:Hn; [discriminate|]. injection H as <-.
      split; [reflexivity|]. right. eauto.
    + injection H as <-. split; [reflexivity|]. left.
      now apply rindex_none_has_char.
Qed.

(** X2.  Among entries whose page numbers are not negative -- all those
    [from_goldkey] returns -- the gold key tells entries apart exactly by path
    and page number: equal keys mean equal paths and equal pages.  Reading
    the key of a returned entry back gives the same entry, so a key such as
    [doc-007] is matched under [doc-7]. *)
Theorem goldkey_identifies_page (e1 e2 : NormalizedEntry) (k : string) (t fr err : json) :
  0 <= pagenum e1 -> 0 <= pagenum e2 ->
  (goldkey e1 = goldkey e2 <-> s3_path e1 = s3_path e2 /\ pagenum e1 = pagenum e2)
  /\ (forall e, from_goldkey k t fr err = Ok e -> from_goldkey (goldkey e) t fr err = Ok e).
Proof.
  intros H1 H2. split.
  - split.
    + intros Hk. destruct e1 as [p1 n1 t1 f1 r1], e2 as [p2 n2 t2 f2 r2]. simpl in *.
      pose proof (from_goldkey_goldkey p1 n1 JNull JNull JNull H1) as G1.
      pose proof (from_goldkey_goldkey p2 n2 JNull JNull JNull H2) as G2.
      unfold goldkey in *. simpl in *. rewrite Hk in G1. rewrite G1 in G2.
      injection G2 as -> ->. auto.
    + intros [Hp Hn]. unfold goldkey. now rewrite Hp, Hn.
  - intros e He. pose proof (from_goldkey_nonneg _ _ _ _ _ He) as Hn.
    apply from_goldkey_fields in He as (i & n & _ & _ & ->).
    now apply from_goldkey_goldkey.
Qed.

Lemma goldkey_identifies_page_witness :
  (goldkey (mkNormalizedEntry "doc" 7 JNull JNull JNull)
   = goldkey (mkNormalizedEntry "doc" 7 (JStr "x") JNull JNull)
   <-> "doc" = "doc" /\ 7 = 7)
  /\ (forall e, from_goldkey "doc-007" JNull JNull JNull = Ok e ->
                from_goldkey (goldkey e) JNull JNull JNull = Ok e).
Proof.
  apply (goldkey_identifies_page (mkNormalizedEntry "doc" 7 JNull JNull JNull)
           (mkNormalizedEntry "doc" 7 (JStr "x") JNull JNull) "doc-007" JNull JNull JNull);
    simpl; lia.
Defined.

Example goldkey_leading_zeros :
  from_goldkey "doc-007" JNull JNull JNull = Ok (mkNormalizedEntry "doc" 7 JNull JNull JNull)
  /\ goldkey (mkNormalizedEntry "doc" 7 JNull JNull JNull) = "doc-7".
Proof. split; reflexivity. Qed.

(** ** Loading the gold data *)

Section GoldFacts.

Variable json_loads : string -> option json.

Lemma load_gold_lines_last g lines :
  match load_gold_lines json_loads g lines, load_lines json_loads lines with
  | Ok g', Ok es =>
      forall k, g' !! k = match last_text k es with Some t => Some t | None => g !! k end
  | Raise x, Raise y => x = y
  | _, _ => False
  end.
Proof.
  revert g. induction lines as [|line rest IH]; intros g; [now simpl|].
  cbn [load_gold_lines load_lines].
  destruct (load_line json_loads line) as [e|x]; cbn [bind]; [|reflexivity].
  specialize (IH (<[goldkey e := text e]> g)).
  destruct (load_gold_lines json_loads _ rest) as [g'|x],
           (load_lines json_loads rest) as [es|y]; cbn [bind]; try exact IH.
  intros k. rewrite IH. cbn [last_text].
  destruct (last_text k es); [reflexivity|].
  destruct (String.eqb_spec (goldkey e) k) as [->|Hne].
  - now rewrite lookup_insert_eq.
  - now rewrite lookup_insert_ne.
Qed.

End GoldFacts.

(** ** What a file's result holds *)

Lemma od_set_keys {V : Type} k (v : V) d :
  map fst (od_set k v d)
  = match od_get k d with
    | Some _ => map fst d
    | None => (map fst d ++ [k])%list
    end.
Proof.
  induction d as [|[k' v'] d IH]; [reflexivity|]. simpl.
  destruct (String.eqb k' k); [reflexivity|]. simpl. rewrite IH.
  now destruct (od_get k d).
Qed.

Lemma od_get_in {V : Type} k (d : list (string * V)) :
  od_get k d = None <-> ~ In k (map fst d).
Proof.
  induction d as [|[k' v'] d IH]; simpl; [tauto|].
  destruct (String.eqb_spec k' k) as [->|Hne].
  - split; [discriminate | intros H; exfalso; apply H; now left].
  - rewrite IH. split; [intros H [?|?]; tauto | tauto].
Qed.

Lemma py_len_nonneg v n : py_len v = Ok n -> 0 <= n.
Proof. destruct v; simpl; intros [= <-]; lia. Qed.

Section FileFacts.

Variable json_loads : string -> option json.
Variable compute : comparer -> json -> json -> outcome Q.
Variable smart_open : string -> list string.

Variable gold_data : gmap string json.
Variable c : comparer.

Abbreviation keys' r := (map fst (page_data r)).
Abbreviation scored' es := (List.filter (in_gold gold_data) es).

Lemma process_line_keeps acc line acc' :
  process_line json_loads compute gold_data c acc line = Ok acc' ->
  exists e, load_line json_loads line = Ok e
    /\ total_pages acc' = total_pages acc + Z.of_nat (List.length (scored' [e]))
    /\ keys' acc' = (if in_gold gold_data e
                     then match od_get (goldkey e) (page_data acc) with
                          | Some _ => keys' acc
                          | None => (keys' acc ++ [goldkey e])%list
                          end
                     else keys' acc)
    /\ total_chars acc <= total_chars acc'.
Proof.
  unfold process_line, in_gold. intros H.
  apply bind_ok in H as (e & He & H). exists e. split; [exact He|]. simpl.
  destruct (gold_data !! goldkey e) as [g|].
  - apply bind_ok in H as (a & _ & H). apply bind_ok in H as (n & Hn & H).
    injection H as <-. simpl. apply py_len_nonneg in Hn.
    split; [reflexivity|]. split; [apply od_set_keys | lia].
  - injection H as <-. split; [simpl; lia|]. split; [reflexivity | lia].
Qed.

Lemma run_lines_keeps lines acc r :
  run_lines json_loads compute gold_data c acc lines = Ok r ->
  exists es, load_lines json_loads lines = Ok es
    /\ total_pages r = total_pages acc + Z.of_nat (List.length (scored' es))
    /\ (NoDup (keys' acc) -> NoDup (keys' r))
    /\ (forall k, In k (keys' r) <->
                  In k (keys' acc)
                  \/ exists e, In e es /\ goldkey e = k /\ in_gold gold_data e = true)
    /\ (List.length (keys' r) <= List.length (keys' acc) + List.length (scored' es))%nat
    /\ total_chars acc <= total_chars r.
Proof.
  revert acc. induction lines as [|line rest IH]; intros acc H.
  - injection H as <-. exists []. simpl. split; [reflexivity|]. split; [lia|].
    split; [auto|]. split; [|split; lia].
    intros k. split; [auto|]. intros [?|(e & [] & _)]. assumption.
  - cbn [run_lines] in H. apply bind_ok in H as (acc' & Hl & H).
    apply process_line_keeps in Hl as (e & He & Hp & Hk & Hc).
    apply IH in H as (es & Hes & Hp' & Hnd & Hin & Hlen & Hc').
    exists (e :: es). cbn [load_lines]. rewrite He, Hes. cbn [bind].
    split; [reflexivity|]. simpl in Hp. cbn [List.filter].
    destruct (in_gold gold_data e) eqn:Eg.
    + split; [simpl in *; lia|].
      destruct (od_get (goldkey e) (page_data acc)) eqn:Eo.
      * rewrite Hk in *. split; [exact Hnd|]. split; [|split; [simpl; lia | lia]].
        intros k. rewrite Hin. split.
        -- intros [?|(e' & ? & ? & ?)]; [now left|]. right. exists e'. simpl. auto.
        -- intros [?|(e' & [<-|?] & Hk' & ?)]; [now left| |right; eauto].
           left. rewrite <- Hk'.
           destruct (in_dec string_dec (goldkey e) (keys' acc)) as [?|Hn]; [assumption|].
           apply od_get_in in Hn. congruence.
      * assert (Hn : ~ In (goldkey e) (keys' acc)) by (now apply od_get_in).
        rewrite Hk in *. split; [|split; [|split]].
        -- intros Hd. apply Hnd. apply NoDup_app. split; [exact Hd|].
           split; [|apply NoDup_singleton].
           intros x Hx Hx'. apply list_elem_of_In in Hx, Hx'.
           destruct Hx' as [<-|[]]. now apply Hn.
        -- intros k. rewrite Hin, in_app_iff. simpl. split.
           ++ intros [[?|[<-|[]]]|(e' & ? & ? & ?)]; [now left| |].
              ** right. exists e. auto.
              ** right. exists e'. auto.
           ++ intros [?|(e' & [<-|?] & Hk' & ?)]; [left; now left| |right; eauto].
              left. right. now left.
        -- rewrite length_app in Hlen. simpl in *. lia.
        -- lia.
    + rewrite Hk in *. split; [simpl in *; lia|]. split; [exact Hnd|].
      split; [|split; [simpl in *; lia | lia]].
      intros k. rewrite Hin. split.
      * intros [?|(e' & ? & ? & ?)]; [now left|]. right. exists e'. simpl. auto.
      * intros [?|(e' & [<-|?] & Hk' & Hg)]; [now left| congruence |right; eauto].
Qed.

End FileFacts.

Section FileResult.

Variable json_loads : string -> option json.
Variable compute : comparer -> json -> json -> outcome Q.
Variable smart_open : string -> list string.

(** X4.  When [process_jsonl_file] returns, [total_pages] is the number
    of entries of the file whose key is in the gold data (an entry counts
    each time its key comes again), the keys of [page_data] are those keys
    without repetition, so that [page_data] never has more records than
    [total_pages] counts, and [total_chars] is not negative. *)
Theorem process_jsonl_file_page_data
    (jsonl_file : string) (gold_data : gmap string json) (c : comparer) (r : file_result) :
  process_jsonl_file json_loads compute smart_open jsonl_file gold_data c = Ok r ->
  exists es,
    load_lines json_loads (smart_open jsonl_file) = Ok es
    /\ total_pages r = Z.of_nat (List.length (List.filter (in_gold gold_data) es))
    /\ NoDup (map fst (page_data r))
    /\ (forall k, In k (map fst (page_data r)) <->
                  exists e, In e es /\ goldkey e = k /\ in_gold gold_data e = true)
    /\ Z.of_nat (List.length (page_data r)) <= total_pages r
    /\ 0 <= total_chars r.
Proof.
  intros H. apply run_lines_keeps in H as (es & Hes & Hp & Hnd & Hin & Hlen & Hc).
  exists es. simpl in *. split; [exact Hes|]. split; [lia|].
  split; [apply Hnd; constructor|]. split; [|split; [|lia]].
  - intros k. rewrite Hin. split; [intros [[]|?]; assumption | auto].
  - rewrite length_map in Hlen. lia.
Qed.

End FileResult.

Lemma process_jsonl_file_page_data_witness :
  exists es,
    load_lines sample_loads (sample_open "eval/a.jsonl") = Ok es
    /\ total_pages (mkFileResult (1 # 2) (11 # 2) 11 1 [("doc.pdf-1", sample_page)])
       = Z.of_nat (List.length (List.filter (in_gold sample_gold) es))
    /\ NoDup (map fst [("doc.pdf-1", sample_page)])
    /\ (forall k, In k (map fst [("doc.pdf-1", sample_page)]) <->
                  exists e, In e es /\ goldkey e = k /\ in_gold sample_gold e = true)
    /\ Z.of_nat (List.length [("doc.pdf-1", sample_page)])
       <= total_pages (mkFileResult (1 # 2) (11 # 2) 11 1 [("doc.pdf-1", sample_page)])
    /\ 0 <= total_chars (mkFileResult (1 # 2) (11 # 2) 11 1 [("doc.pdf-1", sample_page)]).
Proof.
  apply (process_jsonl_file_page_data sample_loads sample_compute sample_open
           "eval/a.jsonl" sample_gold the_comparer
           (mkFileResult (1 # 2) (11 # 2) 11 1 [("doc.pdf-1", sample_page)])).
  reflexivity.
Defined.

(** ** When [do_eval] raises *)

Lemma pages_of_length_perm rs rs' :
  Permutation rs rs' -> List.length (pages_of rs) = List.length (pages_of rs').
Proof.
  unfold pages_of.
  induction 1 as [|x l l' _ IH|x y l|l l' l'' _ IH1 _ IH2]; simpl;
    rewrite ?length_app; lia.
Qed.

Section DoEvalErrors.

Variable json_loads : string -> option json.
Variable compute : comparer -> json -> json -> outcome Q.
Variable smart_open : string -> list string.
Variable list_jsonl_files : string -> list string.
Variable as_completed : list (outcome file_result) -> list (outcome file_result).
Variable random_sample : list page -> nat -> list page.

Lemma load_lines_each lines es line :
  load_lines json_loads lines = Ok es -> In line lines ->
  returns (load_line json_loads line).
Proof.
  revert es. induction lines as [|l rest IH]; intros es H []; subst;
    cbn [load_lines] in H; apply bind_ok in H as (e & He & H).
  - rewrite He. apply returns_ok.
  - apply bind_ok in H as (es' & Hes & _). eapply IH; eauto.
Qed.

Lemma corpus_totals_lines gold_data c files T f :
  corpus_totals json_loads compute gold_data c (map smart_open files) = Ok T ->
  In f files ->
  exists es, load_lines json_loads (smart_open f) = Ok es.
Proof.
  revert T. induction files as [|g files IH]; intros T H []; subst;
    cbn [corpus_totals map] in H; apply bind_ok in H as (x & Hx & H).
  - unfold file_totals in Hx. apply bind_ok in Hx as (es & Hes & _). eauto.
  - apply bind_ok in H as (y & Hy & _). eapply IH; eauto.
Qed.

Lemma in_concat_files (files : list string) f line :
  In f files -> In line (smart_open f) -> In line (concat (map smart_open files)).
Proof.
  intros Hf Hl. apply in_concat. exists (smart_open f). split; [|exact Hl].
  now apply in_map.
Qed.

(** X5.  One line that cannot be decoded or normalised, anywhere in a gold
    file or in a file to evaluate, is enough for [do_eval] to raise: no
    score is returned for the lines that are well formed. *)
Theorem do_eval_bad_line
    (gold_path eval_path name : string) (size : Z) (f line : string) :
  (forall l, Permutation (as_completed l) l) ->
  In f (list_jsonl_files gold_path) \/ In f (list_jsonl_files eval_path) ->
  In line (smart_open f) ->
  ~ returns (load_line json_loads line) ->
  ~ returns (do_eval json_loads compute smart_open list_jsonl_files as_completed
               random_sample gold_path eval_path name size).
Proof.
  intros Hperm Hf Hl Hbad [[v pages] H]. apply Hbad.
  apply (do_eval_value _ _ _ _ _ _ _ _ _ _ _ _ Hperm) in H
    as (gold_data & W & N & Hg & Hc & _).
  destruct Hf as [Hf|Hf].
  - pose proof (load_gold_lines_last json_loads ∅
                  (concat (map smart_open (list_jsonl_files gold_path)))) as Hlast.
    unfold load_gold_data in Hg. rewrite Hg in Hlast.
    destruct (load_lines json_loads _) as [es|] eqn:Hes; [|contradiction].
    eapply load_lines_each; [exact Hes|]. eapply in_concat_files; eauto.
  - destruct (corpus_totals_lines _ _ _ _ _ Hc Hf) as (es & Hes).
    eapply load_lines_each; eauto.
Qed.

Lemma entries_totals_unscored gold_data c es :
  (forall e, In e es -> in_gold gold_data e = false) ->
  exists W N, entries_totals compute gold_data c es = Ok (W, N) /\ N = 0.
Proof.
  induction es as [|e es IH]; intros H.
  - exists 0%Q, 0. auto.
  - destruct IH as (W & N & Hes & ->); [intros e' He'; apply H; now right|].
    cbn [entries_totals]. unfold entry_score.
    pose proof (H e (or_introl eq_refl)) as He. unfold in_gold in He.
    destruct (gold_data !! goldkey e); [discriminate|].
    cbn [bind]. rewrite Hes. cbn [bind fst snd]. eauto.
Qed.

Lemma corpus_totals_unscored gold_data c files :
  (forall f, In f files ->
     exists es, load_lines json_loads (smart_open f) = Ok es
                /\ forall e, In e es -> in_gold gold_data e = false) ->
  exists W N,
    corpus_totals json_loads compute gold_data c (map smart_open files) = Ok (W, N)
    /\ N = 0.
Proof.
  induction files as [|f files IH]; intros H.
  - exists 0%Q, 0. auto.
  - destruct IH as (W & N & Hc & ->); [intros f' Hf'; apply H; now right|].
    destruct (H f (or_introl eq_refl)) as (es & Hes & Hun).
    destruct (entries_totals_unscored gold_data c es Hun) as (w & n & Ht & ->).
    cbn [corpus_totals map]. unfold file_totals. rewrite Hes. cbn [bind].
    rewrite Ht. cbn [bind]. rewrite Hc. cbn [bind fst snd]. eauto.
Qed.

Lemma do_eval_zero_weight gold_path eval_path name size gold_data W :
  (forall l, Permutation (as_completed l) l) ->
  load_gold_data json_loads smart_open list_jsonl_files gold_path = Ok gold_data ->
  list_jsonl_files eval_path <> [] ->
  corpus_totals json_loads compute gold_data the_comparer
    (map smart_open (list_jsonl_files eval_path)) = Ok (W, 0) ->
  do_eval json_loads compute smart_open list_jsonl_files as_completed random_sample
    gold_path eval_path name size = Raise ZeroDivisionError.
Proof.
  intros Hperm Hg Hne Hc.
  destruct (eval_files_returns _ _ _ _ _ Hperm _ _ _ _ _ Hg Hne Hc) as (t & Ht & _ & Hw).
  unfold do_eval. rewrite Ht. cbn [bind]. now rewrite Hw.
Qed.

(** X6.  When the gold data load and there are files to evaluate, but no
    entry of those files has its key in the gold data, [do_eval] raises
    [ZeroDivisionError]: the total weight is zero when the mean is
    formatted. *)
Theorem do_eval_no_common_page
    (gold_path eval_path name : string) (size : Z) (gold_data : gmap string json) :
  (forall l, Permutation (as_completed l) l) ->
  load_gold_data json_loads smart_open list_jsonl_files gold_path = Ok gold_data ->
  list_jsonl_files eval_path <> [] ->
  (forall f, In f (list_jsonl_files eval_path) ->
     exists es, load_lines json_loads (smart_open f) = Ok es
                /\ forall e, In e es -> in_gold gold_data e = false) ->
  do_eval json_loads compute smart_open list_jsonl_files as_completed random_sample
    gold_path eval_path name size = Raise ZeroDivisionError.
Proof.
  intros Hperm Hg Hne Hun.
  destruct (corpus_totals_unscored gold_data the_comparer _ Hun) as (W & N & Hc & ->).
  eapply do_eval_zero_weight; eauto.
Qed.

Lemma files_pages_bound gold_data files rs :
  map (fun f => process_jsonl_file json_loads compute smart_open f gold_data the_comparer)
    files = map Ok rs ->
  (List.length (pages_of rs)
   <= corpus_scored json_loads gold_data (map smart_open files))%nat.
Proof.
  revert rs. induction files as [|f files IH]; intros [|r rs] H; try discriminate.
  - simpl. lia.
  - simpl in H. injection H as Hr H. apply IH in H.
    apply run_lines_keeps in Hr as (es & Hes & _ & _ & _ & Hlen & _).
    unfold pages_of in *. cbn [map concat corpus_scored]. unfold count_scored.
    rewrite Hes, length_app, !length_map in *. simpl in Hlen. lia.
Qed.

(** X7.  When the mean can be computed, [do_eval] still raises
    [ValueError] if the review size is negative or larger than the number
    of entries whose key is in the gold data: the sample cannot be drawn. *)
Theorem do_eval_sample_too_large
    (gold_path eval_path name : string) (size : Z)
    (gold_data : gmap string json) (W : Q) (N : Z) :
  (forall l, Permutation (as_completed l) l) ->
  load_gold_data json_loads smart_open list_jsonl_files gold_path = Ok gold_data ->
  list_jsonl_files eval_path <> [] ->
  corpus_totals json_loads compute gold_data the_comparer
    (map smart_open (list_jsonl_files eval_path)) = Ok (W, N) ->
  N <> 0 ->
  size < 0
  \/ Z.of_nat (corpus_scored json_loads gold_data
                 (map smart_open (list_jsonl_files eval_path))) < size ->
  do_eval json_loads compute smart_open list_jsonl_files as_completed random_sample
    gold_path eval_path name size = Raise ValueError.
Proof.
  intros Hperm Hg Hne Hc HN Hsize.
  destruct (eval_files_returns _ _ _ _ _ Hperm _ _ _ _ _ Hg Hne Hc) as (t & Ht & _ & Hw).
  unfold do_eval. rewrite Ht. cbn [bind].
  assert (E0 : (sum_weight t =? 0) = false) by (apply Z.eqb_neq; lia).
  rewrite E0.
  assert (Hlen : (List.length (page_eval_data t)
                  <= corpus_scored json_loads gold_data
                       (map smart_open (list_jsonl_files eval_path)))%nat).
  { apply (eval_files_ok _ _ _ _ _ Hperm) in Ht
      as (gold' & rs & Hg' & _ & Hp & _ & _ & Hpages).
    rewrite Hg in Hg'. injection Hg' as <-.
    apply Permutation_sym, Permutation_map_inv in Hp as (rs' & Hrs' & Hp).
    rewrite Hpages, (pages_of_length_perm _ _ Hp).
    now apply files_pages_bound. }
  assert (E1 : (size <? 0) || (Z.of_nat (List.length (page_eval_data t)) <? size) = true).
  { apply orb_true_iff. destruct Hsize; [left | right]; apply Z.ltb_lt; lia. }
  now rewrite E1.
Qed.

End DoEvalErrors.

Lemma do_eval_bad_line_witness :
  ~ returns (do_eval sample_loads sample_compute more_open more_listing (fun l => l)
               (fun l k => take k l) "gold" "eval-c" "review" 1).
Proof.
  apply (do_eval_bad_line sample_loads sample_compute more_open more_listing (fun l => l)
           (fun l k => take k l) "gold" "eval-c" "review" 1 "eval/c.jsonl" "not json").
  - intros l. apply Permutation_refl.
  - right. left. reflexivity.
  - right. left. reflexivity.
  - intros [e H]. discriminate H.
Defined.

Lemma do_eval_no_common_page_witness :
  do_eval sample_loads sample_compute more_open more_listing (fun l => l)
    (fun l k => take k l) "gold" "eval-b" "review" 1 = Raise ZeroDivisionError.
Proof.
  apply (do_eval_no_common_page sample_loads sample_compute more_open more_listing
           (fun l => l) (fun l k => take k l) "gold" "eval-b" "review" 1 sample_gold).
  - intros l. apply Permutation_refl.
  - reflexivity.
  - discriminate.
  - intros f [<-|[]]. eexists. split; [reflexivity|].
    intros e [<-|[]]. reflexivity.
Defined.

Lemma do_eval_sample_too_large_witness :
  do_eval sample_loads sample_compute sample_open sample_listing (fun l => l)
    (fun l k => take k l) "gold" "eval" "review" 20 = Raise ValueError.
Proof.
  apply (do_eval_sample_too_large sample_loads sample_compute sample_open sample_listing
           (fun l => l) (fun l k => take k l) "gold" "eval" "review" 20 sample_gold
           (11 # 2) 11).
  - intros l. apply Permutation_refl.
  - reflexivity.
  - discriminate.
  - reflexivity.
  - discriminate.
  - right. vm_compute. reflexivity.
Defined.

(** ** The page of the worst alignments *)

Lemma insert_page_perm x l : Permutation (insert_page x l) (x :: l).
Proof.
  induction l as [|y l IH]; simpl; [reflexivity|].
  destruct (Qle_bool _ _); [reflexivity|].
  rewrite IH. apply perm_swap.
Qed.

Lemma sort_pages_perm l : Permutation (sort_pages l) l.
Proof.
  induction l as [|x l IH]; simpl; [reflexivity|].
  rewrite insert_page_perm. now apply perm_skip.
Qed.

Lemma insert_page_sorted x l :
  StronglySorted by_alignment l -> StronglySorted by_alignment (insert_page x l).
Proof.
  induction l as [|y l IH]; intros Hs; simpl.
  - repeat constructor.
  - apply StronglySorted_inv in Hs as [Hl Hy].
    destruct (Qle_bool (pg_alignment x) (pg_alignment y)) eqn:E.
    + apply Qle_bool_iff in E. constructor; [now constructor|].
      constructor; [exact E|].
      eapply Forall_impl; [exact Hy|]. intros z Hz. unfold by_alignment in *.
      eapply Qle_trans; eauto.
    + constructor; [now apply IH|].
      assert (Hyx : by_alignment y x).
      { unfold by_alignment. apply Qlt_le_weak, Qnot_le_lt.
        intros H. apply Qle_bool_iff in H. congruence. }
      apply List.Forall_forall. intros z Hz.
      apply (Permutation_in _ (insert_page_perm x l)) in Hz as [<-|Hz]; [exact Hyx|].
      rewrite List.Forall_forall in Hy. now apply Hy.
Qed.

Lemma sort_pages_sorted l : StronglySorted by_alignment (sort_pages l).
Proof.
  induction l as [|x l IH]; simpl; [constructor | now apply insert_page_sorted].
Qed.

Lemma sorted_app_cross (l1 l2 : list page) :
  StronglySorted by_alignment (l1 ++ l2) ->
  StronglySorted by_alignment l1
  /\ forall a b, In a l1 -> In b l2 -> by_alignment a b.
Proof.
  induction l1 as [|x l1 IH]; simpl; intros H.
  - split; [constructor | intros a b []].
  - apply StronglySorted_inv in H as [Hs Hx]. destruct (IH Hs) as [H1 H2].
    apply List.Forall_app in Hx as [Hx1 Hx2]. split; [now constructor|].
    intros a b [<-|Ha] Hb; [|now apply H2].
    rewrite List.Forall_forall in Hx2. now apply Hx2.
Qed.

(** X8.  The pages [do_eval] writes to the page of the worst alignments
    are the lowest-aligned ones: they come in ascending order of alignment,
    together with the pages left out they are all the pages, no page left
    out aligns lower than one of them, and for a review size that is not
    negative there are that many of them, or all pages when there are
    fewer. *)
Theorem worst_pages_lowest (page_eval_data : list page) (review_page_size : Z) :
  exists rest,
    Permutation (worst_pages page_eval_data review_page_size ++ rest) page_eval_data
    /\ StronglySorted by_alignment (worst_pages page_eval_data review_page_size)
    /\ (forall w r, In w (worst_pages page_eval_data review_page_size) -> In r rest ->
                    (pg_alignment w <= pg_alignment r)%Q)
    /\ (0 <= review_page_size ->
        List.length (worst_pages page_eval_data review_page_size)
        = Nat.min (Z.to_nat review_page_size) (List.length page_eval_data)).
Proof.
  unfold worst_pages, py_slice_to.
  set (n := if review_page_size <? 0
            then (List.length (sort_pages page_eval_data) - Z.to_nat (- review_page_size))%nat
            else Z.to_nat review_page_size).
  assert (E : (if review_page_size <? 0
               then take (List.length (sort_pages page_eval_data)
                          - Z.to_nat (- review_page_size)) (sort_pages page_eval_data)
               else take (Z.to_nat review_page_size) (sort_pages page_eval_data))
              = take n (sort_pages page_eval_data)).
  { unfold n. now destruct (review_page_size <? 0). }
  rewrite E. exists (drop n (sort_pages page_eval_data)).
  pose proof (sort_pages_sorted page_eval_data) as Hs.
  rewrite <- (take_drop n (sort_pages page_eval_data)) in Hs.
  apply sorted_app_cross in Hs as [Hs1 Hs2].
  split; [rewrite take_drop; apply sort_pages_perm|].
  split; [exact Hs1|]. split; [exact Hs2|].
  intros Hk. unfold n. destruct (review_page_size <? 0) eqn:Ek; [lia|].
  rewrite length_take. now rewrite (Permutation_length (sort_pages_perm page_eval_data)).
Qed.

(** ** Paths and listings *)

Lemma split_once_some c s x y :
  split_once c s = Some (x, y) -> has_char c x = false /\ s = x ++ String c y.
Proof.
  revert x. induction s as [|a s IH]; intros x H; simpl in H; [discriminate|].
  destruct (Ascii.eqb a c) eqn:E.
  - injection H as <- <-. apply Ascii.eqb_eq in E as ->. now split.
  - destruct (split_once c s) as [[x' y']|]; [|discriminate].
    injection H as <- <-. destruct (IH x' eq_refl) as [Hx ->].
    simpl. rewrite E. now split.
Qed.

Lemma split_once_none c s : split_once c s = None <-> has_char c s = false.
Proof.
  induction s as [|a s IH]; simpl; [tauto|].
  destruct (Ascii.eqb a c); simpl; [split; discriminate|].
  destruct (split_once c s) as [[x y]|].
  - split; [discriminate|]. intros H. apply IH in H. discriminate.
  - split; intros _; [now apply IH | reflexivity].
Qed.

Lemma split_once_app c x y :
  has_char c x = false -> split_once c (x ++ String c y) = Some (x, y).
Proof.
  induction x as [|a x IH]; intros H.
  - rewrite str_app_nil_l. simpl. now rewrite Ascii.eqb_refl.
  - simpl in H. apply orb_false_iff in H as [Ha Hx].
    rewrite str_app_cons. simpl. rewrite Ha. now rewrite (IH Hx).
Qed.

Lemma remove_scheme_step c t :
  is_prefix "s3://" (String c t) = false ->
  remove_scheme (String c t) = String c (remove_scheme t).
Proof.
  intros H.
  destruct c as [[] [] [] [] [] [] [] []]; try reflexivity.
  destruct t as [|c t]; [reflexivity|].
  destruct c as [[] [] [] [] [] [] [] []]; try reflexivity.
  destruct t as [|c t]; [reflexivity|].
  destruct c as [[] [] [] [] [] [] [] []]; try reflexivity.
  destruct t as [|c t]; [reflexivity|].
  destruct c as [[] [] [] [] [] [] [] []]; try reflexivity.
  destruct t as [|c t]; [reflexivity|].
  destruct c as [[] [] [] [] [] [] [] []]; try reflexivity.
  discriminate H.
Qed.

Lemma remove_scheme_id s : has_substring "s3://" s = false -> remove_scheme s = s.
Proof.
  induction s as [|c t IH]; intros H; [reflexivity|].
  cbn [has_substring] in H. apply orb_false_iff in H as [Hp Ht].
  rewrite (remove_scheme_step c t Hp). now rewrite (IH Ht).
Qed.

(** X9.  The bucket and key that [download_from_s3] and [list_jsonl_files]
    take from a path: the bucket holds no slash, and bucket, slash and key
    make up the path with every [s3://] taken out; the scheme is thus
    optional.  A path without a slash after that raises [ValueError]. *)
Theorem bucket_and_key_parts (s3_path : string) :
  match bucket_and_key s3_path with
  | Ok parts =>
      has_char slash (fst parts) = false
      /\ fst parts ++ "/" ++ snd parts = remove_scheme s3_path
  | Raise x => x = ValueError /\ has_char slash (remove_scheme s3_path) = false
  end
  /\ bucket_and_key ("s3://" ++ s3_path) = bucket_and_key s3_path.
Proof.
  split; [|reflexivity]. unfold bucket_and_key.
  destruct (split_once slash (remove_scheme s3_path)) as [[b k]|] eqn:E.
  - apply split_once_some in E as [Hb ->]. now split.
  - split; [reflexivity | now apply split_once_none].
Qed.

Lemma remove_scheme_prefix post : remove_scheme ("s3://" ++ post) = remove_scheme post.
Proof. reflexivity. Qed.

Lemma remove_scheme_shorter n s :
  (String.length s <= n)%nat -> (String.length (remove_scheme s) <= String.length s)%nat.
Proof.
  revert s. induction n as [|n IH]; intros s Hn.
  - destruct s; [simpl; lia | simpl in Hn; lia].
  - destruct s as [|c t]; [simpl; lia|].
    destruct (is_prefix "s3://" (String c t)) eqn:Ep.
    + apply is_prefix_app in Ep as (post & Hpost). rewrite Hpost, remove_scheme_prefix.
      assert (Hl : String.length ("s3://" ++ post) = (5 + String.length post)%nat)
        by reflexivity.
      rewrite Hl. rewrite Hpost, Hl in Hn.
      specialize (IH post). lia.
    + rewrite (remove_scheme_step c t Ep). simpl in *. specialize (IH t). lia.
Qed.

Lemma remove_scheme_cuts s :
  has_substring "s3://" s = true ->
  (String.length (remove_scheme s) < String.length s)%nat.
Proof.
  induction s as [|c t IH]; intros H; [discriminate H|].
  destruct (is_prefix "s3://" (String c t)) eqn:Ep.
  - apply is_prefix_app in Ep as (post & Hpost). rewrite Hpost, remove_scheme_prefix.
    assert (Hl : String.length ("s3://" ++ post) = (5 + String.length post)%nat)
      by reflexivity.
    rewrite Hl. pose proof (remove_scheme_shorter _ post (Nat.le_refl _)). lia.
  - cbn [has_substring] in H. rewrite Ep in H. cbn [orb] in H.
    rewrite (remove_scheme_step c t Ep). simpl. specialize (IH H). lia.
Qed.

(** X10.  For a bucket without a slash, the bucket and the key are found
    again in the path [list_jsonl_files] makes of them, [s3://bucket/key],
    exactly when [s3://] does not occur in the text [bucket/key].  The
    condition is on the joined text: [s3://] occurs in neither [s3:] nor [/x],
    and for this bucket and key the call raises [ValueError]. *)
Theorem bucket_and_key_round_trip (bucket_name key : string) :
  has_char slash bucket_name = false ->
  bucket_and_key ("s3://" ++ bucket_name ++ "/" ++ key) = Ok (bucket_name, key)
  <-> has_substring "s3://" (bucket_name ++ "/" ++ key) = false.
Proof.
  intros Hb. unfold bucket_and_key.
  change (remove_scheme ("s3://" ++ bucket_name ++ "/" ++ key))
    with (remove_scheme (bucket_name ++ "/" ++ key)).
  split.
  - intros H.
    destruct (split_once slash (remove_scheme (bucket_name ++ "/" ++ key)))
      as [parts|] eqn:E; [|discriminate H].
    injection H as ->. apply split_once_some in E as [_ E].
    destruct (has_substring "s3://" (bucket_name ++ "/" ++ key)) eqn:Hs; [|reflexivity].
    apply remove_scheme_cuts in Hs. rewrite E in Hs.
    change (bucket_name ++ "/" ++ key) with (bucket_name ++ String slash key) in Hs. lia.
  - intros Hs. rewrite (remove_scheme_id _ Hs).
    change (bucket_name ++ "/" ++ key) with (bucket_name ++ String slash key).
    now rewrite (split_once_app slash bucket_name key Hb).
Qed.

Lemma bucket_and_key_round_trip_witness :
  bucket_and_key ("s3://" ++ "ai2-oe-data" ++ "/" ++ "jakep/done/output.jsonl")
  = Ok ("ai2-oe-data", "jakep/done/output.jsonl")
  <-> has_substring "s3://" ("ai2-oe-data" ++ "/" ++ "jakep/done/output.jsonl") = false.
Proof.
  apply (bucket_and_key_round_trip "ai2-oe-data" "jakep/done/output.jsonl"). reflexivity.
Defined.

Example bucket_and_key_joined_scheme :
  has_substring "s3://" "s3:" = false
  /\ has_substring "s3://" "/x" = false
  /\ bucket_and_key ("s3://" ++ "s3:" ++ "/" ++ "/x") = Raise ValueError.
Proof. repeat split. Qed.

Example bucket_and_key_inner_scheme :
  bucket_and_key "s3://bucket/mirror/s3://other/a.json" = Ok ("bucket", "mirror/other/a.json").
Proof. reflexivity. Qed.

Example bucket_and_key_no_key : bucket_and_key "s3://bucket" = Raise ValueError.
Proof. reflexivity. Qed.

(** *** Endings *)






Section ListingFacts.

Variable s3_pages : string -> string -> list (list string).
Variable os_walk : string -> list (string * list string).


End ListingFacts.

(** ** The gold data of a listed path *)

Section GoldListed.

Variable json_loads : string -> option json.
Variable smart_open : string -> list string.
Variable s3_pages : string -> string -> list (list string).
Variable os_walk : string -> list (string * list string).

(** X3.  [load_gold_data] returns exactly when [list_jsonl_files]
    returns a listing and every line of every listed gold file is decoded
    and normalised; it raises the [ValueError] of the listing (an [s3://]
    path with no slash after the scheme), and otherwise the error of the
    first line that fails.  The map it returns holds, under each gold key,
    the text of the last entry with that key, and nothing under other
    keys. *)
Theorem load_gold_data_last_wins (gold_data_path : string) :
  match WithListing.load_gold_data json_loads smart_open s3_pages os_walk gold_data_path,
        (let! gold_jsonl_files := list_jsonl_files s3_pages os_walk gold_data_path in
         load_lines json_loads (concat (map smart_open gold_jsonl_files)))
  with
  | Ok gold_data, Ok es => forall k, gold_data !! k = last_text k es
  | Raise x, Raise y => x = y
  | _, _ => False
  end
  /\ (is_prefix "s3://" gold_data_path = true ->
      has_char slash (remove_scheme gold_data_path) = false ->
      WithListing.load_gold_data json_loads smart_open s3_pages os_walk gold_data_path
      = Raise ValueError)
  /\ (forall gold_jsonl_files,
        list_jsonl_files s3_pages os_walk gold_data_path = Ok gold_jsonl_files ->
        WithListing.load_gold_data json_loads smart_open s3_pages os_walk gold_data_path
        = load_gold_data json_loads smart_open (fun _ => gold_jsonl_files) gold_data_path).
Proof.
  unfold WithListing.load_gold_data. split; [|split].
  - destruct (list_jsonl_files s3_pages os_walk gold_data_path) as [files|x];
      cbn [bind]; [|reflexivity].
    pose proof (load_gold_lines_last json_loads ∅ (concat (map smart_open files))) as H.
    destruct (load_gold_lines _ _ _) as [g'|x], (load_lines _ _) as [es|y]; try exact H.
    intros k. rewrite H. destruct (last_text k es); [reflexivity | apply lookup_empty].
  - intros Hp Hs. unfold list_jsonl_files, bucket_and_key. rewrite Hp.
    apply split_once_none in Hs. now rewrite Hs.
  - intros files ->. reflexivity.
Qed.

End GoldListed.

Lemma load_gold_data_last_wins_witness :
  WithListing.load_gold_data sample_loads sample_open (fun _ _ => []) (fun _ => [])
    "s3://gold-bucket"
  = Raise ValueError.
Proof.
  apply (load_gold_data_last_wins sample_loads sample_open (fun _ _ => []) (fun _ => [])
           "s3://gold-bucket"); reflexivity.
Defined.

(** ** The hash of a file *)

Lemma slice_to_from n s : slice_to n s ++ slice_from n s = s.
Proof.
  revert s. induction n as [|n IH]; intros [|a s]; try reflexivity.
  simpl. rewrite str_app_cons. now rewrite IH.
Qed.

Lemma slice_from_length n s :
  String.length (slice_from n s) = (String.length s - n)%nat.
Proof.
  revert s. induction n as [|n IH]; intros [|a s]; simpl; try lia. apply IH.
Qed.

Section FileHashFacts.

Variable md5 : Type.
Variable md5_new : md5.
Variable md5_update : md5 -> string -> md5.
Variable md5_hexdigest : md5 -> string.

Hypothesis update_update :
  forall h a b, md5_update (md5_update h a) b = md5_update h (a ++ b).

Lemma hash_chunks_all fuel h rest :
  (String.length rest < fuel)%nat ->
  hash_chunks md5 md5_update fuel h rest
  = match rest with
    | EmptyString => h
    | _ => md5_update h rest
    end.
Proof.
  revert h rest. induction fuel as [|fuel IH]; intros h rest Hf; [lia|].
  cbn [hash_chunks].
  destruct (slice_to 4096 rest) as [|b chunk] eqn:Ec.
  - destruct rest; [reflexivity | discriminate].
  - assert (Hr : String b chunk ++ slice_from 4096 rest = rest)
      by (rewrite <- Ec; apply slice_to_from).
    assert (Hl : (String.length (slice_from 4096 rest) < fuel)%nat).
    { rewrite slice_from_length. destruct rest; [discriminate|]. simpl in *. lia. }
    rewrite (IH _ _ Hl).
    destruct (slice_from 4096 rest) as [|d tail]; rewrite <- Hr.
    + now rewrite str_app_nil_r.
    + now rewrite update_update.
Qed.

(** X12.  [compute_file_hash] reads the file in chunks of 4096 bytes;
    given that feeding a hash two pieces in turn is feeding it their
    concatenation, the digest it returns is the digest of the whole
    content fed at once, and the digest of the fresh hash for an empty
    file. *)
Theorem compute_file_hash_whole (content : string) :
  compute_file_hash md5 md5_new md5_update md5_hexdigest content
  = md5_hexdigest
      (match content with
       | EmptyString => md5_new
       | _ => md5_update md5_new content
       end).
Proof.
  unfold compute_file_hash. f_equal. apply hash_chunks_all. lia.
Qed.

End FileHashFacts.

Lemma compute_file_hash_whole_witness :
  compute_file_hash string EmptyString keep_all (fun h => h) "some bytes"
  = (fun h => h) (keep_all EmptyString "some bytes").
Proof.
  apply (compute_file_hash_whole string EmptyString keep_all (fun h => h)).
  intros h a b. apply str_app_assoc.
Defined.

(** ** The lines of the rules file *)

Section RuleLines.

Variable json_loads : string -> option json.

Lemma parse_rule_lines_app d l1 l2 :
  parse_rule_lines json_loads d (l1 ++ l2)
  = (let! d' := parse_rule_lines json_loads d l1 in parse_rule_lines json_loads d' l2).
Proof.
  revert d. induction l1 as [|line l1 IH]; intros d; [reflexivity|].
  cbn [app parse_rule_lines].
  destruct (parse_rule_line json_loads d line) as [d'|x]; cbn [bind]; [apply IH | reflexivity].
Qed.

(** X13.  In the rules file a blank line and a line that is not JSON are
    passed over: the result is that of the file without the line.  A line
    that is JSON but a number, a boolean or [null], and a rule whose [pdf]
    is a list or an object, stop [parse_rules_file] with [TypeError] once
    the lines before it are read. *)
Theorem parse_rules_file_odd_lines (before after : list string) (line : string) :
  (py_strip line = EmptyString \/ json_loads (py_strip line) = None ->
   parse_rules_file json_loads (before ++ line :: after)
   = parse_rules_file json_loads (before ++ after))
  /\ (forall v,
        py_strip line <> EmptyString ->
        json_loads (py_strip line) = Some v ->
        returns (parse_rules_file json_loads before) ->
        match v with
        | JNull | JBool _ | JNum _ => True
        | JObj o =>
            match dict_get "pdf" o with
            | Some k => hashable k = false
            | None => False
            end
        | _ => False
        end ->
        parse_rules_file json_loads (before ++ line :: after) = Raise TypeError).
Proof.
  unfold parse_rules_file. split.
  - intros H. rewrite !parse_rule_lines_app.
    destruct (parse_rule_lines json_loads [] before) as [d|x]; cbn [bind]; [|reflexivity].
    cbn [parse_rule_lines]. unfold parse_rule_line.
    destruct H as [-> | H]; [reflexivity|].
    destruct (String.eqb _ _); [reflexivity|]. now rewrite H.
  - intros v Hne Hv [d Hd] Hk. rewrite parse_rule_lines_app, Hd. cbn [bind parse_rule_lines].
    unfold parse_rule_line. apply String.eqb_neq in Hne. rewrite Hne, Hv.
    destruct v as [| | | | |o]; try contradiction; try reflexivity.
    cbn [py_in bind]. unfold has_key, py_getitem.
    destruct (dict_get "pdf" o) as [k|]; [|contradiction].
    cbn [bind]. now rewrite Hk.
Qed.

End RuleLines.

Lemma parse_rules_file_odd_lines_witness :
  parse_rules_file sample_loads ([rule_line "a.pdf"] ++ "not a rule" :: [rule_line "b.pdf"])
  = parse_rules_file sample_loads ([rule_line "a.pdf"] ++ [rule_line "b.pdf"])
  /\ parse_rules_file sample_loads ([rule_line "a.pdf"] ++ "42" :: [rule_line "b.pdf"])
     = Raise TypeError.
Proof.
  split.
  - apply (proj1 (parse_rules_file_odd_lines sample_loads [rule_line "a.pdf"]
                    [rule_line "b.pdf"] "not a rule")).
    right. reflexivity.
  - apply (proj2 (parse_rules_file_odd_lines sample_loads [rule_line "a.pdf"]
                    [rule_line "b.pdf"] "42") (JNum 42)).
    + discriminate.
    + reflexivity.
    + eexists. reflexivity.
    + exact I.
Defined.

(** ** The groups of [parse_rules_file] *)

Lemma scalar_eqb_refl v : hashable v = true -> scalar_eqb v v = true.
Proof.
  destruct v as [|b|q|s|l|o]; simpl; try discriminate; intros _; try reflexivity.
  - destruct b; reflexivity.
  - apply Qeq_bool_iff. reflexivity.
  - apply String.eqb_refl.
Qed.

Lemma scalar_eqb_sym a b : scalar_eqb a b = scalar_eqb b a.
Proof.
  assert (Hq : forall p q, Qeq_bool p q = Qeq_bool q p).
  { intros p q. destruct (Qeq_bool p q) eqn:E1, (Qeq_bool q p) eqn:E2; try reflexivity.
    - apply Qeq_bool_iff in E1. symmetry in E1. apply Qeq_bool_iff in E1. congruence.
    - apply Qeq_bool_iff in E2. symmetry in E2. apply Qeq_bool_iff in E2. congruence. }
  destruct a, b; simpl; try reflexivity; try apply Hq.
  apply String.eqb_sym.
Qed.

Lemma scalar_eqb_trans a b c :
  scalar_eqb a b = true -> scalar_eqb b c = true -> scalar_eqb a c = true.
Proof.
  assert (Hq : forall p q r, Qeq_bool p q = true -> Qeq_bool q r = true -> Qeq_bool p r = true).
  { intros p q r H1 H2. apply Qeq_bool_iff in H1, H2. apply Qeq_bool_iff.
    now rewrite H1. }
  destruct a, b; simpl; try discriminate; destruct c; simpl; try discriminate;
    try (intros; reflexivity); try apply Hq.
  intros H1 H2. apply String.eqb_eq in H1, H2. subst. apply String.eqb_refl.
Qed.

Lemma rules_append_new v rule d :
  existsb (fun k' => scalar_eqb k' v) (map fst d) = false ->
  rules_append v rule d = (d ++ [(v, [rule])])%list.
Proof.
  induction d as [|[k' rs] d IH]; [reflexivity|]. simpl.
  destruct (scalar_eqb k' v); [discriminate|]. simpl. intros H. now rewrite IH.
Qed.

Lemma rules_append_old v rule d :
  existsb (fun k' => scalar_eqb k' v) (map fst d) = true ->
  exists d1 k' rs' d2,
    d = (d1 ++ (k', rs') :: d2)%list
    /\ scalar_eqb k' v = true
    /\ (forall k rs, In (k, rs) d1 -> scalar_eqb k v = false)
    /\ rules_append v rule d = (d1 ++ (k', (rs' ++ [rule])%list) :: d2)%list.
Proof.
  induction d as [|[k' rs] d IH]; [discriminate|]. simpl.
  destruct (scalar_eqb k' v) eqn:E.
  - intros _. exists [], k', rs, d. repeat split; [exact E|]. intros k rs0 [].
  - simpl. intros H. destruct (IH H) as (d1 & k1 & rs1 & d2 & -> & Hk & Hd1 & ->).
    exists ((k', rs) :: d1), k1, rs1, d2. repeat split; [exact Hk|].
    intros k rs0 [[= <- <-]|Hin]; [exact E | eauto].
Qed.

Lemma distinct_keys_after l1 x l2 y :
  distinct_keys (l1 ++ x :: l2) = true -> In y l2 -> scalar_eqb x y = false.
Proof.
  induction l1 as [|z l1 IH]; simpl; intros H Hy.
  - apply andb_true_iff in H as [H _]. apply negb_true_iff in H.
    destruct (scalar_eqb x y) eqn:E; [|reflexivity].
    rewrite <- H. symmetry. apply existsb_exists. eauto.
  - apply andb_true_iff in H as [_ H]. auto.
Qed.

Lemma filter_none {A} (f : A -> bool) l :
  (forall x, In x l -> f x = false) -> List.filter f l = [].
Proof.
  induction l as [|x l IH]; intros H; [reflexivity|]. simpl.
  rewrite (H x (or_introl eq_refl)). apply IH. intros y Hy. apply H. now right.
Qed.

Lemma grouped_append d R o v :
  grouped d R -> dict_get "pdf" o = Some v -> hashable v = true ->
  grouped (rules_append v (JObj o) d) (R ++ [JObj o]).
Proof.
  intros (Hd & Hg & Hr) Ho Hv.
  assert (Hname : forall k, names_pdf k (JObj o) = scalar_eqb k v).
  { intros k. unfold names_pdf. now rewrite Ho. }
  assert (Hkeep : forall k rs, scalar_eqb k v = false ->
            rs = List.filter (names_pdf k) R ->
            rs = List.filter (names_pdf k) (R ++ [JObj o])).
  { intros k rs Hk ->. rewrite List.filter_app. cbn [List.filter]. rewrite Hname, Hk.
    now rewrite app_nil_r. }
  destruct (existsb (fun k' => scalar_eqb k' v) (map fst d)) eqn:E.
  - destruct (rules_append_old v (JObj o) d E) as (d1 & k' & rs' & d2 & Hsplit & Hk' & Hd1 & Happ).
    split; [|split].
    + now rewrite rules_append_keys, E.
    + rewrite Happ. intros k rs Hin. apply in_app_or in Hin as [Hin|[[= <- <-]|Hin]].
      * destruct (Hg k rs) as (Hne & Hh & Hf); [rewrite Hsplit; apply in_or_app; now left|].
        repeat split; [exact Hne | exact Hh |]. apply Hkeep; [eauto | exact Hf].
      * destruct (Hg k' rs') as (Hne & Hh & Hf);
          [rewrite Hsplit; apply in_or_app; right; now left|].
        repeat split; [now destruct rs' | exact Hh |].
        rewrite List.filter_app. cbn [List.filter]. rewrite Hname, Hk'. now rewrite <- Hf.
      * destruct (Hg k rs) as (Hne & Hh & Hf);
          [rewrite Hsplit; apply in_or_app; right; now right|].
        repeat split; [exact Hne | exact Hh |]. apply Hkeep; [|exact Hf].
        assert (Hkk : scalar_eqb k' k = false).
        { rewrite Hsplit, map_app in Hd. simpl in Hd.
          eapply distinct_keys_after; [exact Hd|]. apply (in_map fst) in Hin. exact Hin. }
        destruct (scalar_eqb k v) eqn:Ekv; [|reflexivity].
        rewrite <- Hkk. symmetry. eapply scalar_eqb_trans; [exact Hk'|].
        now rewrite scalar_eqb_sym.
    + intros r Hin. rewrite rules_append_keys, E.
      apply in_app_or in Hin as [Hin|[<-|[]]]; [auto|].
      apply existsb_exists in E as (k & Hk & Hkv). exists k. now rewrite Hname.
  - assert (Hnone : forall k, In k (map fst d) -> scalar_eqb k v = false).
    { intros k Hk. destruct (scalar_eqb k v) eqn:Ekv; [|reflexivity].
      rewrite <- E. symmetry. apply existsb_exists. eauto. }
    split; [|split].
    + rewrite rules_append_keys, E, distinct_keys_snoc, Hd, E. reflexivity.
    + rewrite rules_append_new by exact E.
      intros k rs Hin. apply in_app_or in Hin as [Hin|[[= <- <-]|[]]].
      * destruct (Hg k rs Hin) as (Hne & Hh & Hf).
        repeat split; [exact Hne | exact Hh |]. apply Hkeep; [|exact Hf].
        apply Hnone. apply (in_map fst) in Hin. exact Hin.
      * repeat split; [discriminate | exact Hv |].
        rewrite List.filter_app. cbn [List.filter]. rewrite Hname, (scalar_eqb_refl v Hv).
        rewrite filter_none; [reflexivity|].
        intros r Hin. destruct (Hr r Hin) as (k & Hk & Hkr).
        destruct (names_pdf v r) eqn:Evr; [|reflexivity].
        rewrite <- (Hnone k Hk). symmetry.
        unfold names_pdf in *. destruct r as [| | | | |o']; try discriminate.
        destruct (dict_get "pdf" o') as [k0|]; [|discriminate].
        eapply scalar_eqb_trans; [exact Hkr|]. now rewrite scalar_eqb_sym.
    + intros r Hin. rewrite rules_append_keys, E.
      apply in_app_or in Hin as [Hin|[<-|[]]].
      * destruct (Hr r Hin) as (k & Hk & Hkr). exists k. split; [|exact Hkr].
        apply in_or_app. now left.
      * exists v. split; [apply in_or_app; right; now left|].
        rewrite Hname. now apply scalar_eqb_refl.
Qed.

Section RuleGroups.

Variable json_loads : string -> option json.

Lemma parse_rule_line_grouped d R line d' :
  parse_rule_line json_loads d line = Ok d' -> grouped d R ->
  grouped d' (R ++ match line_rule json_loads line with
                   | Some rule => [rule]
                   | None => []
                   end).
Proof.
  unfold parse_rule_line, line_rule.
  destruct (String.eqb (py_strip line) EmptyString);
    [intros [= <-]; now rewrite app_nil_r|].
  destruct (json_loads (py_strip line)) as [rule|];
    [|intros [= <-]; now rewrite app_nil_r].
  destruct rule as [| | |s|l|o]; cbn [py_in bind]; try discriminate.
  - destruct (has_substring "pdf" s); cbn [py_getitem bind];
      [discriminate | intros [= <-]; now rewrite app_nil_r].
  - destruct (existsb _ l); cbn [py_getitem bind];
      [discriminate | intros [= <-]; now rewrite app_nil_r].
  - unfold has_key, py_getitem.
    destruct (dict_get "pdf" o) as [k|] eqn:Ho; cbn [bind];
      [|intros [= <-]; now rewrite app_nil_r].
    destruct (hashable k) eqn:Hk; [|discriminate].
    intros [= <-] Hg. now apply grouped_append.
Qed.

Lemma parse_rule_lines_grouped lines d R d' :
  parse_rule_lines json_loads d lines = Ok d' -> grouped d R ->
  grouped d' (R ++ line_rules json_loads lines).
Proof.
  revert d R. induction lines as [|line lines IH]; intros d R H Hg.
  - injection H as <-. simpl. now rewrite app_nil_r.
  - cbn [parse_rule_lines] in H. apply bind_ok in H as (d1 & H1 & H).
    eapply parse_rule_line_grouped in H1; [|exact Hg].
    apply (IH _ _ H) in H1. cbn [line_rules].
    destruct (line_rule json_loads line) as [rule|].
    + now rewrite <- app_assoc in H1.
    + now rewrite app_nil_r in H1.
Qed.

(** X14.  When [parse_rules_file] returns, its keys are pairwise different
    PDFs, the list under a key is never empty and holds exactly the rules
    of the file whose [pdf] equals the key, in the order of the file, and
    every rule of the file that has a [pdf] is in the list of some key. *)
Theorem parse_rules_file_groups (lines : list string) (pdf_rules : list (json * list json)) :
  parse_rules_file json_loads lines = Ok pdf_rules ->
  distinct_keys (map fst pdf_rules) = true
  /\ (forall k rules, In (k, rules) pdf_rules ->
        rules <> []
        /\ rules = List.filter (names_pdf k) (line_rules json_loads lines))
  /\ (forall rule, In rule (line_rules json_loads lines) ->
        exists k rules, In (k, rules) pdf_rules /\ In rule rules).
Proof.
  intros H. unfold parse_rules_file in H.
  apply (parse_rule_lines_grouped _ _ []) in H.
  - simpl in H. destruct H as (Hd & Hg & Hr). split; [exact Hd|]. split.
    + intros k rules Hin. destruct (Hg k rules Hin) as (Hne & _ & Hf). now split.
    + intros rule Hin. destruct (Hr rule Hin) as (k & Hk & Hkr).
      apply in_map_iff in Hk as ([k0 rules] & Hk0 & Hin0). simpl in Hk0. subst k0.
      exists k, rules. split; [exact Hin0|].
      destruct (Hg k rules Hin0) as (_ & _ & ->).
      apply List.filter_In. now split.
  - split; [reflexivity|]. split; [intros k rs []| intros r []].
Qed.

End RuleGroups.

Lemma parse_rules_file_groups_witness :
  distinct_keys (map fst sample_rules) = true
  /\ (forall k rules, In (k, rules) sample_rules ->
        rules <> []
        /\ rules = List.filter (names_pdf k) (line_rules sample_loads sample_rule_lines))
  /\ (forall rule, In rule (line_rules sample_loads sample_rule_lines) ->
        exists k rules, In (k, rules) sample_rules /\ In rule rules).
Proof.
  apply (parse_rules_file_groups sample_loads sample_rule_lines sample_rules).
  reflexivity.
Defined.

(** ** The page of [generate_html], section by section *)

Section PageLayout.

Variable render_pdf_to_base64png : string -> Z -> foreign string.
Variable run_chatgpt : string -> foreign string.
Variable run_gemini : string -> foreign string.

(** X15.  With a list of PDFs that is not empty, [generate_html] gives
    the head of the page, then what the loop body adds for each name of the
    list, in the order of the list, then the tail: one section for every
    name listed, however many there are and also when a name is listed
    twice.  The parsed rules take no part in the page. *)
Theorem generate_html_listed_pdfs
    (pdf_rules : list (json * list json)) (rules_file_path : string)
    (p : string) (ps : list string) :
  generate_html render_pdf_to_base64png run_chatgpt run_gemini
    pdf_rules rules_file_path (Some (p :: ps))
  = (let! secs := sections render_pdf_to_base64png run_chatgpt run_gemini
                    (path_join (dirname rules_file_path) "pdfs")
                    (map JStr (p :: ps)) in
     Ok (page_head ++ join secs ++ page_tail))
  /\ (forall secs,
        sections render_pdf_to_base64png run_chatgpt run_gemini
          (path_join (dirname rules_file_path) "pdfs") (map JStr (p :: ps)) = Ok secs ->
        length secs = S (length ps))
  /\ (forall other_rules,
        generate_html render_pdf_to_base64png run_chatgpt run_gemini
          other_rules rules_file_path (Some (p :: ps))
        = generate_html render_pdf_to_base64png run_chatgpt run_gemini
            pdf_rules rules_file_path (Some (p :: ps))).
Proof.
  split; [|split].
  - unfold generate_html, pdf_names. rewrite render_pdfs_join.
    destruct (sections _ _ _ _ _) as [secs|x]; cbn [bind]; [|reflexivity].
    now rewrite str_app_assoc.
  - intros secs H. apply sections_length in H. rewrite H. simpl.
    now rewrite length_map.
  - intros other_rules. reflexivity.
Qed.

(** X16.  A PDF to go through that is not a string (a rule whose [pdf]
    is a number, a boolean or [null], among the first ten keys) stops
    [generate_html] with [TypeError] once the PDFs before it are done; no
    page is returned. *)
Theorem generate_html_pdf_not_a_string
    (pdf_rules : list (json * list json)) (rules_file_path : string)
    (pdfs_to_process : option (list string)) (before after : list json) (name : json) :
  pdf_names pdf_rules pdfs_to_process = (before ++ name :: after)%list ->
  (forall s, name <> JStr s) ->
  returns (sections render_pdf_to_base64png run_chatgpt run_gemini
             (path_join (dirname rules_file_path) "pdfs") before) ->
  generate_html render_pdf_to_base64png run_chatgpt run_gemini
    pdf_rules rules_file_path pdfs_to_process
  = Raise TypeError.
Proof.
  intros Hn Hs [secs Hb]. unfold generate_html. rewrite Hn, render_pdfs_join, sections_app, Hb.
  cbn [bind sections]. unfold render_pdf.
  destruct name as [| | |s| |]; cbn [path_join_value bind]; try reflexivity.
  now destruct (Hs s).
Qed.

End PageLayout.

Lemma generate_html_pdf_not_a_string_witness :
  generate_html sample_render sample_chatgpt sample_gemini
    [(JStr "a.pdf", [rule_value "a.pdf"]); (JNum 3, [JObj [("pdf", JNum 3)]])]
    "bench/rules.jsonl" None
  = Raise TypeError.
Proof.
  apply (generate_html_pdf_not_a_string sample_render sample_chatgpt sample_gemini
           _ _ None [JStr "a.pdf"] [] (JNum 3)).
  - reflexivity.
  - discriminate.
  - eexists. reflexivity.
Defined.

(** ** The entries of the inference engine *)

(** X17.  For an entry that has an [outputs] key and whose [custom_id] is a
    key [from_goldkey] accepts, [normalize_json_entry] takes the error from
    [completion_error] ([None] when the key is absent) and reads the first
    output only: with [outputs] null the text and the finish reason are
    [None]; with a first output whose text is null the text stays [None];
    with a text that is not valid JSON the text is the raw text; with a text
    that decodes, the text is its [natural_text], and an error of that
    lookup is the error of the call. *)
Theorem normalize_json_entry_inference_engine
    (json_loads : string -> option json) (o : list (string * json))
    (outs : json) (k : string) (i : nat) (n : Z) :
  dict_get "outputs" o = Some outs ->
  dict_get "custom_id" o = Some (JStr k) ->
  rindex dash k = Some i ->
  py_int (slice_from (S i) k) = Some n ->
  let err := default JNull (dict_get "completion_error" o) in
  (outs = JNull ->
   normalize_json_entry json_loads (JObj o)
   = Ok (mkNormalizedEntry (slice_to i k) n JNull JNull err))
  /\ (forall first rest f,
        outs = JArr (first :: rest) ->
        py_getitem first "finish_reason" = Ok f ->
        (py_getitem first "text" = Ok JNull ->
         normalize_json_entry json_loads (JObj o)
         = Ok (mkNormalizedEntry (slice_to i k) n JNull f err))
        /\ (forall t,
              py_getitem first "text" = Ok (JStr t) ->
              match json_loads t with
              | None =>
                  normalize_json_entry json_loads (JObj o)
                  = Ok (mkNormalizedEntry (slice_to i k) n (JStr t) f err)
              | Some parsed_content =>
                  normalize_json_entry json_loads (JObj o)
                  = (let! v := py_getitem parsed_content "natural_text" in
                     Ok (mkNormalizedEntry (slice_to i k) n v f err))
              end)).
Proof.
  intros Ho Hk Hi Hn err. unfold normalize_json_entry.
  cbn [py_in bind]. unfold has_key. rewrite Ho. cbn [py_getitem bind]. rewrite Ho.
  cbn [bind]. split.
  - intros ->. cbn [bind fst snd]. rewrite Hk. cbn [bind py_get].
    unfold from_goldkey_value, from_goldkey. now rewrite Hi, Hn.
  - intros first rest f -> Hf. cbn [py_first bind]. split.
    + intros Ht. rewrite Ht. cbn [bind]. rewrite Hf. cbn [bind fst snd]. rewrite Hk.
      cbn [bind py_get]. unfold from_goldkey_value, from_goldkey. now rewrite Hi, Hn.
    + intros t Ht. rewrite Ht. cbn [bind]. rewrite Hf. cbn [bind fst snd loads_value].
      destruct (json_loads t) as [parsed_content|].
      * destruct (py_getitem parsed_content "natural_text") as [v|x]; cbn [bind];
          [|reflexivity].
        rewrite Hk. cbn [bind py_get]. unfold from_goldkey_value, from_goldkey.
        now rewrite Hi, Hn.
      * cbn [bind]. rewrite Hk. cbn [bind py_get]. unfold from_goldkey_value, from_goldkey.
        now rewrite Hi, Hn.
Qed.

Lemma normalize_json_entry_inference_engine_witness :
  normalize_json_entry sample_loads
    (JObj [("custom_id", JStr "a-b.pdf-10");
           ("outputs", JArr [JObj [("text", JStr "plain words");
                                   ("finish_reason", JStr "stop")];
                             JObj [("text", JStr "second output");
                                   ("finish_reason", JStr "length")]]);
           ("completion_error", JStr "timeout")])
  = Ok (mkNormalizedEntry "a-b.pdf" 10 (JStr "plain words") (JStr "stop") (JStr "timeout")).
Proof.
  exact (proj2
           (proj2 (normalize_json_entry_inference_engine sample_loads
                     [("custom_id", JStr "a-b.pdf-10");
                      ("outputs", JArr [JObj [("text", JStr "plain words");
                                              ("finish_reason", JStr "stop")];
                                        JObj [("text", JStr "second output");
                                              ("finish_reason", JStr "length")]]);
                      ("completion_error", JStr "timeout")]
                     _ "a-b.pdf-10" 7 10 eq_refl eq_refl eq_refl eq_refl)
              _ _ (JStr "stop") eq_refl eq_refl)
           "plain words" eq_refl).
Defined.
